(** * Verification model of the financial normalisation and scoring core of
    [src/tools/akshare-api.py].

    Python floats are modelled as exact rationals [Q]; the claims below only
    compare, scale and divide finite values, where this is the intended
    reading.  Python [str] values are modelled as UTF-8 encoded [string]s:
    on well-formed UTF-8, substring tests and [str.replace] on bytes agree
    with the same operations on code points. *)

From Stdlib Require Import ZArith QArith String Ascii List Bool Lia DecimalString.
From Stdlib Require Import Sorting.Sorted.
Import ListNotations.

Open Scope string_scope.

(* ------------------------------------------------------------------ *)
(** ** Python runtime fragments *)

(** Exceptions that the modelled code can raise. *)
Inductive exn : Type :=
| ValueError
| TypeError
| IndexError
| OverflowError
| KeyError.

(** A computation that returns a value or raises. *)
Inductive result (A : Type) : Type :=
| Ok (a : A)
| Raise (e : exn).
Arguments Ok {A} a.
Arguments Raise {A} e.

Definition fmap_result {A B} (f : A -> B) (r : result A) : result B :=
  match r with
  | Ok a => Ok (f a)
  | Raise e => Raise e
  end.

(** Numeric cells of a pandas row are [int64] or [float64]. *)
Record i64 : Type := mk_i64 {
  i64_val : Z;
  i64_bound : ((- 2 ^ 63 <=? i64_val) && (i64_val <? 2 ^ 63))%Z = true
}.

Definition i64_zero : i64 := mk_i64 0 eq_refl.

(** A raw cell as read by [row.get(...)]: [None] for an absent column. *)
Inductive cell : Type :=
| CNone
| CBool (b : bool)
| CInt (i : i64)
| CFloat (q : Q)
| CStr (s : string).

(** [value in [None, 'False', False, '', 'nan']]: membership uses [==],
    and [False == 0 == 0.0] in Python. *)
Definition in_sentinels (v : cell) : bool :=
  match v with
  | CNone => true
  | CBool b => negb b
  | CInt i => (i64_val i =? 0)%Z
  | CFloat q => Qeq_bool q 0
  | CStr s => (s =? "False") || (s =? "") || (s =? "nan")
  end.

(** *** Strings *)

(** [pat in s]. *)
Fixpoint str_contains (pat s : string) : bool :=
  String.prefix pat s ||
  match s with
  | EmptyString => false
  | String _ s' => str_contains pat s'
  end.

Fixpoint str_drop (n : nat) (s : string) : string :=
  match n, s with
  | O, _ => s
  | S n', String _ s' => str_drop n' s'
  | S _, EmptyString => EmptyString
  end.

Fixpoint replace_fuel (fuel : nat) (pat rep s : string) : string :=
  match fuel with
  | O => s
  | S f =>
      match s with
      | EmptyString => EmptyString
      | String c s' =>
          if String.prefix pat s
          then rep ++ replace_fuel f pat rep (str_drop (String.length pat) s)
          else String c (replace_fuel f pat rep s')
      end
  end.

(** [s.replace(pat, rep)] for a non-empty [pat]: left to right,
    non-overlapping. *)
Definition str_replace (pat rep s : string) : string :=
  replace_fuel (String.length s) pat rep s.

(** *** [float(str)] *)

(** The decimal literals accepted by Python's [float]: surrounding ASCII
    whitespace, an optional sign, digits with an optional point, an optional
    exponent.  The literals [inf], [infinity] and [nan], underscores and
    non-ASCII digits have no rational value and are not recognised here. *)

Definition is_digit (c : ascii) : bool :=
  let n := nat_of_ascii c in (48 <=? n)%nat && (n <=? 57)%nat.

Definition is_space (c : ascii) : bool :=
  let n := nat_of_ascii c in
  (n =? 32)%nat || (n =? 9)%nat || (n =? 10)%nat || (n =? 11)%nat
  || (n =? 12)%nat || (n =? 13)%nat.

Definition is_sign (c : ascii) : bool := (c =? "+")%char || (c =? "-")%char.
Definition is_point (c : ascii) : bool := (c =? ".")%char.
Definition is_exp (c : ascii) : bool := (c =? "e")%char || (c =? "E")%char.

Definition digit_val (c : ascii) : Z := Z.of_nat (nat_of_ascii c - 48).

(** The characters a float literal can contain. *)
Definition float_char (c : ascii) : bool :=
  is_digit c || is_space c || is_sign c || is_point c || is_exp c.

Inductive pstate : Type :=
| PLead   (* leading whitespace *)
| PSign   (* after the sign *)
| PInt    (* integer digits *)
| PDot0   (* point with no digit before it *)
| PDot1   (* point after integer digits *)
| PFrac   (* fraction digits *)
| PE      (* exponent marker *)
| PES     (* exponent sign *)
| PED     (* exponent digits *)
| PTrail. (* trailing whitespace *)

Record pacc : Type := mk_pacc {
  a_neg : bool; a_mant : Z; a_scale : Z; a_eneg : bool; a_exp : Z
}.

Definition acc0 : pacc := mk_pacc false 0 0 false 0.

Definition push_mant (a : pacc) (c : ascii) (frac : bool) : pacc :=
  mk_pacc (a_neg a) (a_mant a * 10 + digit_val c)
          (if frac then a_scale a + 1 else a_scale a) (a_eneg a) (a_exp a).

Definition push_exp (a : pacc) (c : ascii) : pacc :=
  mk_pacc (a_neg a) (a_mant a) (a_scale a) (a_eneg a) (a_exp a * 10 + digit_val c).

Definition set_neg (a : pacc) (c : ascii) : pacc :=
  mk_pacc ((c =? "-")%char) (a_mant a) (a_scale a) (a_eneg a) (a_exp a).

Definition set_eneg (a : pacc) (c : ascii) : pacc :=
  mk_pacc (a_neg a) (a_mant a) (a_scale a) ((c =? "-")%char) (a_exp a).

Definition pstep (st : pstate) (a : pacc) (c : ascii) : option (pstate * pacc) :=
  match st with
  | PLead =>
      if is_space c then Some (PLead, a)
      else if is_sign c then Some (PSign, set_neg a c)
      else if is_digit c then Some (PInt, push_mant a c false)
      else if is_point c then Some (PDot0, a) else None
  | PSign =>
      if is_digit c then Some (PInt, push_mant a c false)
      else if is_point c then Some (PDot0, a) else None
  | PInt =>
      if is_digit c then Some (PInt, push_mant a c false)
      else if is_point c then Some (PDot1, a)
      else if is_exp c then Some (PE, a)
      else if is_space c then Some (PTrail, a) else None
  | PDot0 =>
      if is_digit c then Some (PFrac, push_mant a c true) else None
  | PDot1 | PFrac =>
      if is_digit c then Some (PFrac, push_mant a c true)
      else if is_exp c then Some (PE, a)
      else if is_space c then Some (PTrail, a) else None
  | PE =>
      if is_sign c then Some (PES, set_eneg a c)
      else if is_digit c then Some (PED, push_exp a c) else None
  | PES =>
      if is_digit c then Some (PED, push_exp a c) else None
  | PED =>
      if is_digit c then Some (PED, push_exp a c)
      else if is_space c then Some (PTrail, a) else None
  | PTrail =>
      if is_space c then Some (PTrail, a) else None
  end.

Fixpoint prun (st : pstate) (a : pacc) (cs : list ascii) : option (pstate * pacc) :=
  match cs with
  | [] => Some (st, a)
  | c :: cs' =>
      match pstep st a c with
      | Some (st', a') => prun st' a' cs'
      | None => None
      end
  end.

Definition accepting (st : pstate) : bool :=
  match st with
  | PInt | PDot1 | PFrac | PED | PTrail => true
  | _ => false
  end.

Definition pacc_value (a : pacc) : Q :=
  let m := if a_neg a then (- a_mant a)%Z else a_mant a in
  let e := ((if a_eneg a then - a_exp a else a_exp a) - a_scale a)%Z in
  if (0 <=? e)%Z then inject_Z (m * 10 ^ e)
  else Qmake m (Pos.pow 10 (Z.to_pos (- e))).

(** [float(s)] for a [str]. *)
Definition py_float_str (s : string) : result Q :=
  match prun PLead acc0 (list_ascii_of_string s) with
  | Some (st, a) => if accepting st then Ok (pacc_value a) else Raise ValueError
  | None => Raise ValueError
  end.

(** [float(value)]. *)
Definition py_float (v : cell) : result Q :=
  match v with
  | CNone => Raise TypeError
  | CBool b => Ok (if b then 1 else 0)
  | CInt i => Ok (inject_Z (i64_val i))
  | CFloat q => Ok q
  | CStr s => py_float_str s
  end.

(** [except (ValueError, TypeError): return handler]. *)
Definition catch_value_type {A} (handler : A) (r : result A) : result A :=
  match r with
  | Raise ValueError | Raise TypeError => Ok handler
  | _ => r
  end.

(* ------------------------------------------------------------------ *)
(** ** Value Extractor *)

Definition YI : string := "亿".
Definition WAN : string := "万".
Definition PCT : string := "%".

Definition q1e8 : Q := inject_Z 100000000.
Definition q1e4 : Q := inject_Z 10000.

(** [safe_extract_value] inside [get_financial_metrics]. *)
Definition safe_extract_value (value : cell) (multiplier : Q) : result (option Q) :=
  if in_sentinels value then Ok None
  else catch_value_type None
    match value with
    | CStr s =>
        if str_contains YI s then
          fmap_result (fun x => Some (x * q1e8 * multiplier))
                      (py_float_str (str_replace YI "" s))
        else if str_contains WAN s then
          fmap_result (fun x => Some (x * q1e4 * multiplier))
                      (py_float_str (str_replace WAN "" s))
        else if str_contains PCT s then
          fmap_result (fun x => Some x) (py_float_str (str_replace PCT "" s))
        else
          let clean_value := str_replace " " "" (str_replace "," "" s) in
          fmap_result (fun x => Some (x * multiplier)) (py_float_str clean_value)
    | _ => fmap_result (fun x => Some (x * multiplier)) (py_float value)
    end.

(** [safe_float] inside [search_line_items]. *)
Definition safe_float (value : cell) (default : Q) : result Q :=
  if in_sentinels value then Ok default
  else catch_value_type default
    match value with
    | CStr s =>
        if str_contains YI s then
          fmap_result (fun x => x * q1e8) (py_float_str (str_replace YI "" s))
        else if str_contains WAN s then
          fmap_result (fun x => x * q1e4) (py_float_str (str_replace WAN "" s))
        else if str_contains PCT s then
          py_float_str (str_replace PCT "" s)
        else py_float value
    | _ => py_float value
    end.

(** Comparison of extractor results up to equality of rationals. *)
Definition opt_qeqb (x y : option Q) : bool :=
  match x, y with
  | Some a, Some b => Qeq_bool a b
  | None, None => true
  | _, _ => false
  end.

Definition res_opt_qeqb (r : result (option Q)) (y : option Q) : bool :=
  match r with
  | Ok x => opt_qeqb x y
  | Raise _ => false
  end.


Definition bind_result {A B} (r : result A) (k : A -> result B) : result B :=
  match r with
  | Ok a => k a
  | Raise e => Raise e
  end.

Notation "'let*' x ':=' c 'in' k" := (bind_result c (fun x => k))
  (at level 200, x name, c at level 100, k at level 200).

(** Python comparisons on floats. *)
Definition py_lt (x y : Q) : bool := negb (Qle_bool y x).
Definition py_le (x y : Q) : bool := Qle_bool x y.
Definition py_ne (x y : Q) : bool := negb (Qeq_bool x y).

(* ------------------------------------------------------------------ *)
(** ** Ratio Engine of [search_line_items] *)

(** A pandas row: column name to cell; [row.get(k)] is [None] when the
    column is absent. *)
Definition row := list (string * cell).

Fixpoint assoc {A} (k : string) (l : list (string * A)) : option A :=
  match l with
  | [] => None
  | (k', v) :: l' => if String.eqb k k' then Some v else assoc k l'
  end.

Definition row_get (r : row) (k : string) : cell :=
  match assoc k r with
  | Some v => v
  | None => CNone
  end.

Definition field_mapping : list (string * string) := [
  ("net_income", "净利润");
  ("revenue", "营业总收入");
  ("total_assets", "总资产");
  ("total_liabilities", "负债合计");
  ("current_assets", "流动资产");
  ("current_liabilities", "流动负债");
  ("shareholders_equity", "股东权益合计");
  ("earnings_per_share", "每股收益");
  ("book_value_per_share", "每股净资产");
  ("free_cash_flow", "经营现金流量净额");
  ("depreciation", "折旧与摊销");
  ("capex", "购建固定资产无形资产和其他长期资产支付的现金");
  ("ebit", "营业利润");
  ("ebitda", "息税折旧摊销前利润");
  ("outstanding_shares", "总股本");
  ("dividends_and_other_cash_distributions", "分派股利利润或偿付利息支付的现金");
  ("operating_income", "营业利润");
  ("gross_profit", "毛利润");
  ("operating_expenses", "营业总成本");
  ("cash_and_cash_equivalents", "货币资金");
  ("inventory", "存货");
  ("accounts_receivable", "应收账款");
  ("accounts_payable", "应付账款");
  ("long_term_debt", "长期借款");
  ("short_term_debt", "短期借款");
  ("interest_expense", "利息费用");
  ("income_tax_expense", "所得税费用");
  ("research_and_development", "研发费用");
  ("selling_general_administrative", "销售费用");
  ("cost_of_revenue", "营业成本");
  ("operating_cash_flow", "经营现金流量净额");
  ("investing_cash_flow", "投资现金流量净额");
  ("financing_cash_flow", "筹资现金流量净额");
  ("weighted_average_shares", "总股本");
  ("diluted_weighted_average_shares", "总股本")
].

Definition calculated_fields : list (string * list string) := [
  ("working_capital", ["流动资产"; "流动负债"]);
  ("book_value", ["总资产"; "负债合计"]);
  ("debt_to_equity", ["负债合计"; "股东权益合计"]);
  ("total_debt", ["长期借款"; "短期借款"]);
  ("net_debt", ["长期借款"; "短期借款"; "货币资金"]);
  ("return_on_equity", ["净利润"; "股东权益合计"]);
  ("return_on_assets", ["净利润"; "总资产"]);
  ("asset_turnover", ["营业总收入"; "总资产"]);
  ("current_ratio", ["流动资产"; "流动负债"]);
  ("quick_ratio", ["流动资产"; "存货"; "流动负债"]);
  ("gross_margin", ["毛利润"; "营业总收入"]);
  ("operating_margin", ["营业利润"; "营业总收入"]);
  ("net_margin", ["净利润"; "营业总收入"])
].

(** [x / y if y != 0 else 0.0] *)
Definition div_or_zero (x y : Q) : Q := if py_ne y 0 then x / y else 0.
(** [(x / y) * 100 if y != 0 else 0.0] *)
Definition pct_or_zero (x y : Q) : Q := if py_ne y 0 then x / y * 100 else 0.

(** [get_field_value(row, field_name)]; [ak_fields[i]] is [nth i]. *)
Definition get_field_value (r : row) (field_name : string) : result Q :=
  match assoc field_name field_mapping with
  | Some ak_field => safe_float (row_get r ak_field) 0
  | None =>
      let fallback := safe_float (row_get r field_name) 0 in
      match assoc field_name calculated_fields with
      | None => fallback
      | Some ak_fields =>
          let f i := safe_float (row_get r (nth i ak_fields "")) 0 in
          if field_name =? "working_capital" then
            let* a := f 0%nat in let* b := f 1%nat in Ok (a - b)
          else if field_name =? "book_value" then
            let* a := f 0%nat in let* b := f 1%nat in Ok (a - b)
          else if field_name =? "debt_to_equity" then
            let* a := f 0%nat in let* b := f 1%nat in Ok (div_or_zero a b)
          else if field_name =? "total_debt" then
            let* a := f 0%nat in let* b := f 1%nat in Ok (a + b)
          else if field_name =? "net_debt" then
            let* a := f 0%nat in let* b := f 1%nat in let* c := f 2%nat in
            Ok (a + b - c)
          else if field_name =? "return_on_equity" then
            let* a := f 0%nat in let* b := f 1%nat in Ok (pct_or_zero a b)
          else if field_name =? "return_on_assets" then
            let* a := f 0%nat in let* b := f 1%nat in Ok (pct_or_zero a b)
          else if field_name =? "asset_turnover" then
            let* a := f 0%nat in let* b := f 1%nat in Ok (div_or_zero a b)
          else if field_name =? "current_ratio" then
            let* a := f 0%nat in let* b := f 1%nat in Ok (div_or_zero a b)
          else if field_name =? "quick_ratio" then
            let* a := f 0%nat in let* b := f 1%nat in let* c := f 2%nat in
            Ok (div_or_zero (a - b) c)
          else if field_name =? "gross_margin" then
            let* a := f 0%nat in let* b := f 1%nat in Ok (pct_or_zero a b)
          else if field_name =? "operating_margin" then
            let* a := f 0%nat in let* b := f 1%nat in Ok (pct_or_zero a b)
          else if field_name =? "net_margin" then
            let* a := f 0%nat in let* b := f 1%nat in Ok (pct_or_zero a b)
          else fallback
      end
  end.

(* ------------------------------------------------------------------ *)
(** ** Metrics Aligner: [get_financial_metrics] *)

(** [safe_ratio] inside [get_financial_metrics]. *)
Definition safe_ratio (numerator denominator : option Q) (percentage : bool) : option Q :=
  match numerator, denominator with
  | Some n, Some d =>
      if Qeq_bool d 0 then None
      else let ratio := n / d in
           if percentage then Some (ratio * 100) else Some ratio
  | _, _ => None
  end.

(** Python truthiness of an [Optional[float]]. *)
Definition truthy (x : option Q) : bool :=
  match x with
  | Some q => py_ne q 0
  | None => false
  end.

(** A float (or [None]) handed back to [safe_extract_value]. *)
Definition cell_of_opt (x : option Q) : cell :=
  match x with
  | Some q => CFloat q
  | None => CNone
  end.

(** [a - b] on [Optional[float]]: [None] raises [TypeError]. *)
Definition py_sub (a b : option Q) : result (option Q) :=
  match a, b with
  | Some x, Some y => Ok (Some (x - y))
  | _, _ => Raise TypeError
  end.

(** One row of a statement table, keyed by its [报告期] column. *)
Record stmt_row : Type := mk_stmt_row { period : string; cols : row }.
Definition table := list stmt_row.

(** [df[df['报告期'] == p].iloc[0]] *)
Definition find_row (t : table) (p : string) : result stmt_row :=
  match List.find (fun r => String.eqb (period r) p) t with
  | Some r => Ok r
  | None => Raise IndexError
  end.

(** The [FinancialMetrics] fields that [get_financial_metrics] fills from
    the statements (the fields it always sets to [None] are left out). *)
Record financial_metrics : Type := mk_metrics {
  report_period : string;
  fm_ticker : string;
  fm_period : string;
  fm_currency : string;
  revenue : option Q;
  net_income : option Q;
  gross_profit : option Q;
  operating_income : option Q;
  ebit : option Q;
  total_assets : option Q;
  current_assets : option Q;
  non_current_assets : option Q;
  cash_and_cash_equivalents : option Q;
  total_debt : option Q;
  current_liabilities : option Q;
  non_current_liabilities : option Q;
  shareholders_equity : option Q;
  return_on_equity : option Q;
  return_on_assets : option Q;
  operating_margin : option Q;
  net_margin : option Q;
  gross_margin : option Q;
  current_ratio : option Q;
  debt_to_equity : option Q;
  debt_to_assets : option Q;
  earnings_per_share : option Q;
  book_value_per_share : option Q
}.

(** The body of the per-period [try] block of [get_financial_metrics]. *)
Definition build_metric (ticker period_tag : string) (benefit_data debt_data : table)
    (rp : string) : result financial_metrics :=
  let* benefit_row := find_row benefit_data rp in
  let* debt_row := find_row debt_data rp in
  let from_benefit k := safe_extract_value (row_get (cols benefit_row) k) 1 in
  let from_debt k := safe_extract_value (row_get (cols debt_row) k) 1 in
  let* revenue := from_benefit "*营业总收入" in
  let* net_income := from_benefit "*净利润" in
  let* gross_profit := from_benefit "毛利润" in
  let* operating_income := from_benefit "三、营业利润" in
  let ebit := operating_income in
  let* total_assets := from_debt "*资产合计" in
  let* total_debt := from_debt "*负债合计" in
  let* shareholders_equity := from_debt "*所有者权益（或股东权益）合计" in
  let* current_assets := from_debt "流动资产" in
  let* current_liabilities := from_debt "流动负债" in
  let* cash := from_debt "现金及存放中央银行款项" in
  let return_on_equity := safe_ratio net_income shareholders_equity true in
  let return_on_assets := safe_ratio net_income total_assets true in
  let operating_margin := safe_ratio operating_income revenue true in
  let net_margin := safe_ratio net_income revenue true in
  let gross_margin :=
    if truthy gross_profit then safe_ratio gross_profit revenue true else None in
  let current_ratio := safe_ratio current_assets current_liabilities false in
  let debt_to_equity := safe_ratio total_debt shareholders_equity false in
  let* non_current_assets :=
    if truthy total_assets && truthy current_assets then
      let* a := safe_extract_value (cell_of_opt total_assets) 1 in
      let* b := safe_extract_value (cell_of_opt current_assets) 1 in
      py_sub a b
    else Ok None in
  let* non_current_liabilities :=
    if truthy total_debt && truthy current_liabilities then
      let* a := safe_extract_value (cell_of_opt total_debt) 1 in
      let* b := safe_extract_value (cell_of_opt current_liabilities) 1 in
      py_sub a b
    else Ok None in
  let* eps := from_benefit "（一）基本每股收益" in
  let bvps :=
    if truthy shareholders_equity
    then safe_ratio shareholders_equity (Some (inject_Z 19405918198)) false
    else None in
  Ok (mk_metrics rp ticker period_tag "CNY"
        revenue net_income gross_profit operating_income ebit
        total_assets current_assets non_current_assets cash
        total_debt current_liabilities non_current_liabilities shareholders_equity
        return_on_equity return_on_assets operating_margin net_margin gross_margin
        current_ratio debt_to_equity (safe_ratio total_debt total_assets false)
        eps bvps).

(** The messages [get_financial_metrics] prints. *)
Inductive warning : Type :=
| WNoBenefit
| WNoDebt
| WNoCommon
| WPeriodOk (p : string)
| WPeriodFailed (p : string) (e : exn).

(** [for report_period in sorted_periods: try ... except: continue]: a
    writer of the records built and of the messages printed. *)
Fixpoint align_periods (build : string -> result financial_metrics)
    (ps : list string) : list financial_metrics * list warning :=
  match ps with
  | [] => ([], [])
  | p :: ps' =>
      let '(ms, ws) := align_periods build ps' in
      match build p with
      | Ok m => (m :: ms, WPeriodOk p :: ws)
      | Raise e => (ms, WPeriodFailed p e :: ws)
      end
  end.

(** [benefit_periods.intersection(debt_periods)]: the periods of both
    tables, without repetition. *)
Definition common_periods (benefit_data debt_data : table) : list string :=
  nodup string_dec
    (filter (fun p => existsb (String.eqb p) (map period debt_data))
            (map period benefit_data)).

(** [sorted(..., reverse=True)] on distinct strings: descending order under
    Python's string [<]. *)
Fixpoint insert_desc (x : string) (l : list string) : list string :=
  match l with
  | [] => [x]
  | y :: t => if String.ltb y x then x :: y :: t else y :: insert_desc x t
  end.

Definition sort_desc (l : list string) : list string :=
  fold_right insert_desc [] l.

(** [xs[:n]] for a Python [int] [n]. *)
Definition py_slice_upto {A} (xs : list A) (n : Z) : list A :=
  if (0 <=? n)%Z then firstn (Z.to_nat n) xs
  else firstn (length xs - Z.to_nat (- n)) xs.

(** [get_financial_metrics] once both tables are fetched (the cache and the
    fetch calls are the surrounding layer's). *)
Definition get_financial_metrics (ticker period_tag : string)
    (benefit_data debt_data : table) (limit : Z)
    : list financial_metrics * list warning :=
  match benefit_data with
  | [] => ([], [WNoBenefit])
  | _ =>
      match debt_data with
      | [] => ([], [WNoDebt])
      | _ =>
          match common_periods benefit_data debt_data with
          | [] => ([], [WNoCommon])
          | common =>
              let sorted_periods := py_slice_upto (sort_desc common) limit in
              align_periods (build_metric ticker period_tag benefit_data debt_data)
                            sorted_periods
          end
      end
  end.

(* ------------------------------------------------------------------ *)
(** ** Valuation Scorer *)

Inductive assessment : Type :=
| Unknown
| NegativeEarnings
| NegativeBookValue
| VeryAttractive
| Attractive
| Fair
| Expensive
| VeryExpensive.

Definition analyze_pe_ratio (pe_ratio : option Q) : assessment :=
  match pe_ratio with
  | None => Unknown
  | Some r =>
      if py_le r 0 then NegativeEarnings
      else if py_lt r 10 then VeryAttractive
      else if py_lt r 15 then Attractive
      else if py_lt r 20 then Fair
      else if py_lt r 30 then Expensive
      else VeryExpensive
  end.

Definition analyze_pb_ratio (pb_ratio : option Q) : assessment :=
  match pb_ratio with
  | None => Unknown
  | Some r =>
      if py_le r 0 then NegativeBookValue
      else if py_lt r 1 then VeryAttractive
      else if py_lt r (3 # 2) then Attractive
      else if py_lt r (5 # 2) then Fair
      else if py_lt r 4 then Expensive
      else VeryExpensive
  end.

Definition get_valuation_score (ratio : option Q) (ratio_type : string) : Z :=
  match ratio with
  | None => 50
  | Some r =>
      if ratio_type =? "pe" then
        if py_le r 0 then 0
        else if py_lt r 10 then 95
        else if py_lt r 15 then 85
        else if py_lt r 20 then 70
        else if py_lt r 30 then 40
        else 10
      else if ratio_type =? "pb" then
        if py_le r 0 then 0
        else if py_lt r 1 then 95
        else if py_lt r (3 # 2) then 85
        else if py_lt r (5 # 2) then 70
        else if py_lt r 4 then 40
        else 10
      else 50
  end.

Inductive overall : Type :=
| Undetermined
| OAttractive
| OFair
| OExpensive
| OOvervalued.

(** The [overall_valuation] entry of [get_valuation_metrics]. *)
Definition overall_valuation (pe_ratio pb_ratio : option Q) : overall :=
  if truthy pe_ratio && truthy pb_ratio then
    let pe_score := get_valuation_score pe_ratio "pe" in
    let pb_score := get_valuation_score pb_ratio "pb" in
    let avg_score := inject_Z (pe_score + pb_score) / 2 in
    if py_le 80 avg_score then OAttractive
    else if py_le 60 avg_score then OFair
    else if py_le 40 avg_score then OExpensive
    else OOvervalued
  else Undetermined.

(* ------------------------------------------------------------------ *)
(** ** Composite Scoring Engine *)

Record score_components : Type := mk_components {
  business_understandability : Z;
  competitive_advantage : Z;
  financial_strength : Z;
  management_quality : Z;
  valuation_attractiveness : Z
}.

Inductive letter : Type := GradeA | GradeB | GradeC | GradeD.

Record wb_score : Type := mk_wb_score {
  components : score_components;
  total_score : Z;
  grade : letter
}.

(** [sum(score_components.values())] *)
Definition sum_components (c : score_components) : Z :=
  business_understandability c + competitive_advantage c + financial_strength c
  + management_quality c + valuation_attractiveness c.

Definition grade_of (total : Z) : letter :=
  if (80 <=? total)%Z then GradeA
  else if (60 <=? total)%Z then GradeB
  else if (40 <=? total)%Z then GradeC
  else GradeD.

(** The three [if latest_metrics.x:] blocks of [get_warren_buffett_analysis]. *)
Definition roe_points (m : financial_metrics) : Z :=
  match return_on_equity m with
  | Some v =>
      if truthy (Some v) then
        if py_lt 15 v then 10 else if py_lt 10 v then 7 else if py_lt 5 v then 4 else 0
      else 0
  | None => 0
  end.

Definition debt_points (m : financial_metrics) : Z :=
  match debt_to_equity m with
  | Some v =>
      if truthy (Some v) then
        if py_lt v (3 # 10) then 8 else if py_lt v (6 # 10) then 5
        else if py_lt v 1 then 2 else 0
      else 0
  | None => 0
  end.

Definition margin_points (m : financial_metrics) : Z :=
  match net_margin m with
  | Some v =>
      if truthy (Some v) then
        if py_lt 20 v then 7 else if py_lt 10 v then 4 else if py_lt 5 v then 2 else 0
      else 0
  | None => 0
  end.

(** The score of [get_warren_buffett_analysis]: [latest] is
    [financial_metrics[0]] when the list is non-empty. *)
Definition base_components (latest : option financial_metrics) (industry : string)
    : score_components :=
  let fs := match latest with
            | Some m => (0 + roe_points m + debt_points m + margin_points m)%Z
            | None => 0%Z
            end in
  let '(bu, ca) :=
    if str_contains "银行" industry then (15%Z, 12%Z)
    else if str_contains "酿酒" industry then (18%Z, 20%Z)
    else (0%Z, 0%Z) in
  mk_components bu ca fs 0%Z 0%Z.

Definition get_warren_buffett_score (latest : option financial_metrics)
    (industry : string) : wb_score :=
  let c := base_components latest industry in
  let total := sum_components c in
  mk_wb_score c total (grade_of total).

(** A peer of [get_industry_peers]: its ticker and [change_pct]. *)
Record peer : Type := mk_peer { peer_ticker : string; change_pct : Q }.

Definition count_lt (x : Q) (l : list Q) : nat :=
  length (filter (fun pct => py_lt pct x) l).

(** The peer-relative bonus of [get_enhanced_warren_buffett_analysis],
    added in place to [competitive_advantage]. *)
Definition peer_adjust (ticker : string) (c : score_components) (peers : list peer)
    : score_components :=
  match List.find (fun p => String.eqb (peer_ticker p) ticker) peers with
  | None => c
  | Some target =>
      let change_pcts := filter (fun x => py_ne x 0) (map change_pct peers) in
      match change_pcts with
      | [] => c
      | _ =>
          let better_count := count_lt (change_pct target) change_pcts in
          let relative_performance :=
            inject_Z (Z.of_nat better_count) / inject_Z (Z.of_nat (length change_pcts)) in
          let bonus :=
            if py_lt (4 # 5) relative_performance then 5%Z
            else if py_lt (3 # 5) relative_performance then 3%Z
            else if py_lt (2 # 5) relative_performance then 1%Z
            else 0%Z in
          mk_components (business_understandability c) (competitive_advantage c + bonus)
                        (financial_strength c) (management_quality c)
                        (valuation_attractiveness c)
      end
  end.

(** [get_enhanced_warren_buffett_analysis]: the total and the grade are
    recomputed when the peer list is non-empty. *)
Definition enhanced_score (ticker : string) (base : wb_score) (peers : list peer)
    : wb_score :=
  match peers with
  | [] => base
  | _ =>
      let c := peer_adjust ticker (components base) peers in
      let total := sum_components c in
      mk_wb_score c total (grade_of total)
  end.

Definition composite_score (latest : option financial_metrics) (industry ticker : string)
    (peers : list peer) : wb_score :=
  enhanced_score ticker (get_warren_buffett_score latest industry) peers.

(** The string [safe_extract_value] hands to [float] for a [str] cell. *)
Definition extract_residual (s : string) : string :=
  if str_contains YI s then str_replace YI "" s
  else if str_contains WAN s then str_replace WAN "" s
  else if str_contains PCT s then str_replace PCT "" s
  else str_replace " " "" (str_replace "," "" s).

(** The assessment and the score the code gives one ratio of kind
    ["pe"] or ["pb"] ([analyze_pe_ratio] / [analyze_pb_ratio] with
    [get_valuation_score], as [get_valuation_metrics] uses them). *)
Definition assess (r : option Q) (kind : string) : assessment * Z :=
  (if kind =? "pe" then analyze_pe_ratio r else analyze_pb_ratio r,
   get_valuation_score r kind).

(* ------------------------------------------------------------------ *)
(** ** The spec's statements, for comparison with the code *)

(** Valuation Scorer as the spec states it: five bands with scores 95, 85,
    70, 40, 10 at ascending thresholds. *)
Definition claimed_band (t1 t2 t3 t4 v : Q) : assessment * Z :=
  if py_lt v t1 then (VeryAttractive, 95%Z)
  else if py_lt v t2 then (Attractive, 85%Z)
  else if py_lt v t3 then (Fair, 70%Z)
  else if py_lt v t4 then (Expensive, 40%Z)
  else (VeryExpensive, 10%Z).

Definition claimed_assess (r : option Q) (kind : string) : assessment * Z :=
  match r with
  | None => (Unknown, 50%Z)
  | Some v =>
      if py_le v 0 then
        (if kind =? "pe" then NegativeEarnings else NegativeBookValue, 0%Z)
      else if kind =? "pe" then claimed_band 10 15 20 30 v
      else claimed_band 1 (3 # 2) (5 # 2) 4 v
  end.

(** Financial strength as the spec states it: three bucketed signals
    (missing contributes nothing). *)
Definition claimed_roe_points (x : option Q) : Z :=
  match x with
  | Some v => if py_lt 15 v then 10 else if py_lt 10 v then 7 else if py_lt 5 v then 4 else 0
  | None => 0
  end.

Definition claimed_debt_points (x : option Q) : Z :=
  match x with
  | Some v => if py_lt v (3 # 10) then 8 else if py_lt v (6 # 10) then 5
              else if py_lt v 1 then 2 else 0
  | None => 0
  end.

Definition claimed_margin_points (x : option Q) : Z :=
  match x with
  | Some v => if py_lt 20 v then 7 else if py_lt 10 v then 4 else if py_lt 5 v then 2 else 0
  | None => 0
  end.

Definition claimed_financial_strength (m : financial_metrics) : Z :=
  claimed_roe_points (return_on_equity m) + claimed_debt_points (debt_to_equity m)
  + claimed_margin_points (net_margin m).

(** Overall verdict as the spec states it: the mean of the two scores. *)
Definition claimed_overall (pe_ratio pb_ratio : option Q) : overall :=
  let avg := inject_Z (get_valuation_score pe_ratio "pe"
                       + get_valuation_score pb_ratio "pb") / 2 in
  if py_le 80 avg then OAttractive
  else if py_le 60 avg then OFair
  else if py_le 40 avg then OExpensive
  else OOvervalued.

(* ------------------------------------------------------------------ *)
(** ** Sample inputs and auxiliary predicates *)

Definition avoids (h : ascii) (s : string) : bool :=
  forallb (fun c => negb (Ascii.eqb c h)) (list_ascii_of_string s).

Definition current_ratio_row : row := [("流动资产", CFloat 100); ("流动负债", CFloat 0)].

(** The ratio fields of [calculated_fields] ([x / y if y != 0 else 0.0]
    and its percentage form), each with its denominator column. *)
Definition ratio_denominators : list (string * string) := [
  ("debt_to_equity", "股东权益合计");
  ("return_on_equity", "股东权益合计");
  ("return_on_assets", "总资产");
  ("asset_turnover", "总资产");
  ("current_ratio", "流动负债");
  ("quick_ratio", "流动负债");
  ("gross_margin", "营业总收入");
  ("operating_margin", "营业总收入");
  ("net_margin", "营业总收入")
].

Definition desc (a b : string) : Prop := String.ltb b a = true.

Definition built (build : string -> result financial_metrics) (p : string)
    : list financial_metrics :=
  match build p with
  | Ok m => [m]
  | Raise _ => []
  end.

Definition example_primary : table :=
  [mk_stmt_row "P1" []; mk_stmt_row "P2" []; mk_stmt_row "P3" []].
Definition example_secondary : table :=
  [mk_stmt_row "P2" []; mk_stmt_row "P3" []; mk_stmt_row "P4" []].

Definition stub_metrics (p : string) : financial_metrics :=
  mk_metrics p "000001" "ttm" "CNY" None None None None None None None None None
             None None None None None None None None None None None None None None.

(** A loop body that fails on the period P2 only. *)
Definition failing_on_P2 (p : string) : result financial_metrics :=
  if p =? "P2" then Raise TypeError else Ok (stub_metrics p).

Definition strong_record : financial_metrics :=
  mk_metrics "2024-12-31" "000001" "ttm" "CNY" None None None None None None None None
             None None None None None (Some 18) None None (Some 25) None None
             (Some (2 # 10)) None None None.

Definition debt_free_record : financial_metrics :=
  mk_metrics "2024-12-31" "000001" "ttm" "CNY" None None None None None None None None
             None None None None None (Some 18) None None (Some 25) None None
             (Some 0) None None None.

(** The statements of a debt-free company: total liabilities read from
    the string ['0']. *)
Definition debt_free_benefit : table :=
  [mk_stmt_row "2024-12-31" [("*营业总收入", CStr "72"); ("*净利润", CStr "18")]].
Definition debt_free_debt : table :=
  [mk_stmt_row "2024-12-31"
     [("*负债合计", CStr "0"); ("*所有者权益（或股东权益）合计", CStr "100")]].

Definition bank_peers : list peer :=
  [mk_peer "600036" (3 # 1); mk_peer "000001" (-1 # 1); mk_peer "601398" 0].


(* ================================================================== *)
(** ** More of the Python runtime *)

(** [row.get(k, default)]. *)
Definition row_get_default (r : row) (k : string) (d : cell) : cell :=
  match assoc k r with
  | Some v => v
  | None => d
  end.

(** [cell == s] for a [str] constant [s]: only a [str] cell can be equal. *)
Definition cell_eqs (c : cell) (s : string) : bool :=
  match c with
  | CStr t => String.eqb t s
  | _ => false
  end.

(** [str] of a Python [int]. *)
Definition z_repr (z : Z) : string := NilZero.string_of_int (Z.to_int z).

(** [str(value)] of a cell; [float_repr] is Python's shortest round-trip
    rendering of a float, which the code only stores or compares. *)
Definition py_str (float_repr : Q -> string) (c : cell) : string :=
  match c with
  | CNone => "None"
  | CBool b => if b then "True" else "False"
  | CInt i => z_repr (i64_val i)
  | CFloat q => float_repr q
  | CStr s => s
  end.

(** [s[:n]] on a UTF-8 encoded [str]: [n] code points. *)
Definition is_cont_byte (c : ascii) : bool :=
  let n := nat_of_ascii c in (128 <=? n)%nat && (n <? 192)%nat.

Fixpoint take_cp (n : nat) (s : string) : string :=
  match s with
  | EmptyString => EmptyString
  | String c s' =>
      if is_cont_byte c then String c (take_cp n s')
      else match n with
           | O => EmptyString
           | S n' => String c (take_cp n' s')
           end
  end.

(** *** [int(value)] *)

(** The decimal literals accepted by Python's [int] on a [str]: surrounding
    ASCII whitespace, an optional sign, ASCII digits (underscores and
    non-ASCII digits are not recognised, as for [float]). *)
Inductive istate : Type := ILead | ISign | IDig | ITrail.

Definition istep (st : istate) (neg : bool) (n : Z) (c : ascii)
    : option (istate * bool * Z) :=
  match st with
  | ILead =>
      if is_space c then Some (ILead, neg, n)
      else if is_sign c then Some (ISign, (c =? "-")%char, n)
      else if is_digit c then Some (IDig, neg, digit_val c) else None
  | ISign => if is_digit c then Some (IDig, neg, digit_val c) else None
  | IDig =>
      if is_digit c then Some (IDig, neg, (n * 10 + digit_val c)%Z)
      else if is_space c then Some (ITrail, neg, n) else None
  | ITrail => if is_space c then Some (ITrail, neg, n) else None
  end.

Fixpoint irun (st : istate) (neg : bool) (n : Z) (cs : list ascii)
    : option (istate * bool * Z) :=
  match cs with
  | [] => Some (st, neg, n)
  | c :: cs' =>
      match istep st neg n c with
      | Some (st', neg', n') => irun st' neg' n' cs'
      | None => None
      end
  end.

Definition py_int_str (s : string) : result Z :=
  match irun ILead false 0 (list_ascii_of_string s) with
  | Some (IDig, neg, n) | Some (ITrail, neg, n) => Ok (if neg then (- n)%Z else n)
  | _ => Raise ValueError
  end.

(** [int(value)]: a float is truncated towards zero. *)
Definition py_int (v : cell) : result Z :=
  match v with
  | CNone => Raise TypeError
  | CBool b => Ok (if b then 1%Z else 0%Z)
  | CInt i => Ok (i64_val i)
  | CFloat q => Ok (Z.quot (Qnum q) (Zpos (Qden q)))
  | CStr s => py_int_str s
  end.

(** *** Dicts, lists and values *)

(** [d[k] = v]: an existing key keeps its place, a new one goes last. *)
Fixpoint dict_set {A} (k : string) (v : A) (d : list (string * A)) : list (string * A) :=
  match d with
  | [] => [(k, v)]
  | (k', v') :: d' =>
      if String.eqb k k' then (k', v) :: d' else (k', v') :: dict_set k v d'
  end.

(** [d.get(k, default)]. *)
Definition dict_get {A} (d : list (string * A)) (k : string) (default : A) : A :=
  match assoc k d with
  | Some v => v
  | None => default
  end.

(** [[f(x) for x in xs]] where [f] may raise. *)
Fixpoint map_result {A B} (f : A -> result B) (l : list A) : result (list B) :=
  match l with
  | [] => Ok []
  | x :: l' => let* y := f x in let* ys := map_result f l' in Ok (y :: ys)
  end.

(** A loop appending [f(x)] to a list until [f] raises: the items appended
    before the exception are kept. *)
Fixpoint append_until_raise {A B} (f : A -> result B) (l : list A) : list B :=
  match l with
  | [] => []
  | x :: l' =>
      match f x with
      | Ok y => y :: append_until_raise f l'
      | Raise _ => []
      end
  end.

(** A loop whose body is wrapped in [try: ... except: continue]. *)
Fixpoint keep_ok {A B} (f : A -> result B) (l : list A) : list B :=
  match l with
  | [] => []
  | x :: l' =>
      match f x with
      | Ok y => y :: keep_ok f l'
      | Raise _ => keep_ok f l'
      end
  end.

(** The Python values of the dicts the analysis functions return. *)
#[local] Set Warnings "-register-all".
Inductive pyval : Type :=
| VNone
| VBool (b : bool)
| VInt (z : Z)
| VFloat (q : Q)
| VStr (s : string)
| VCell (c : cell)
| VList (l : list pyval)
| VDict (d : list (string * pyval))
| VMetrics (m : financial_metrics).

Definition vopt (x : option Q) : pyval :=
  match x with
  | Some q => VFloat q
  | None => VNone
  end.

(* ------------------------------------------------------------------ *)
(** ** [search_line_items] *)

(** The values of a [LineItem] dict: strings and the floats of the
    requested fields. *)
Inductive lval : Type :=
| LStr (s : string)
| LFloat (q : Q).

(** The [line_item_data] dict built for one row, with the requested
    fields added in order. *)
Definition line_item_data (float_repr : Q -> string) (ticker : string)
    (line_items : list string) (end_date period : string) (r : row)
    : result (list (string * lval)) :=
  let rp := py_str float_repr (row_get_default r "报告期" (CStr end_date)) in
  let fiscal_year :=
    if negb (py_str float_repr (row_get_default r "报告期" (CStr "")) =? "False")
    then take_cp 4 rp else take_cp 4 end_date in
  let name := match line_items with [] => "净利润" | f :: _ => f end in
  let first := match line_items with [] => "net_income" | f :: _ => f end in
  let* v := get_field_value r first in
  let base :=
    [("ticker", LStr ticker);
     ("report_period", LStr rp);
     ("period", LStr period);
     ("currency", LStr "CNY");
     ("fiscal_year", LStr fiscal_year);
     ("fiscal_period", LStr "FY");
     ("line_item_name", LStr name);
     ("line_item_value", LStr (float_repr v))] in
  fold_left (fun acc field_name =>
               let* d := acc in
               let* field_value := get_field_value r field_name in
               Ok (dict_set field_name (LFloat field_value) d))
            line_items (Ok base).

(** [search_line_items] once [stock_financial_abstract_ths] has answered
    [financial_data]; [line_item_ok] says whether the [LineItem] model
    accepts a dict as keyword arguments. *)
Definition search_line_items (float_repr : Q -> string)
    (line_item_ok : list (string * lval) -> bool)
    (ticker : string) (line_items : list string) (end_date period : string)
    (limit : Z) (financial_data : result (list row)) : list (list (string * lval)) :=
  match financial_data with
  | Raise _ => []
  | Ok [] => []
  | Ok rows =>
      let line_items_result :=
        keep_ok (fun r =>
                   let* d := line_item_data float_repr ticker line_items end_date period r in
                   if line_item_ok d then Ok d else Raise ValueError)
                (py_slice_upto rows limit) in
      py_slice_upto line_items_result limit
  end.

(* ------------------------------------------------------------------ *)
(** ** [get_financial_metrics_fallback] and the entry of
    [get_financial_metrics] *)

(** [value in [None, 'False', False, '']] (no ['nan'] here). *)
Definition in_sentinels4 (v : cell) : bool :=
  match v with
  | CNone => true
  | CBool b => negb b
  | CInt i => (i64_val i =? 0)%Z
  | CFloat q => Qeq_bool q 0
  | CStr s => (s =? "False") || (s =? "")
  end.

(** [safe_float] inside [get_financial_metrics_fallback]. *)
Definition safe_float_fb (value : cell) (default : option Q) : result (option Q) :=
  if in_sentinels4 value then Ok default
  else catch_value_type default
    match value with
    | CStr s =>
        if str_contains YI s then
          fmap_result (fun x => Some (x * q1e8)) (py_float_str (str_replace YI "" s))
        else if str_contains WAN s then
          fmap_result (fun x => Some (x * q1e4)) (py_float_str (str_replace WAN "" s))
        else if str_contains PCT s then
          fmap_result (fun x => Some x) (py_float_str (str_replace PCT "" s))
        else fmap_result (fun x => Some x) (py_float value)
    | _ => fmap_result (fun x => Some x) (py_float value)
    end.

(** The body of the per-row [try] block of [get_financial_metrics_fallback];
    [to_date] is [pd.to_datetime(x).strftime("%Y-%m-%d")], which may raise.
    The [FinancialMetrics] fields the call does not pass are [None]. *)
Definition fallback_metric (float_repr : Q -> string) (to_date : string -> result string)
    (ticker end_date period : string) (r : row) : result financial_metrics :=
  let report_date := py_str float_repr (row_get_default r "报告期" (CStr "")) in
  let* rp := if negb (report_date =? "") && negb (report_date =? "False")
             then to_date report_date else to_date end_date in
  let sf k := safe_float_fb (row_get r k) None in
  let* revenue := sf "营业总收入" in
  let* net_income := sf "净利润" in
  let* total_assets := sf "总资产" in
  let* total_debt := sf "负债合计" in
  let* shareholders_equity := sf "股东权益合计" in
  let* debt_to_equity := sf "产权比率" in
  let* current_ratio := sf "流动比率" in
  let* _quick_ratio := sf "速动比率" in
  let* gross_margin := sf "毛利率" in
  let* operating_margin := sf "营业利润率" in
  let* return_on_equity := sf "净资产收益率" in
  let* return_on_assets := sf "总资产收益率" in
  Ok (mk_metrics rp ticker period "CNY"
        revenue net_income None None None
        total_assets None None None
        total_debt None None shareholders_equity
        return_on_equity return_on_assets operating_margin None gross_margin
        current_ratio debt_to_equity None
        None None).

Definition get_financial_metrics_fallback (float_repr : Q -> string)
    (to_date : string -> result string) (ticker end_date period : string)
    (limit : Z) (financial_data : result (list row)) : list financial_metrics :=
  match financial_data with
  | Raise _ => []
  | Ok [] => []
  | Ok rows => keep_ok (fallback_metric float_repr to_date ticker end_date period)
                       (py_slice_upto rows limit)
  end.

(** [get_financial_metrics] from its two fetches: an exception of either
    fetch hands over to [get_financial_metrics_fallback], whose own fetch
    answered [abstract_data]. *)
Definition get_financial_metrics_entry (float_repr : Q -> string)
    (to_date : string -> result string) (ticker end_date period : string) (limit : Z)
    (benefit_fetch debt_fetch : result table) (abstract_data : result (list row))
    : list financial_metrics :=
  let fallback :=
    get_financial_metrics_fallback float_repr to_date ticker end_date period limit
                                   abstract_data in
  match benefit_fetch with
  | Raise _ => fallback
  | Ok benefit_data =>
      match debt_fetch with
      | Raise _ => fallback
      | Ok debt_data => fst (get_financial_metrics ticker period benefit_data debt_data limit)
      end
  end.

(* ------------------------------------------------------------------ *)
(** ** [get_market_cap] *)

(** [df[df['代码'] == ticker].iloc[0]] when the selection is non-empty. *)
Definition spot_row (ticker : string) (data : list row) : option row :=
  List.find (fun r => cell_eqs (row_get r "代码") ticker) data.

(** Whether a non-empty DataFrame has column [k]: its rows share their
    keys, read off the first row.  [df[k]] raises [KeyError] without it. *)
Definition has_column (k : string) (data : list row) : bool :=
  match data with
  | r :: _ => match assoc k r with Some _ => true | None => false end
  | [] => false
  end.

(** How one attempt of a retry loop ends without an exception. *)
Inductive attempt_end (A : Type) : Type :=
| Return (a : A)
| Break.
Arguments Return {A} a.
Arguments Break {A}.

(** The body of the [try] block of one attempt of [get_market_cap]. *)
Definition market_cap_attempt (ticker : string) (real_time_data : result (list row))
    : result (attempt_end (option Q)) :=
  let* data := real_time_data in
  match data with
  | [] => Ok Break
  | _ =>
      if negb (has_column "代码" data) then Raise KeyError
      else
      match spot_row ticker data with
      | None => Ok Break
      | Some r =>
          match row_get r "总市值" with
          | CNone => Ok Break
          | market_cap => fmap_result (fun x => Return (Some x)) (py_float market_cap)
          end
      end
  end.

(** The scan of the [stock_individual_info_em] rows in the backup method. *)
Fixpoint market_cap_scan (rows : list row) : result (option Q) :=
  match rows with
  | [] => Ok None
  | r :: rows' =>
      if cell_eqs (row_get r "item") "总市值" then
        match row_get_default r "value" (CStr "") with
        | CStr s =>
            if str_contains YI s then
              fmap_result (fun x => Some (x * q1e8)) (py_float_str (str_replace YI "" s))
            else if str_contains WAN s then
              fmap_result (fun x => Some (x * q1e4)) (py_float_str (str_replace WAN "" s))
            else
              match py_float_str s with
              | Ok x => Ok (Some x)
              | Raise ValueError => market_cap_scan rows'
              | Raise e => Raise e
              end
        | CNone => market_cap_scan rows'
        | v => fmap_result Some (py_float v)
        end
      else market_cap_scan rows'
  end.

(** The backup method, reached when the last attempt raised. *)
Definition market_cap_backup (stock_info : result (list row)) : option Q :=
  match stock_info with
  | Ok ((_ :: _) as rows) =>
      match market_cap_scan rows with
      | Ok x => x
      | Raise _ => None
      end
  | _ => None
  end.

(** [get_market_cap]: [spot k] answers the [k]-th call of
    [stock_zh_a_spot_em], [backup] the call of [stock_individual_info_em]. *)
Definition get_market_cap (ticker : string) (spot : nat -> result (list row))
    (backup : result (list row)) : option Q :=
  let retry_count := 3%nat in
  let fix go (fuel attempt : nat) : option Q :=
    match fuel with
    | O => None
    | S fuel' =>
        match market_cap_attempt ticker (spot attempt) with
        | Ok (Return x) => x
        | Ok Break => None
        | Raise _ =>
            if Nat.eqb attempt (retry_count - 1) then market_cap_backup backup
            else go fuel' (S attempt)
        end
    end in
  go retry_count 0%nat.

(* ------------------------------------------------------------------ *)
(** ** [get_real_time_quotes] *)

Record quote : Type := mk_quote {
  q_ticker : string;
  q_name : string;
  q_price : Q;
  q_open : Q;
  q_high : Q;
  q_low : Q;
  q_volume : Z;
  q_amount : Q;
  q_change_pct : Q
}.

Definition cell0 : cell := CInt i64_zero.

(** The quote dict of the main method for one row. *)
Definition quote_of_spot (float_repr : Q -> string) (ticker : string) (r : row)
    : result quote :=
  let name := py_str float_repr (row_get_default r "名称" (CStr "")) in
  let* price := py_float (row_get_default r "最新价" cell0) in
  let* open_ := py_float (row_get_default r "今开" cell0) in
  let* high := py_float (row_get_default r "最高" cell0) in
  let* low := py_float (row_get_default r "最低" cell0) in
  let* volume := py_int (row_get_default r "成交量" cell0) in
  let* amount := py_float (row_get_default r "成交额" cell0) in
  let* change_pct := py_float (row_get_default r "涨跌幅" cell0) in
  Ok (mk_quote ticker name price open_ high low volume amount change_pct).

(** One pass of [for ticker in tickers] over a non-empty snapshot. *)
Definition quotes_step (float_repr : Q -> string) (data : list row)
    (acc : result (list quote)) (ticker : string) : result (list quote) :=
  let* res := acc in
  if negb (has_column "代码" data) then Raise KeyError
  else
  match spot_row ticker data with
  | Some r => let* q := quote_of_spot float_repr ticker r in Ok (app res [q])
  | None => Ok res
  end.

(** The [try] block of one attempt of the main method. *)
Definition quotes_attempt (float_repr : Q -> string) (tickers : list string)
    (real_time_data : result (list row)) : result (attempt_end (list quote)) :=
  let* data := real_time_data in
  match data with
  | [] => Ok Break
  | _ => fmap_result Return (fold_left (quotes_step float_repr data) tickers (Ok []))
  end.

(** The quote of the backup method, from the last row of the daily history. *)
Definition quote_of_hist (ticker : string) (price_data : result (list row)) : result quote :=
  let* rows := price_data in
  match rev rows with
  | [] => Raise IndexError
  | latest :: _ =>
      let* price := py_float (row_get_default latest "收盘" cell0) in
      let* open_ := py_float (row_get_default latest "开盘" cell0) in
      let* high := py_float (row_get_default latest "最高" cell0) in
      let* low := py_float (row_get_default latest "最低" cell0) in
      let* volume := py_int (row_get_default latest "成交量" cell0) in
      let* amount := py_float (row_get_default latest "成交额" cell0) in
      Ok (mk_quote ticker ("股票" ++ ticker) price open_ high low volume amount 0)
  end.

(** [get_real_time_quotes]: [spot k] answers the [k]-th call of
    [stock_zh_a_spot_em], [hist t] the backup's [stock_zh_a_hist] for [t];
    an empty history is skipped like a failing one. *)
Definition get_real_time_quotes (float_repr : Q -> string) (tickers : list string)
    (spot : nat -> result (list row)) (hist : string -> result (list row))
    : list quote :=
  let retry_count := 3%nat in
  let backup := keep_ok (fun t => quote_of_hist t (hist t)) tickers in
  let fix go (fuel attempt : nat) : list quote :=
    match fuel with
    | O => []
    | S fuel' =>
        match quotes_attempt float_repr tickers (spot attempt) with
        | Ok (Return res) => res
        | Ok Break => []
        | Raise _ =>
            if Nat.eqb attempt (retry_count - 1) then backup
            else go fuel' (S attempt)
        end
    end in
  go retry_count 0%nat.

(* ------------------------------------------------------------------ *)
(** ** [get_company_info] *)

(** [any(key in item for key in keys)] *)
Definition any_in (keys : list string) (item : string) : bool :=
  existsb (fun key => str_contains key item) keys.

Definition basic_keys : list string :=
  ["股票代码"; "股票简称"; "总股本"; "流通股"; "总市值"; "流通市值"; "上市时间"].

Definition business_keys : list string :=
  ["主营业务"; "经营范围"; "公司简介"; "业务描述"].

Record company_info : Type := mk_company_info {
  basic_info : list (string * string);
  business_info : list (string * string);
  industry_info : list (string * string);
  financial_summary : list (string * cell)
}.

Definition empty_company_info : company_info := mk_company_info [] [] [] [].

(** One row of the [stock_individual_info_em] loop. *)
Definition classify_info (ci : company_info) (item value : string) : company_info :=
  if any_in basic_keys item then
    mk_company_info (dict_set item value (basic_info ci)) (business_info ci)
                    (industry_info ci) (financial_summary ci)
  else if str_contains "行业" item then
    mk_company_info (basic_info ci) (business_info ci)
                    (dict_set item value (industry_info ci)) (financial_summary ci)
  else if any_in business_keys item then
    mk_company_info (basic_info ci) (dict_set item value (business_info ci))
                    (industry_info ci) (financial_summary ci)
  else ci.

(** [key_metrics] of the latest row of [stock_financial_abstract_ths]. *)
Definition key_metrics (latest : row) : list (string * cell) :=
  [("ROE", row_get latest "净资产收益率");
   ("ROA", row_get latest "总资产收益率");
   ("debt_ratio", row_get latest "产权比率");
   ("current_ratio", row_get latest "流动比率");
   ("net_margin", row_get latest "销售净利率");
   ("gross_margin", row_get latest "毛利率");
   ("revenue", row_get latest "营业总收入");
   ("net_income", row_get latest "净利润");
   ("eps", row_get latest "基本每股收益");
   ("book_value_per_share", row_get latest "每股净资产")].

(** [get_company_info] from its two fetches: [individual_info] gives the
    [item] and [value] cells of each row. *)
Definition get_company_info (float_repr : Q -> string)
    (individual_info : result (list (cell * cell)))
    (financial_data : result (list row)) : company_info :=
  let ci :=
    match individual_info with
    | Ok rows =>
        fold_left (fun ci r => classify_info ci (py_str float_repr (fst r))
                                             (py_str float_repr (snd r)))
                  rows empty_company_info
    | Raise _ => empty_company_info
    end in
  match financial_data with
  | Ok (latest :: _) =>
      mk_company_info (basic_info ci) (business_info ci) (industry_info ci)
        (filter (fun kv => negb (in_sentinels4 (snd kv))) (key_metrics latest))
  | _ => ci
  end.

(** [company_info['financial_summary'].get(k, 'N/A')] *)
Definition summary_get (ci : company_info) (k : string) : pyval :=
  match assoc k (financial_summary ci) with
  | Some c => VCell c
  | None => VStr "N/A"
  end.

Definition str_dict (d : list (string * string)) : pyval :=
  VDict (map (fun kv => (fst kv, VStr (snd kv))) d).

(** The dict [get_company_info] returns. *)
Definition company_info_dict (ticker : string) (ci : company_info) : list (string * pyval) :=
  [("ticker", VStr ticker);
   ("basic_info", str_dict (basic_info ci));
   ("business_info", str_dict (business_info ci));
   ("industry_info", str_dict (industry_info ci));
   ("financial_summary",
      VDict (map (fun kv => (fst kv, VCell (snd kv))) (financial_summary ci)));
   ("warren_buffett_analysis", VDict [
      ("moat_indicators", VDict [
         ("description", VStr "护城河指标分析");
         ("high_roe", summary_get ci "ROE");
         ("stable_margins", summary_get ci "net_margin");
         ("low_debt", summary_get ci "debt_ratio");
         ("strong_brand", VStr "需要定性分析");
         ("market_position", VStr "需要定性分析")]);
      ("financial_strength", VDict [
         ("description", VStr "财务实力评估");
         ("profitability", VDict [
            ("roe", summary_get ci "ROE");
            ("roa", summary_get ci "ROA");
            ("net_margin", summary_get ci "net_margin")]);
         ("debt_management", VDict [
            ("debt_ratio", summary_get ci "debt_ratio");
            ("current_ratio", summary_get ci "current_ratio")])]);
      ("business_quality", VDict [
         ("description", VStr "业务质量评估");
         ("industry", VStr (dict_get (industry_info ci) "行业" "需要补充"));
         ("business_model", VStr "需要进一步研究");
         ("competitive_advantage", VStr "需要行业对比分析");
         ("management_quality", VStr "需要补充管理层信息")])])].

(** [company_info.get('industry_info', {}).get('行业', '')] *)
Definition industry_of (ci : company_info) : string :=
  dict_get (industry_info ci) "行业" "".

(* ------------------------------------------------------------------ *)
(** ** [get_industry_analysis] *)

Inductive industry_analysis : Type :=
| IAError (ticker message : string)
| IAOk (ticker industry : string) (peer_stocks : list string)
       (characteristics : list (string * pyval)).

Definition bank_stocks : list string :=
  ["000001"; "600036"; "600000"; "601166"; "600015"; "601328"].
Definition alcohol_stocks : list string :=
  ["600519"; "000858"; "000596"; "002304"; "000799"].

(** [get_industry_analysis] from the result of its [get_company_info] call. *)
Definition get_industry_analysis (ticker : string) (ci : company_info) : industry_analysis :=
  let industry := industry_of ci in
  if industry =? "" then IAError ticker "无法确定行业分类"
  else if str_contains "银行" industry then
    IAOk ticker industry bank_stocks
      [("capital_intensive", VBool true); ("regulated", VBool true);
       ("cyclical", VBool true); ("moat_type", VStr "监管护城河");
       ("key_metrics", VList [VStr "ROE"; VStr "NIM"; VStr "NPL_ratio";
                              VStr "capital_adequacy"])]
  else if str_contains "酿酒" industry then
    IAOk ticker industry alcohol_stocks
      [("capital_intensive", VBool false); ("regulated", VBool true);
       ("cyclical", VBool false); ("moat_type", VStr "品牌护城河");
       ("key_metrics", VList [VStr "gross_margin"; VStr "brand_premium";
                              VStr "market_share"])]
  else IAOk ticker industry []
         [("description", VStr (industry ++ "行业需要进一步分析"))].

Definition industry_analysis_dict (ia : industry_analysis) : list (string * pyval) :=
  match ia with
  | IAError ticker message => [("ticker", VStr ticker); ("error", VStr message)]
  | IAOk ticker industry peers chars =>
      [("ticker", VStr ticker);
       ("industry", VStr industry);
       ("industry_overview", VDict []);
       ("peer_comparison", VDict []);
       ("industry_trends", VDict []);
       ("peer_stocks", VList (map VStr peers));
       ("industry_characteristics", VDict chars);
       ("warren_buffett_industry_criteria", VDict [
          ("understandable_business", VStr "需要定性评估");
          ("long_term_prospects", VStr "需要行业研究");
          ("regulatory_environment", VStr "需要政策分析");
          ("competitive_dynamics", VStr "需要竞争格局分析");
          ("barriers_to_entry", VStr "需要进入壁垒分析");
          ("pricing_power", VStr "需要定价能力分析")])]
  end.

(** [analysis['industry_analysis'].get('industry', '')] *)
Definition analysis_industry (ia : industry_analysis) : string :=
  match ia with
  | IAOk _ industry _ _ => industry
  | IAError _ _ => ""
  end.

(* ------------------------------------------------------------------ *)
(** ** [get_industry_peers] *)

Definition industry_keywords (industry : string) : list string :=
  app [industry]
  (if str_contains "银行" industry then ["银行"]
   else if str_contains "汽车" industry then ["汽车"; "汽车整车"]
   else if str_contains "酿酒" industry || str_contains "白酒" industry then ["酿酒"; "白酒"]
   else if str_contains "医药" industry then ["医药"; "医疗"]
   else if str_contains "房地产" industry then ["房地产"; "地产"]
   else []).

Record peer_info : Type := mk_peer_info {
  pi_ticker : string;
  pi_name : string;
  pi_price : Q;
  pi_change_pct : Q;
  pi_pe_ratio : string;
  pi_pb_ratio : string;
  pi_market_cap : string
}.

(** [float(row.get(k, 0)) if row.get(k) != '-' else 0] *)
Definition float_unless_dash (r : row) (k : string) : result Q :=
  if cell_eqs (row_get r k) "-" then Ok 0 else py_float (row_get_default r k cell0).

Definition peer_info_of (float_repr : Q -> string) (r : row) : result peer_info :=
  let ticker := py_str float_repr (row_get_default r "代码" (CStr "")) in
  let name := py_str float_repr (row_get_default r "名称" (CStr "")) in
  let* price := float_unless_dash r "最新价" in
  let* change_pct := float_unless_dash r "涨跌幅" in
  Ok (mk_peer_info ticker name price change_pct
        (py_str float_repr (row_get_default r "市盈率-动态" (CStr "N/A")))
        (py_str float_repr (row_get_default r "市净率" (CStr "N/A")))
        (py_str float_repr (row_get_default r "总市值" (CStr "N/A")))).

(** [sum(p['change_pct'] for p in peers if p['change_pct'] != 0)
    / max(1, sum(1 for p in peers if p['change_pct'] != 0))] in float
    arithmetic: [fl] rounds the exact result of each addition and of the
    division to a binary64 value. *)
Definition avg_change_pct (fl : Q -> Q) (peers : list peer_info) : Q :=
  let nz := filter (fun x => py_ne x 0) (map pi_change_pct peers) in
  fl (fold_left (fun acc x => fl (acc + x)) nz 0 / inject_Z (Z.max 1 (Z.of_nat (length nz)))).

(** The loop over the keywords: [board kw] answers
    [stock_board_industry_cons_em(symbol=kw)]; the first keyword whose
    table is non-empty and whose first 20 rows convert wins. *)
Fixpoint peers_loop (float_repr : Q -> string) (board : string -> result (list row))
    (keywords : list string) : option (list peer_info * string) :=
  match keywords with
  | [] => None
  | keyword :: keywords' =>
      match board keyword with
      | Ok ((_ :: _) as industry_stocks) =>
          match map_result (peer_info_of float_repr) (py_slice_upto industry_stocks 20) with
          | Ok peers => Some (peers, keyword)
          | Raise _ => peers_loop float_repr board keywords'
          end
      | _ => peers_loop float_repr board keywords'
      end
  end.

Record industry_peers : Type := mk_industry_peers {
  ip_ticker : string;
  ip_industry : string;
  ip_peer_stocks : list peer_info;
  ip_summary : option (nat * Q * string)   (* total_stocks, avg_change_pct, keyword *)
}.

(** [get_industry_peers] from the result of its [get_company_info] call. *)
Definition get_industry_peers (float_repr : Q -> string) (fl : Q -> Q) (ticker : string)
    (ci : company_info) (board : string -> result (list row)) : industry_peers :=
  let industry := industry_of ci in
  if industry =? "" then mk_industry_peers ticker industry [] None
  else
    match peers_loop float_repr board (industry_keywords industry) with
    | Some (peers, keyword) =>
        mk_industry_peers ticker industry peers
          (Some (length peers, avg_change_pct fl peers, keyword))
    | None => mk_industry_peers ticker industry [] None
    end.

Definition peer_info_dict (p : peer_info) : pyval :=
  VDict [("ticker", VStr (pi_ticker p)); ("name", VStr (pi_name p));
         ("price", VFloat (pi_price p)); ("change_pct", VFloat (pi_change_pct p));
         ("pe_ratio", VStr (pi_pe_ratio p)); ("pb_ratio", VStr (pi_pb_ratio p));
         ("market_cap", VStr (pi_market_cap p))].

Definition industry_peers_dict (ip : industry_peers) : list (string * pyval) :=
  [("ticker", VStr (ip_ticker ip));
   ("industry", VStr (ip_industry ip));
   ("peer_stocks", VList (map peer_info_dict (ip_peer_stocks ip)));
   ("industry_summary",
      match ip_summary ip with
      | Some (n, avg, keyword) =>
          VDict [("total_stocks", VInt (Z.of_nat n)); ("avg_change_pct", VFloat avg);
                 ("industry_keyword", VStr keyword)]
      | None => VDict []
      end)].

(* ------------------------------------------------------------------ *)
(** ** [get_concept_info] and [get_all_industries] *)

Record board_info : Type := mk_board_info {
  b_name : string;
  b_code : string;
  b_stock_count : Z;
  b_avg_price : option Q;   (* [get_all_industries] only *)
  b_change_pct : Q;
  b_turnover_rate : Q;
  b_pe_ratio : string;
  b_market_cap : string
}.

(** [int(row.get(k, 0)) if row.get(k) != '-' else 0] *)
Definition int_unless_dash (r : row) (k : string) : result Z :=
  if cell_eqs (row_get r k) "-" then Ok 0%Z else py_int (row_get_default r k cell0).

Definition concept_info_of (float_repr : Q -> string) (r : row) : result board_info :=
  let name := py_str float_repr (row_get_default r "板块名称" (CStr "")) in
  let code := py_str float_repr (row_get_default r "板块代码" (CStr "")) in
  let* stock_count := int_unless_dash r "公司家数" in
  let* change_pct := float_unless_dash r "涨跌幅" in
  let* turnover_rate := float_unless_dash r "换手率" in
  Ok (mk_board_info name code stock_count None change_pct turnover_rate
        (py_str float_repr (row_get_default r "市盈率" (CStr "N/A")))
        (py_str float_repr (row_get_default r "总市值" (CStr "N/A")))).

Definition industry_info_of (float_repr : Q -> string) (r : row) : result board_info :=
  let name := py_str float_repr (row_get_default r "板块名称" (CStr "")) in
  let code := py_str float_repr (row_get_default r "板块代码" (CStr "")) in
  let* stock_count := int_unless_dash r "公司家数" in
  let* avg_price := float_unless_dash r "平均价格" in
  let* change_pct := float_unless_dash r "涨跌幅" in
  let* turnover_rate := float_unless_dash r "换手率" in
  Ok (mk_board_info name code stock_count (Some avg_price) change_pct turnover_rate
        (py_str float_repr (row_get_default r "市盈率" (CStr "N/A")))
        (py_str float_repr (row_get_default r "总市值" (CStr "N/A")))).

(** [result['hot_concepts']] of [get_concept_info]: the list is appended to
    in place, so the concepts converted before a failing row stay. *)
Definition get_concept_info (float_repr : Q -> string) (concept_data : result (list row))
    : list board_info :=
  match concept_data with
  | Ok rows => append_until_raise (concept_info_of float_repr) (py_slice_upto rows 20)
  | Raise _ => []
  end.

(** [get_all_industries]: a failing row sends the whole call to its
    [except] clause, which returns []. *)
Definition get_all_industries (float_repr : Q -> string) (industry_data : result (list row))
    : list board_info :=
  match industry_data with
  | Ok rows =>
      match map_result (industry_info_of float_repr) rows with
      | Ok industries => industries
      | Raise _ => []
      end
  | Raise _ => []
  end.

Definition board_info_dict (b : board_info) : pyval :=
  VDict (app [("name", VStr (b_name b)); ("code", VStr (b_code b));
               ("stock_count", VInt (b_stock_count b))]
        (app match b_avg_price b with
             | Some p => [("avg_price", VFloat p)]
             | None => []
             end
         [("change_pct", VFloat (b_change_pct b));
          ("turnover_rate", VFloat (b_turnover_rate b));
          ("pe_ratio", VStr (b_pe_ratio b)); ("market_cap", VStr (b_market_cap b))])).

(** The dict [get_concept_info] returns. *)
Definition concept_info_dict (ticker : string) (hot_concepts : list board_info)
    : list (string * pyval) :=
  [("ticker", VStr ticker); ("concepts", VList []);
   ("hot_concepts", VList (map board_info_dict hot_concepts))].

(* ------------------------------------------------------------------ *)
(** ** [get_warren_buffett_analysis] and its enhanced version *)

Record wb_analysis : Type := mk_wb_analysis {
  wa_ticker : string;
  wa_date : string;
  wa_company_info : company_info;
  wa_industry_analysis : industry_analysis;
  wa_financial_metrics : list financial_metrics;
  wa_score : wb_score
}.

(** [get_warren_buffett_analysis] from the results of its calls:
    [get_company_info], [get_industry_analysis] and
    [get_financial_metrics(ticker, end_date, limit=5)]. *)
Definition get_warren_buffett_analysis (ticker today : string) (ci : company_info)
    (ia : industry_analysis) (financial_metrics : list financial_metrics) : wb_analysis :=
  let latest := match financial_metrics with
                | m :: _ => Some m
                | [] => None
                end in
  mk_wb_analysis ticker today ci ia financial_metrics
    (get_warren_buffett_score latest (analysis_industry ia)).

Definition letter_str (g : letter) : string :=
  match g with GradeA => "A" | GradeB => "B" | GradeC => "C" | GradeD => "D" end.

Definition wb_score_dict (s : wb_score) : pyval :=
  let c := components s in
  VDict [("components", VDict [
            ("business_understandability", VInt (business_understandability c));
            ("competitive_advantage", VInt (competitive_advantage c));
            ("financial_strength", VInt (financial_strength c));
            ("management_quality", VInt (management_quality c));
            ("valuation_attractiveness", VInt (valuation_attractiveness c))]);
         ("total_score", VInt (total_score s));
         ("max_score", VInt 100);
         ("grade", VStr (letter_str (grade s)));
         ("interpretation", VDict [
            ("A (80-100)", VStr "优秀投资标的");
            ("B (60-79)", VStr "良好投资标的");
            ("C (40-59)", VStr "一般投资标的");
            ("D (0-39)", VStr "需要谨慎考虑")])].

Definition wb_analysis_dict (a : wb_analysis) : list (string * pyval) :=
  [("ticker", VStr (wa_ticker a));
   ("analysis_date", VStr (wa_date a));
   ("company_info", VDict (company_info_dict (wa_ticker a) (wa_company_info a)));
   ("industry_analysis", VDict (industry_analysis_dict (wa_industry_analysis a)));
   ("financial_metrics", VList (map VMetrics (wa_financial_metrics a)));
   ("warren_buffett_score", wb_score_dict (wa_score a));
   ("investment_thesis", VDict [
      ("strengths", VList []); ("opportunities", VList []);
      ("competitive_moat", VStr "需要进一步研究");
      ("growth_prospects", VStr "需要行业和公司前景分析")]);
   ("risks_and_concerns", VDict [
      ("business_risks", VStr "需要行业分析");
      ("financial_risks", VStr "需要深入财务分析");
      ("regulatory_risks", VStr "需要政策环境分析");
      ("competitive_risks", VStr "需要竞争格局分析")]);
   ("final_assessment", VDict [
      ("recommendation", VStr "需要更多定性分析");
      ("target_price", VStr "需要估值模型");
      ("time_horizon", VStr "长期投资（3-5年以上）");
      ("confidence_level", VStr "中等（数据有限）");
      ("next_steps", VList [VStr "深入研究商业模式和竞争优势";
                            VStr "分析管理层质量和公司治理";
                            VStr "评估行业长期前景";
                            VStr "建立估值模型";
                            VStr "监控关键财务指标变化"])])].

Definition peers_of (ps : list peer_info) : list peer :=
  map (fun p => mk_peer (pi_ticker p) (pi_change_pct p)) ps.

(** [get_enhanced_warren_buffett_analysis] from the results of its calls. *)
Definition get_enhanced_warren_buffett_analysis (ticker : string) (base : wb_analysis)
    (peer_analysis : industry_peers) (hot_concepts : list board_info)
    : list (string * pyval) :=
  let score := enhanced_score ticker (wa_score base) (peers_of (ip_peer_stocks peer_analysis)) in
  let base_dict := wb_analysis_dict
    (mk_wb_analysis (wa_ticker base) (wa_date base) (wa_company_info base)
                    (wa_industry_analysis base) (wa_financial_metrics base) score) in
  let with_concepts :=
    app base_dict [("peer_analysis", VDict (industry_peers_dict peer_analysis));
                  ("concept_analysis", VDict (concept_info_dict ticker hot_concepts))] in
  let peer_count := length (ip_peer_stocks peer_analysis) in
  if (0 <? peer_count)%nat then
    app with_concepts [("enhanced_insights", VDict [
      ("peer_comparison", VDict [
         ("total_peers", VInt (Z.of_nat peer_count));
         ("industry", VStr (ip_industry peer_analysis));
         ("relative_analysis", VStr "基于同行对比的相对评估")]);
      ("market_context", VDict [
         ("hot_concepts_count", VInt (Z.of_nat (length hot_concepts)));
         ("concept_exposure", VStr "概念板块曝光度分析")]);
      ("enhanced_recommendation", VDict [
         ("context", VStr "结合行业对比和概念分析的综合建议");
         ("peer_strength", VStr "同行业相对地位评估");
         ("market_timing", VStr "基于概念热度的时机分析")])])]
  else with_concepts.

(* ------------------------------------------------------------------ *)
(** ** [get_valuation_metrics] *)

(** The entries of [valuation_data] the steps read and write;
    [per_share_metrics.get(k)] is [None] both for an absent key and for a
    stored [None]. *)
Record valuation_state : Type := mk_vstate {
  vs_current_price : option Q;
  vs_pe_ratio : option Q;
  vs_pb_ratio : option Q;
  vs_ps_ratio : option Q;
  vs_market_cap : option Q;
  vs_price_data : list (string * pyval);
  vs_valuation_ratios : list (string * option Q);
  vs_per_share_metrics : list (string * option Q)
}.

Definition vstate0 : valuation_state := mk_vstate None None None None None [] [] [].

Definition set_price (x : option Q) (s : valuation_state) : valuation_state :=
  mk_vstate x (vs_pe_ratio s) (vs_pb_ratio s) (vs_ps_ratio s) (vs_market_cap s)
            (vs_price_data s) (vs_valuation_ratios s) (vs_per_share_metrics s).
Definition set_pe (x : option Q) (s : valuation_state) : valuation_state :=
  mk_vstate (vs_current_price s) x (vs_pb_ratio s) (vs_ps_ratio s) (vs_market_cap s)
            (vs_price_data s) (vs_valuation_ratios s) (vs_per_share_metrics s).
Definition set_pb (x : option Q) (s : valuation_state) : valuation_state :=
  mk_vstate (vs_current_price s) (vs_pe_ratio s) x (vs_ps_ratio s) (vs_market_cap s)
            (vs_price_data s) (vs_valuation_ratios s) (vs_per_share_metrics s).
Definition set_ps (x : option Q) (s : valuation_state) : valuation_state :=
  mk_vstate (vs_current_price s) (vs_pe_ratio s) (vs_pb_ratio s) x (vs_market_cap s)
            (vs_price_data s) (vs_valuation_ratios s) (vs_per_share_metrics s).
Definition set_market_cap (x : option Q) (s : valuation_state) : valuation_state :=
  mk_vstate (vs_current_price s) (vs_pe_ratio s) (vs_pb_ratio s) (vs_ps_ratio s) x
            (vs_price_data s) (vs_valuation_ratios s) (vs_per_share_metrics s).
Definition set_price_data (d : list (string * pyval)) (s : valuation_state) : valuation_state :=
  mk_vstate (vs_current_price s) (vs_pe_ratio s) (vs_pb_ratio s) (vs_ps_ratio s)
            (vs_market_cap s) d (vs_valuation_ratios s) (vs_per_share_metrics s).
Definition set_ratio (k : string) (x : option Q) (s : valuation_state) : valuation_state :=
  mk_vstate (vs_current_price s) (vs_pe_ratio s) (vs_pb_ratio s) (vs_ps_ratio s)
            (vs_market_cap s) (vs_price_data s) (dict_set k x (vs_valuation_ratios s))
            (vs_per_share_metrics s).
Definition set_per_share (k : string) (x : option Q) (s : valuation_state) : valuation_state :=
  mk_vstate (vs_current_price s) (vs_pe_ratio s) (vs_pb_ratio s) (vs_ps_ratio s)
            (vs_market_cap s) (vs_price_data s) (vs_valuation_ratios s)
            (dict_set k x (vs_per_share_metrics s)).

Definition per_share (s : valuation_state) (k : string) : option Q :=
  dict_get (vs_per_share_metrics s) k None.

(** Step 1: the first quote of [get_real_time_quotes([ticker])]. *)
Definition price_step (quotes : list quote) (s : valuation_state) : valuation_state :=
  match quotes with
  | current_quote :: _ =>
      set_price_data
        [("current_price", VFloat (q_price current_quote));
         ("open", VFloat (q_open current_quote));
         ("high", VFloat (q_high current_quote));
         ("low", VFloat (q_low current_quote));
         ("change_pct", VFloat (q_change_pct current_quote));
         ("volume", VInt (q_volume current_quote));
         ("amount", VFloat (q_amount current_quote))]
        (set_price (Some (q_price current_quote)) s)
  | [] => s
  end.

(** [float(value) if value not in ['False', '', '-'] else None] *)
Definition parse_info_value (value : string) : result (option Q) :=
  if (value =? "False") || (value =? "") || (value =? "-") then Ok None
  else fmap_result Some (py_float_str value).

(** One row of step 3: [try: ... except ValueError: pass]. *)
Definition info_step (s : valuation_state) (item value : string) : result valuation_state :=
  let update (f : option Q -> valuation_state) :=
    match parse_info_value value with
    | Ok x => Ok (f x)
    | Raise ValueError => Ok s
    | Raise e => Raise e
    end in
  if str_contains "市盈率" item then update (fun x => set_ratio "pe_ratio" x (set_pe x s))
  else if str_contains "市净率" item then update (fun x => set_ratio "pb_ratio" x (set_pb x s))
  else if str_contains "市销率" item then update (fun x => set_ratio "ps_ratio" x (set_ps x s))
  else if str_contains "每股收益" item then update (fun x => set_per_share "eps" x s)
  else if str_contains "每股净资产" item then
    update (fun x => set_per_share "book_value_per_share" x s)
  else if str_contains "每股营业收入" item then
    update (fun x => set_per_share "sales_per_share" x s)
  else Ok s.

(** The loop of step 3; an exception leaves the updates made so far. *)
Fixpoint info_loop (float_repr : Q -> string) (s : valuation_state) (rows : list (cell * cell))
    : valuation_state :=
  match rows with
  | [] => s
  | r :: rows' =>
      match info_step s (py_str float_repr (fst r)) (py_str float_repr (snd r)) with
      | Ok s' => info_loop float_repr s' rows'
      | Raise _ => s
      end
  end.

(** [if not valuation_data[k]: v = row.get(col, None); if v is not None and
    v != '-': try: set(float(v)) except ValueError: pass] *)
Definition refill (current : option Q) (set : Q -> valuation_state) (s : valuation_state)
    (v : cell) : result valuation_state :=
  if truthy current then Ok s
  else match v with
       | CNone => Ok s
       | _ =>
           if cell_eqs v "-" then Ok s
           else match py_float v with
                | Ok x => Ok (set x)
                | Raise ValueError => Ok s
                | Raise e => Raise e
                end
       end.

(** Step 4 on the spot row of the ticker; an exception ends the step with
    the updates made so far. *)
Definition spot_step (s : valuation_state) (r : row) : valuation_state :=
  let price :=
    if truthy (vs_current_price s) then Ok s
    else fmap_result (fun x => set_price (Some x) s) (py_float (row_get_default r "最新价" cell0)) in
  match price with
  | Raise _ => s
  | Ok s1 =>
      match refill (vs_pe_ratio s1) (fun x => set_ratio "pe_ratio" (Some x) (set_pe (Some x) s1))
                   s1 (row_get r "市盈率-动态") with
      | Raise _ => s1
      | Ok s2 =>
          match refill (vs_pb_ratio s2) (fun x => set_ratio "pb_ratio" (Some x) (set_pb (Some x) s2))
                       s2 (row_get r "市净率") with
          | Raise _ => s2
          | Ok s3 =>
              match refill (vs_market_cap s3) (fun x => set_market_cap (Some x) s3)
                           s3 (row_get r "总市值") with
              | Raise _ => s3
              | Ok s4 => s4
              end
          end
      end
  end.

(** Step 5: a ratio derived from the price and a positive per-share value
    fills a still missing (or zero) ratio. *)
Definition derive (per : option Q) (current : option Q)
    (set : Q -> valuation_state -> valuation_state) (calc_key : string)
    (s : valuation_state) : valuation_state :=
  match vs_current_price s, per with
  | Some price, Some x =>
      if truthy (Some price) && truthy (Some x) && py_lt 0 x then
        let calculated := price / x in
        if truthy current then s
        else set_ratio calc_key (Some calculated) (set calculated s)
      else s
  | _, _ => s
  end.

Definition derive_step (s : valuation_state) : valuation_state :=
  let s1 := derive (per_share s "eps") (vs_pe_ratio s) (fun x => set_pe (Some x))
                   "pe_ratio_calculated" s in
  let s2 := derive (per_share s1 "book_value_per_share") (vs_pb_ratio s1)
                   (fun x => set_pb (Some x)) "pb_ratio_calculated" s1 in
  derive (per_share s2 "sales_per_share") (vs_ps_ratio s2) (fun x => set_ps (Some x))
         "ps_ratio_calculated" s2.

Record valuation_metrics : Type := mk_valuation_metrics {
  vm_state : valuation_state;
  vm_pe_assessment : assessment;
  vm_pb_assessment : assessment;
  vm_overall : overall
}.

(** [get_valuation_metrics] from the results of its calls:
    [get_real_time_quotes([ticker])], [get_market_cap], and the fetches
    [stock_individual_info_em] ([item] and [value] cells) and
    [stock_zh_a_spot_em]. *)
Definition get_valuation_metrics (float_repr : Q -> string) (ticker : string)
    (quotes : list quote) (market_cap : option Q)
    (individual_info : result (list (cell * cell))) (spot_data : result (list row))
    : valuation_metrics :=
  let s1 := price_step quotes vstate0 in
  let s2 := set_market_cap market_cap s1 in
  let s3 := match individual_info with
            | Ok rows => info_loop float_repr s2 rows
            | Raise _ => s2
            end in
  let s4 := match spot_data with
            | Ok data =>
                match spot_row ticker data with
                | Some r => spot_step s3 r
                | None => s3
                end
            | Raise _ => s3
            end in
  let s5 := derive_step s4 in
  mk_valuation_metrics s5 (analyze_pe_ratio (vs_pe_ratio s5))
    (analyze_pb_ratio (vs_pb_ratio s5))
    (overall_valuation (vs_pe_ratio s5) (vs_pb_ratio s5)).

Definition assessment_str (a : assessment) : string :=
  match a with
  | Unknown => "unknown" | NegativeEarnings => "negative_earnings"
  | NegativeBookValue => "negative_book_value" | VeryAttractive => "very_attractive"
  | Attractive => "attractive" | Fair => "fair" | Expensive => "expensive"
  | VeryExpensive => "very_expensive"
  end.

Definition overall_str (o : overall) : string :=
  match o with
  | Undetermined => "undetermined" | OAttractive => "attractive" | OFair => "fair"
  | OExpensive => "expensive" | OOvervalued => "overvalued"
  end.

(** The dict [get_valuation_metrics] returns (the [reason] texts of the
    assessments are left out). *)
Definition valuation_metrics_dict (ticker : string) (v : valuation_metrics)
    : list (string * pyval) :=
  let s := vm_state v in
  [("ticker", VStr ticker);
   ("current_price", vopt (vs_current_price s));
   ("pe_ratio", vopt (vs_pe_ratio s));
   ("pb_ratio", vopt (vs_pb_ratio s));
   ("ps_ratio", vopt (vs_ps_ratio s));
   ("market_cap", vopt (vs_market_cap s));
   ("price_data", VDict (vs_price_data s));
   ("valuation_ratios", VDict (map (fun kv => (fst kv, vopt (snd kv))) (vs_valuation_ratios s)));
   ("per_share_metrics", VDict (map (fun kv => (fst kv, vopt (snd kv))) (vs_per_share_metrics s)));
   ("warren_buffett_valuation", VDict [
      ("current_price", vopt (vs_current_price s));
      ("pe_assessment", VDict [("assessment", VStr (assessment_str (vm_pe_assessment v)))]);
      ("pb_assessment", VDict [("assessment", VStr (assessment_str (vm_pb_assessment v)))]);
      ("overall_valuation", VStr (overall_str (vm_overall v)))])].

(* ------------------------------------------------------------------ *)
(** ** [StockService] of the backend *)

(** [len(v)] *)
Definition py_len (v : pyval) : result Z :=
  match v with
  | VList l => Ok (Z.of_nat (length l))
  | VDict d => Ok (Z.of_nat (length d))
  | VStr s => Ok (Z.of_nat (length (filter (fun c => negb (is_cont_byte c))
                                           (list_ascii_of_string s))))
  | _ => Raise TypeError
  end.

(** [v[:n]] for a list. *)
Definition py_head (v : pyval) (n : nat) : result pyval :=
  match v with
  | VList l => Ok (VList (firstn n l))
  | VStr s => Ok (VStr (take_cp n s))
  | _ => Raise TypeError
  end.

Record stock_info_response : Type := mk_stock_info_response {
  sir_ticker : string;
  sir_name : pyval;
  sir_industry : pyval;
  sir_market_cap : pyval;
  sir_pe_ratio : pyval;
  sir_pb_ratio : pyval;
  sir_dividend_yield : pyval;
  sir_description : pyval
}.

(** [StockService.get_stock_info] from the dicts of [get_company_info]
    and [get_valuation_metrics]. *)
Definition service_stock_info (ticker : string) (company_info valuation : list (string * pyval))
    : stock_info_response :=
  mk_stock_info_response ticker
    (dict_get company_info "name" (VStr ticker))
    (dict_get company_info "industry" VNone)
    (dict_get company_info "market_cap" VNone)
    (dict_get valuation "pe_ratio" VNone)
    (dict_get valuation "pb_ratio" VNone)
    (dict_get valuation "dividend_yield" VNone)
    (dict_get company_info "description" VNone).

Record industry_analysis_response : Type := mk_industry_analysis_response {
  iar_industry_name : pyval;
  iar_total_companies : Z;
  iar_average_pe : pyval;
  iar_average_pb : pyval;
  iar_top_companies : pyval;
  iar_industry_trends : pyval
}.

(** [StockService.get_industry_analysis] from the dicts of
    [get_industry_analysis] and [get_industry_peers]. *)
Definition service_industry_analysis (industry_data peers_data : list (string * pyval))
    : result industry_analysis_response :=
  let* total := py_len (dict_get peers_data "peers" (VList [])) in
  let* top := py_head (dict_get peers_data "peers" (VList [])) 10 in
  Ok (mk_industry_analysis_response
        (dict_get industry_data "industry_name" (VStr "未知行业"))
        total
        (dict_get industry_data "industry_avg_pe" VNone)
        (dict_get industry_data "industry_avg_pb" VNone)
        top
        (dict_get industry_data "industry_trends" VNone)).

Record stock_analysis_response : Type := mk_stock_analysis_response {
  sar_ticker : string;
  sar_analysis_type : string;
  sar_score : pyval;
  sar_recommendation : pyval;
  sar_key_metrics : pyval;
  sar_analysis_details : pyval
}.

(** [StockService.get_stock_analysis(ticker, "warren_buffett")] from the
    dict of [get_enhanced_warren_buffett_analysis]. *)
Definition service_stock_analysis_wb (ticker : string) (analysis_data : list (string * pyval))
    : stock_analysis_response :=
  mk_stock_analysis_response ticker "warren_buffett"
    (dict_get analysis_data "total_score" VNone)
    (dict_get analysis_data "investment_recommendation" VNone)
    (dict_get analysis_data "key_metrics" VNone)
    (dict_get analysis_data "detailed_analysis" VNone).

(* ------------------------------------------------------------------ *)
(** ** Sample inputs of the properties below *)

(** A rendering of rationals for the samples ([str] of a float is only
    stored or compared by the code). *)
Definition sample_float_repr (q : Q) : string :=
  z_repr (Qnum q) ++ "/" ++ z_repr (Zpos (Qden q)).

Definition sample_report_row : row :=
  [("报告期", CStr "2024-12-31"); ("营业总收入", CStr "1.5亿"); ("净利润", CStr "2000万");
   ("净资产收益率", CFloat 20); ("产权比率", CFloat (1 # 5)); ("流动比率", CFloat 2);
   ("销售净利率", CFloat 0); ("总资产收益率", CFloat 8)].

Definition sample_spot_row (code : string) (price : cell) : row :=
  [("代码", CStr code); ("名称", CStr "贵州茅台"); ("最新价", price); ("今开", CFloat 1500);
   ("最高", CFloat 1520); ("最低", CFloat 1490); ("成交量", CFloat 12345);
   ("成交额", CFloat 1800000000); ("涨跌幅", CFloat (12 # 10)); ("市盈率-动态", CFloat 30);
   ("市净率", CFloat 9); ("总市值", CFloat 1900000000000)].

Definition sample_hist : list row :=
  [[("收盘", CFloat 1495); ("开盘", CFloat 1490); ("最高", CFloat 1500); ("最低", CFloat 1480);
    ("成交量", CFloat 1000); ("成交额", CFloat 1500000)]].

Definition sample_board_row (count : cell) : row :=
  [("板块名称", CStr "白酒"); ("板块代码", CStr "BK0896"); ("公司家数", count);
   ("平均价格", CFloat 100); ("涨跌幅", CFloat 1); ("换手率", CFloat 2)].

Definition sample_peers : list peer :=
  [mk_peer "000858" 1; mk_peer "000568" 2; mk_peer "600519" 3].



(** *** Composite helpers of the fold bodies *)

(** One step of the field loop of [search_line_items]. *)
Definition field_step (r : row) (acc : result (list (string * lval))) (field_name : string)
    : result (list (string * lval)) :=
  let* d := acc in
  let* field_value := get_field_value r field_name in
  Ok (dict_set field_name (LFloat field_value) d).

Definition field_stored (r : row) (d : list (string * lval)) (f : string) : Prop :=
  exists q, get_field_value r f = Ok q /\ assoc f d = Some (LFloat q).


Definition found_in (data : list row) (t : string) : bool :=
  match spot_row t data with Some _ => true | None => false end.

(** The [行业] value of the last [stock_individual_info_em] row whose item
    is exactly [行业] ([""] when there is none). *)
Definition last_industry_row (float_repr : Q -> string) (rows : list (cell * cell)) : string :=
  fold_left (fun acc r => if py_str float_repr (fst r) =? "行业" then py_str float_repr (snd r)
                          else acc) rows "".

(* ================================================================== *)
(** * Properties *)

Example extract_wan_ex : res_opt_qeqb (safe_extract_value (CStr " -2.5e1万 ") 1) (Some (-250000)) = true.
Proof. vm_compute. reflexivity. Qed.
Example extract_comma_ex : res_opt_qeqb (safe_extract_value (CStr "1,234.5") 2) (Some (24690 # 10)) = true.
Proof. vm_compute. reflexivity. Qed.
Example extract_bad_ex : safe_extract_value (CStr "1.2.3") 1 = Ok None.
Proof. vm_compute. reflexivity. Qed.
Example extract_dot_ex : safe_extract_value (CStr ".") 1 = Ok None.
Proof. vm_compute. reflexivity. Qed.
Example safe_float_none_ex : safe_float CNone 7 = Ok 7.
Proof. reflexivity. Qed.

(** ** The float literal parser *)

Lemma pstep_float_char st a c x :
  pstep st a c = Some x -> float_char c = true.
Proof.
  unfold pstep, float_char.
  destruct (is_digit c), (is_space c), (is_sign c), (is_point c), (is_exp c);
    destruct st; simpl; intro H; try discriminate H; reflexivity.
Qed.

Lemma prun_float_chars cs : forall st a x,
  prun st a cs = Some x -> forallb float_char cs = true.
Proof.
  induction cs as [| c cs IH]; intros st a x H; simpl in *; [reflexivity |].
  destruct (pstep st a c) as [[st' a'] |] eqn:E; [| discriminate H].
  rewrite (pstep_float_char _ _ _ _ E). simpl. exact (IH _ _ _ H).
Qed.

Lemma py_float_str_chars s q :
  py_float_str s = Ok q -> forallb float_char (list_ascii_of_string s) = true.
Proof.
  unfold py_float_str.
  destruct (prun PLead acc0 (list_ascii_of_string s)) as [[st a] |] eqn:E;
    intro H; [| discriminate H].
  exact (prun_float_chars _ _ _ _ E).
Qed.

Lemma py_float_str_raise s e : py_float_str s = Raise e -> e = ValueError.
Proof.
  unfold py_float_str.
  destruct (prun PLead acc0 (list_ascii_of_string s)) as [[st a] |];
    [destruct (accepting st) |]; intro H; inversion H; reflexivity.
Qed.

Lemma py_float_raise v e : py_float v = Raise e -> e = ValueError \/ e = TypeError.
Proof.
  destruct v; simpl; intro H; try discriminate H.
  - inversion H; auto.
  - left. exact (py_float_str_raise _ _ H).
Qed.

(** ** Substrings *)

Lemma contains_app_avoid h pat s t :
  avoids h s = true ->
  str_contains (String h pat) (s ++ t) = str_contains (String h pat) t.
Proof.
  induction s as [| c s IH]; intro Hs; [reflexivity |].
  unfold avoids in Hs; simpl in Hs. apply andb_prop in Hs as [Hc Hs].
  simpl. destruct (ascii_dec h c) as [-> | _].
  - rewrite Ascii.eqb_refl in Hc. discriminate Hc.
  - simpl. exact (IH Hs).
Qed.

Lemma replace_app_avoid h pat rep s t :
  avoids h s = true ->
  str_replace (String h pat) rep (s ++ t) = s ++ str_replace (String h pat) rep t.
Proof.
  induction s as [| c s IH]; intro Hs; [reflexivity |].
  unfold avoids in Hs; simpl in Hs. apply andb_prop in Hs as [Hc Hs].
  unfold str_replace. simpl. destruct (ascii_dec h c) as [-> | _].
  - rewrite Ascii.eqb_refl in Hc. discriminate Hc.
  - f_equal. exact (IH Hs).
Qed.

Lemma append_empty_r s : s ++ "" = s.
Proof. induction s as [| c s IH]; simpl; [| rewrite IH]; reflexivity. Qed.

Lemma float_chars_avoid h s :
  float_char h = false ->
  forallb float_char (list_ascii_of_string s) = true -> avoids h s = true.
Proof.
  intros Hh Hs. unfold avoids. induction (list_ascii_of_string s) as [| c l IH];
    [reflexivity |].
  simpl in *. apply andb_prop in Hs as [Hc Hs]. rewrite (IH Hs), andb_true_r.
  destruct (Ascii.eqb_spec c h) as [-> | _]; [congruence | reflexivity].
Qed.

(** A parsable number avoids the first byte of the UTF-8 encoding of both
    Chinese magnitude suffixes, and the percent sign. *)
Lemma parsed_avoids s q :
  py_float_str s = Ok q ->
  avoids "228"%char s = true /\ avoids "%"%char s = true.
Proof.
  intro H. apply py_float_str_chars in H.
  split; apply float_chars_avoid; auto.
Qed.

Lemma YI_eq : YI = String "228"%char (String "186"%char (String "191"%char "")).
Proof. reflexivity. Qed.
Lemma WAN_eq : WAN = String "228"%char (String "184"%char (String "135"%char "")).
Proof. reflexivity. Qed.
Lemma PCT_eq : PCT = String "%"%char "".
Proof. reflexivity. Qed.

Lemma not_sentinel_of_contains pat s :
  str_contains pat s = true ->
  str_contains pat "False" = false -> str_contains pat "" = false ->
  str_contains pat "nan" = false ->
  in_sentinels (CStr s) = false.
Proof.
  intros H H1 H2 H3. simpl.
  destruct (String.eqb_spec s "False") as [-> | _]; [congruence |].
  destruct (String.eqb_spec s "") as [-> | _]; [congruence |].
  destruct (String.eqb_spec s "nan") as [-> | _]; [congruence |].
  reflexivity.
Qed.

(** ** Value Extractor: claims *)

Lemma extract_yi_suffix s q m :
  py_float_str s = Ok q -> safe_extract_value (CStr (s ++ YI)) m = Ok (Some (q * q1e8 * m)).
Proof.
  intro H. destruct (parsed_avoids _ _ H) as [Ha _].
  assert (Hc : str_contains YI (s ++ YI) = true)
    by (rewrite YI_eq, (contains_app_avoid _ _ _ _ Ha); reflexivity).
  assert (Hr : str_replace YI "" (s ++ YI) = s)
    by (rewrite YI_eq, (replace_app_avoid _ _ _ _ _ Ha); apply append_empty_r).
  unfold safe_extract_value.
  rewrite (not_sentinel_of_contains _ _ Hc) by reflexivity.
  rewrite Hc, Hr, H. reflexivity.
Qed.

Lemma extract_wan_suffix s q m :
  py_float_str s = Ok q -> safe_extract_value (CStr (s ++ WAN)) m = Ok (Some (q * q1e4 * m)).
Proof.
  intro H. destruct (parsed_avoids _ _ H) as [Ha _].
  assert (Hy : str_contains YI (s ++ WAN) = false)
    by (rewrite YI_eq, (contains_app_avoid _ _ _ _ Ha); reflexivity).
  assert (Hc : str_contains WAN (s ++ WAN) = true)
    by (rewrite WAN_eq, (contains_app_avoid _ _ _ _ Ha); reflexivity).
  assert (Hr : str_replace WAN "" (s ++ WAN) = s)
    by (rewrite WAN_eq, (replace_app_avoid _ _ _ _ _ Ha); apply append_empty_r).
  unfold safe_extract_value.
  rewrite (not_sentinel_of_contains _ _ Hc) by reflexivity.
  rewrite Hy, Hc, Hr, H. reflexivity.
Qed.

Lemma extract_pct_suffix s q m :
  py_float_str s = Ok q -> safe_extract_value (CStr (s ++ PCT)) m = Ok (Some q).
Proof.
  intro H. destruct (parsed_avoids _ _ H) as [Ha Hp].
  assert (Hy : str_contains YI (s ++ PCT) = false)
    by (rewrite YI_eq, (contains_app_avoid _ _ _ _ Ha); reflexivity).
  assert (Hw : str_contains WAN (s ++ PCT) = false)
    by (rewrite WAN_eq, (contains_app_avoid _ _ _ _ Ha); reflexivity).
  assert (Hc : str_contains PCT (s ++ PCT) = true)
    by (rewrite PCT_eq, (contains_app_avoid _ _ _ _ Hp); reflexivity).
  assert (Hr : str_replace PCT "" (s ++ PCT) = s)
    by (rewrite PCT_eq, (replace_app_avoid _ _ _ _ _ Hp); apply append_empty_r).
  unfold safe_extract_value.
  rewrite (not_sentinel_of_contains _ _ Hc) by reflexivity.
  rewrite Hy, Hw, Hc, Hr, H. reflexivity.
Qed.

(** C2: for a numeric string [s] (one [float] parses to [q]) and multiplier
    1, the extractor scales [s ++ "亿"] by 1e8 and [s ++ "万"] by 1e4, and
    strips a trailing ["%"] without dividing by 100; in particular
    ["1.5亿"] gives 150000000, ["2万"] gives 20000 and ["12.5%"] gives 12.5. *)
Theorem extract_suffix_scaling : forall s q,
  py_float_str s = Ok q ->
  (exists r, safe_extract_value (CStr (s ++ YI)) 1 = Ok (Some r) /\ r == q * 100000000) /\
  (exists r, safe_extract_value (CStr (s ++ WAN)) 1 = Ok (Some r) /\ r == q * 10000) /\
  safe_extract_value (CStr (s ++ PCT)) 1 = Ok (Some q) /\
  res_opt_qeqb (safe_extract_value (CStr "1.5亿") 1) (Some 150000000) = true /\
  res_opt_qeqb (safe_extract_value (CStr "2万") 1) (Some 20000) = true /\
  res_opt_qeqb (safe_extract_value (CStr "12.5%") 1) (Some (125 # 10)) = true.
Proof.
  intros s q H. split; [| split; [| split]].
  - eexists. split; [exact (extract_yi_suffix s q 1 H) |].
    unfold q1e8. rewrite Qmult_1_r. reflexivity.
  - eexists. split; [exact (extract_wan_suffix s q 1 H) |].
    unfold q1e4. rewrite Qmult_1_r. reflexivity.
  - exact (extract_pct_suffix s q 1 H).
  - vm_compute. auto.
Qed.

Lemma extract_suffix_scaling_witness :
  py_float_str "1.5" = Ok (15 # 10) /\
  (exists r, safe_extract_value (CStr ("1.5" ++ YI)) 1 = Ok (Some r)
             /\ r == (15 # 10) * 100000000) /\
  (exists r, safe_extract_value (CStr ("1.5" ++ WAN)) 1 = Ok (Some r)
             /\ r == (15 # 10) * 10000) /\
  safe_extract_value (CStr ("1.5" ++ PCT)) 1 = Ok (Some (15 # 10)) /\
  res_opt_qeqb (safe_extract_value (CStr "1.5亿") 1) (Some 150000000) = true /\
  res_opt_qeqb (safe_extract_value (CStr "2万") 1) (Some 20000) = true /\
  res_opt_qeqb (safe_extract_value (CStr "12.5%") 1) (Some (125 # 10)) = true.
Proof.
  split; [reflexivity |]. apply (extract_suffix_scaling "1.5" (15 # 10)). reflexivity.
Defined.

Lemma catch_fmap_ok {A B} (h : B) (f : A -> B) (r : result A) :
  (forall e, r = Raise e -> e = ValueError \/ e = TypeError) ->
  exists x, catch_value_type h (fmap_result f r) = Ok x.
Proof.
  intro H. destruct r as [a | e]; simpl; [eauto |].
  destruct (H e eq_refl) as [-> | ->]; eauto.
Qed.

Lemma safe_extract_value_ok v m : exists r, safe_extract_value v m = Ok r.
Proof.
  unfold safe_extract_value.
  destruct (in_sentinels v); [eauto |].
  destruct v;
    try (apply catch_fmap_ok; intros e He; exact (py_float_raise _ _ He)).
  repeat match goal with |- context [if ?b then _ else _] => destruct b end;
    apply catch_fmap_ok; intros e He; left; exact (py_float_str_raise _ _ He).
Qed.

(** C3: the extractor never raises and returns a float or missing; the
    sentinels [None], [""] and ["False"] give missing, and so does every
    non-sentinel string whose residual (after the suffix or separator
    stripping) [float] cannot parse. *)
Theorem extract_fails_soft :
  (forall v m, exists r, safe_extract_value v m = Ok r) /\
  (forall m, safe_extract_value CNone m = Ok None /\
             safe_extract_value (CStr "") m = Ok None /\
             safe_extract_value (CStr "False") m = Ok None) /\
  (forall s m, in_sentinels (CStr s) = false ->
               (forall q, py_float_str (extract_residual s) <> Ok q) ->
               safe_extract_value (CStr s) m = Ok None).
Proof.
  split; [| split].
  - exact safe_extract_value_ok.
  - intro m. repeat split.
  - intros s m Hs Hp. unfold safe_extract_value. rewrite Hs.
    unfold extract_residual in Hp.
    repeat match goal with
           | H : context [if ?b then _ else _] |- _ => destruct b
           end;
      match goal with
      | |- context [py_float_str ?x] =>
          destruct (py_float_str x) as [q | e] eqn:E;
            [exfalso; exact (Hp q eq_refl)
            | rewrite (py_float_str_raise _ _ E); reflexivity]
      end.
Qed.

Lemma extract_fails_soft_witness :
  in_sentinels (CStr "n/a") = false /\
  (forall q, py_float_str (extract_residual "n/a") <> Ok q) /\
  safe_extract_value (CStr "n/a") 1 = Ok None.
Proof.
  assert (Hp : forall q, py_float_str (extract_residual "n/a") <> Ok q)
    by (intros q; vm_compute; discriminate).
  split; [reflexivity | split; [exact Hp |]].
  apply (proj2 (proj2 extract_fails_soft)); [reflexivity | exact Hp].
Defined.

(** C10: a numeric zero cell ([0] or [0.0]) is equal to [False] in the
    sentinel test: the extractor returns missing for it, exactly as for
    [None], and [safe_float] returns its default. *)
Theorem extract_zero_is_missing : forall m d,
  safe_extract_value (CInt i64_zero) m = Ok None /\
  safe_extract_value (CFloat 0) m = Ok None /\
  safe_extract_value (CInt i64_zero) m = safe_extract_value CNone m /\
  safe_extract_value (CFloat 0) m = safe_extract_value CNone m /\
  safe_float (CInt i64_zero) d = Ok d /\
  safe_float (CFloat 0) d = Ok d.
Proof. intros m d. repeat split. Qed.

(** ** Ratio Engine: claims *)

Lemma safe_float_ok v d : exists x, safe_float v d = Ok x.
Proof.
  unfold safe_float. destruct (in_sentinels v); [eauto |].
  destruct v;
    try (destruct (py_float _) as [x | e] eqn:E; simpl; [eauto |];
         destruct (py_float_raise _ _ E) as [-> | ->]; eauto; fail).
  repeat match goal with |- context [if ?b then _ else _] => destruct b end;
    match goal with
    | |- context [py_float_str ?x] =>
        destruct (py_float_str x) as [y | e] eqn:E; simpl; [eauto |];
        rewrite (py_float_str_raise _ _ E); eauto
    | |- context [py_float ?x] =>
        destruct (py_float x) as [y | e] eqn:E; simpl; [eauto |];
        destruct (py_float_raise _ _ E) as [-> | ->]; eauto
    end.
Qed.

Lemma get_field_value_ok r name : exists x, get_field_value r name = Ok x.
Proof.
  unfold get_field_value.
  destruct (assoc name field_mapping); [apply safe_float_ok |].
  destruct (assoc name calculated_fields) as [ak |]; [| apply safe_float_ok].
  repeat match goal with
         | |- context [safe_float ?v ?d] =>
             let x := fresh "x" in destruct (safe_float_ok v d) as [x ->]
         end.
  simpl. repeat match goal with |- context [if ?b then _ else _] => destruct b end;
    eauto.
Qed.

(** C1 (counterexample): the Ratio Engine of [search_line_items]
    ([get_field_value], the registry of working capital, book value, ...,
    current and quick ratios, margins) computes [current_ratio] from
    [current_liabilities = 0], [current_assets = 100] as the float 0.0, not
    as missing; with both operands absent it also gives 0.0. *)
Lemma current_ratio_zero_denominator_cex :
  get_field_value current_ratio_row "current_ratio" = Ok 0 /\
  get_field_value [] "current_ratio" = Ok 0.
Proof. split; vm_compute; reflexivity. Qed.

(** [get_field_value] reads every column through [safe_float(...)] with
    default 0.0: rows that agree on these readings agree on every field. *)
Lemma get_field_value_readings r1 r2 name :
  (forall k, safe_float (row_get r1 k) 0 = safe_float (row_get r2 k) 0) ->
  get_field_value r1 name = get_field_value r2 name.
Proof.
  intro H. unfold get_field_value. cbv beta zeta.
  destruct (assoc name field_mapping) as [ak |]; [apply H |].
  destruct (assoc name calculated_fields) as [ak |]; [| apply H].
  rewrite !H. reflexivity.
Qed.

(** C1 (amended): the ratio helper of the Metrics Aligner ([safe_ratio])
    returns missing when the numerator or the denominator is missing or the
    denominator is zero.  The registry Ratio Engine ([get_field_value])
    never raises and never returns missing; for every field of the
    registry a missing operand (a column absent or [None]) is read exactly
    as a column holding 0.0; and every ratio field of [calculated_fields]
    yields 0.0 when its denominator reads as zero, so [current_ratio] with
    zero current liabilities is 0.0. *)
Theorem ratio_zero_denominator_policy :
  (forall n d pct, n = None \/ d = None \/ (exists q, d = Some q /\ q == 0) ->
                   safe_ratio n d pct = None) /\
  (forall r name, exists x, get_field_value r name = Ok x) /\
  (forall r col name, row_get r col = CNone ->
     get_field_value ((col, CFloat 0) :: r) name = get_field_value r name) /\
  (forall name den, In (name, den) ratio_denominators ->
     (exists ak_fields, assoc name calculated_fields = Some ak_fields /\
                        last ak_fields "" = den) /\
     forall r q, safe_float (row_get r den) 0 = Ok q -> q == 0 ->
                 get_field_value r name = Ok 0).
Proof.
  split; [| split; [| split]].
  - intros n d pct [-> | [-> | [q [-> Hq]]]]; [reflexivity | destruct n; reflexivity |].
    destruct n; [| reflexivity]. simpl. rewrite (Qeq_eq_bool _ _ Hq). reflexivity.
  - exact get_field_value_ok.
  - intros r col name Hc. apply get_field_value_readings. intro k.
    unfold row_get at 1. simpl assoc. destruct (String.eqb_spec k col) as [-> | _];
      [rewrite Hc; reflexivity | reflexivity].
  - intros name den Hin.
    simpl in Hin.
    repeat destruct Hin as [Hin | Hin]; try contradiction; injection Hin as <- <-;
      (split; [eexists; split; reflexivity |]);
      intros r q Hq Hz; unfold get_field_value; simpl; rewrite Hq;
      repeat match goal with
             | |- context [safe_float (row_get r ?k) 0] =>
                 let x := fresh "x" in
                 destruct (safe_float_ok (row_get r k) 0) as [x ->]
             end;
      simpl; unfold div_or_zero, pct_or_zero, py_ne; rewrite (Qeq_eq_bool _ _ Hz);
      reflexivity.
Qed.

Lemma ratio_zero_denominator_policy_witness :
  safe_ratio (Some 100) (Some 0) false = None /\
  safe_ratio None (Some 3) true = None /\
  get_field_value [("流动资产", CFloat 100); ("流动负债", CFloat 0)] "current_ratio" =
    get_field_value [("流动资产", CFloat 100)] "current_ratio" /\
  get_field_value current_ratio_row "current_ratio" = Ok 0 /\
  get_field_value [("净利润", CFloat 5)] "net_margin" = Ok 0.
Proof.
  destruct ratio_zero_denominator_policy as [H1 [_ [H3 H4]]].
  split; [| split; [| split; [| split]]].
  - apply H1. right. right. exists 0. split; reflexivity.
  - apply H1. left. reflexivity.
  - refine (eq_trans _ (H3 [("流动资产", CFloat 100)] "流动负债" "current_ratio" eq_refl)).
    vm_compute. reflexivity.
  - apply (proj2 (H4 "current_ratio" "流动负债" ltac:(simpl; tauto)) current_ratio_row 0);
      reflexivity.
  - apply (proj2 (H4 "net_margin" "营业总收入" ltac:(simpl; tauto)) [("净利润", CFloat 5)] 0);
      reflexivity.
Defined.

(** ** Metrics Aligner *)

(** *** Python's string order *)

Lemma ascii_compare_N a b :
  Ascii.compare a b = N.compare (N_of_ascii a) (N_of_ascii b).
Proof. reflexivity. Qed.

Lemma str_compare_refl s : String.compare s s = Eq.
Proof.
  induction s as [| c s IH]; simpl; [reflexivity |].
  rewrite ascii_compare_N, N.compare_refl. exact IH.
Qed.

Lemma str_compare_lt_trans a : forall b c,
  String.compare a b = Lt -> String.compare b c = Lt -> String.compare a c = Lt.
Proof.
  induction a as [| x a IH]; intros [| y b] [| z c]; simpl; try congruence.
  rewrite !ascii_compare_N.
  destruct (N.compare_spec (N_of_ascii x) (N_of_ascii y)) as [Hxy | Hxy | Hxy];
  destruct (N.compare_spec (N_of_ascii y) (N_of_ascii z)) as [Hyz | Hyz | Hyz];
    intros H1 H2; try discriminate.
  - rewrite Hxy, Hyz, N.compare_refl. exact (IH _ _ H1 H2).
  - assert (Hxz : (N_of_ascii x < N_of_ascii z)%N) by lia.
    now rewrite (proj2 (N.compare_lt_iff _ _) Hxz).
  - assert (Hxz : (N_of_ascii x < N_of_ascii z)%N) by lia.
    now rewrite (proj2 (N.compare_lt_iff _ _) Hxz).
  - assert (Hxz : (N_of_ascii x < N_of_ascii z)%N) by lia.
    now rewrite (proj2 (N.compare_lt_iff _ _) Hxz).
Qed.

Lemma str_ltb_irrefl s : String.ltb s s = false.
Proof. unfold String.ltb. now rewrite str_compare_refl. Qed.

Lemma str_ltb_trans a b c :
  String.ltb a b = true -> String.ltb b c = true -> String.ltb a c = true.
Proof.
  unfold String.ltb.
  destruct (String.compare a b) eqn:E1; try discriminate.
  destruct (String.compare b c) eqn:E2; try discriminate.
  now rewrite (str_compare_lt_trans _ _ _ E1 E2).
Qed.

Lemma str_ltb_total a b :
  a <> b -> String.ltb a b = true \/ String.ltb b a = true.
Proof.
  intro Hne. unfold String.ltb. rewrite (String.compare_antisym b a).
  destruct (String.compare a b) eqn:E; simpl; auto.
  apply String.compare_eq_iff in E. contradiction.
Qed.

(** *** [sorted(..., reverse=True)] *)

Lemma insert_desc_In x l y : In y (insert_desc x l) <-> x = y \/ In y l.
Proof.
  induction l as [| z t IH]; simpl; [tauto |].
  destruct (String.ltb z x); simpl; [tauto |]. rewrite IH. tauto.
Qed.

Lemma insert_desc_sorted x l :
  StronglySorted desc l -> ~ In x l -> StronglySorted desc (insert_desc x l).
Proof.
  induction l as [| y t IH]; intros Hs Hx; simpl.
  - constructor; constructor.
  - inversion Hs as [| ? ? Ht Hyt]; subst.
    destruct (String.ltb y x) eqn:Eyx.
    + constructor; [exact Hs |]. constructor; [exact Eyx |].
      apply Forall_forall. intros z Hz.
      exact (str_ltb_trans _ _ _ (proj1 (Forall_forall _ _) Hyt z Hz) Eyx).
    + assert (Hxy : String.ltb x y = true).
      { destruct (str_ltb_total x y) as [H | H]; [intros ->; apply Hx; left; reflexivity
                                                | exact H | congruence]. }
      constructor.
      * apply IH; [exact Ht | intro H; apply Hx; right; exact H].
      * apply Forall_forall. intros z Hz. apply insert_desc_In in Hz as [-> | Hz];
          [exact Hxy | exact (proj1 (Forall_forall _ _) Hyt z Hz)].
Qed.

Lemma sort_desc_In l y : In y (sort_desc l) <-> In y l.
Proof.
  induction l as [| x t IH]; simpl; [tauto |].
  rewrite insert_desc_In, IH. tauto.
Qed.

Lemma sort_desc_sorted l : NoDup l -> StronglySorted desc (sort_desc l).
Proof.
  induction l as [| x t IH]; intro Hnd; simpl; [constructor |].
  inversion Hnd; subst. apply insert_desc_sorted; [auto |].
  rewrite sort_desc_In. assumption.
Qed.

(** Whatever [xs[:k]] leaves out of a descending list is below all it keeps. *)
Lemma firstn_sorted_cut l : forall k p,
  StronglySorted desc l -> In p l -> ~ In p (firstn k l) ->
  length (firstn k l) = k /\ forall q, In q (firstn k l) -> desc q p.
Proof.
  induction l as [| a t IH]; intros k p Hs Hp Hn; [destruct Hp |].
  destruct k as [| k]; simpl; [split; [reflexivity | tauto] |].
  inversion Hs as [| ? ? Ht Hat]; subst.
  simpl in Hn. destruct Hp as [-> | Hp]; [tauto |].
  destruct (IH k p Ht Hp (fun H => Hn (or_intror H))) as [Hl Hq].
  split; [now rewrite Hl |].
  intros q [<- | Hq']; [exact (proj1 (Forall_forall _ _) Hat p Hp) | exact (Hq q Hq')].
Qed.

(** *** Building one period's record *)

Lemma find_row_ok t p :
  In p (map period t) -> exists r, find_row t p = Ok r.
Proof.
  intro H. unfold find_row.
  destruct (List.find (fun r => String.eqb (period r) p) t) eqn:E; [eauto |].
  exfalso. apply in_map_iff in H as [r [Hr Hin]].
  pose proof (find_none _ _ E r Hin) as Hf. simpl in Hf.
  rewrite Hr, String.eqb_refl in Hf. discriminate Hf.
Qed.

Lemma extract_truthy_float x :
  truthy (Some x) = true -> safe_extract_value (CFloat x) 1 = Ok (Some (x * 1)).
Proof.
  intro H. unfold truthy, py_ne in H. unfold safe_extract_value. simpl.
  destruct (Qeq_bool x 0); [discriminate H | reflexivity].
Qed.

Lemma sub_of_truthy_ok x y :
  truthy x && truthy y = true ->
  exists z, (let* a := safe_extract_value (cell_of_opt x) 1 in
             let* b := safe_extract_value (cell_of_opt y) 1 in
             py_sub a b) = Ok z.
Proof.
  destruct x as [x |], y as [y |]; cbn [cell_of_opt]; intro H;
    try (rewrite ?andb_false_r in H; discriminate H).
  apply andb_prop in H as [Hx Hy].
  rewrite (extract_truthy_float x Hx), (extract_truthy_float y Hy). simpl. eauto.
Qed.

(** The body of the loop succeeds on every period of both tables, and
    the record carries that period. *)
Lemma build_metric_ok ticker tag benefit debt p :
  In p (map period benefit) -> In p (map period debt) ->
  exists m, build_metric ticker tag benefit debt p = Ok m /\ report_period m = p.
Proof.
  intros Hb Hd. unfold build_metric.
  destruct (find_row_ok _ _ Hb) as [br ->]. destruct (find_row_ok _ _ Hd) as [dr ->].
  cbn [bind_result].
  repeat match goal with
         | |- context [safe_extract_value (row_get ?r ?k) 1] =>
             let x := fresh "x" in
             destruct (safe_extract_value_ok (row_get r k) 1) as [x ->];
             cbn [bind_result]
         end.
  match goal with
  | |- context [if truthy ?a && truthy ?b then _ else Ok None] =>
      destruct (truthy a && truthy b) eqn:E1;
        [destruct (sub_of_truthy_ok a b E1) as [z1 ->] |]; cbn [bind_result]
  end.
  all: match goal with
  | |- context [if truthy ?a && truthy ?b then _ else Ok None] =>
      destruct (truthy a && truthy b) eqn:E2;
        [destruct (sub_of_truthy_ok a b E2) as [z2 ->] |]; cbn [bind_result]
  end.
  all: repeat match goal with
         | |- context [safe_extract_value (row_get ?r ?k) 1] =>
             let x := fresh "x" in
             destruct (safe_extract_value_ok (row_get r k) 1) as [x ->];
             cbn [bind_result]
         end;
  eexists; split; reflexivity.
Qed.

(** *** The loop *)

Lemma align_periods_fst build ps :
  fst (align_periods build ps) = flat_map (built build) ps.
Proof.
  induction ps as [| p ps IH]; simpl; [reflexivity |].
  destruct (align_periods build ps) as [ms ws]. simpl in IH. subst ms.
  unfold built. destruct (build p); reflexivity.
Qed.

Lemma align_periods_warns build ps p e :
  In p ps -> build p = Raise e -> In (WPeriodFailed p e) (snd (align_periods build ps)).
Proof.
  induction ps as [| q ps IH]; intros Hp He; [destruct Hp |]. simpl.
  destruct (align_periods build ps) as [ms ws] eqn:Ea.
  destruct Hp as [-> | Hp].
  - rewrite He. left. reflexivity.
  - specialize (IH Hp He). simpl in IH.
    destruct (build q); right; exact IH.
Qed.

Lemma align_periods_all_ok build ps :
  (forall p, In p ps -> exists m, build p = Ok m /\ report_period m = p) ->
  map report_period (fst (align_periods build ps)) = ps.
Proof.
  intro H. rewrite align_periods_fst.
  induction ps as [| p ps IH]; [reflexivity |]. simpl.
  destruct (H p (or_introl eq_refl)) as [m [Hm Hr]]. unfold built at 1. rewrite Hm.
  simpl. rewrite Hr, IH; [reflexivity |].
  intros q Hq. exact (H q (or_intror Hq)).
Qed.

(** *** Alignment *)

Lemma common_periods_In p benefit debt :
  In p (common_periods benefit debt) <->
  In p (map period benefit) /\ In p (map period debt).
Proof.
  unfold common_periods. rewrite nodup_In, filter_In, existsb_exists.
  split.
  - intros [H1 [x [Hx Heq]]]. apply String.eqb_eq in Heq. subst x. auto.
  - intros [H1 H2]. split; [exact H1 |]. exists p. split; [exact H2 | apply String.eqb_refl].
Qed.

Lemma py_slice_upto_nil {A} (n : Z) : @py_slice_upto A [] n = [].
Proof. unfold py_slice_upto. destruct (0 <=? n)%Z; apply firstn_nil. Qed.

Lemma in_firstn {A} k (l : list A) x : In x (firstn k l) -> In x l.
Proof. intro H. rewrite <- (firstn_skipn k l). apply in_or_app. left. exact H. Qed.

Lemma py_slice_upto_In {A} (xs : list A) n x : In x (py_slice_upto xs n) -> In x xs.
Proof. unfold py_slice_upto. destruct (0 <=? n)%Z; apply in_firstn. Qed.

Lemma common_periods_nil_l debt : common_periods [] debt = [].
Proof. reflexivity. Qed.

Lemma common_periods_nil_r benefit : common_periods benefit [] = [].
Proof.
  unfold common_periods. simpl.
  induction benefit as [| b bs IH]; simpl; [reflexivity | exact IH].
Qed.

(** The periods of the records [get_financial_metrics] returns, in order. *)
Lemma get_financial_metrics_periods ticker tag benefit debt limit :
  map report_period (fst (get_financial_metrics ticker tag benefit debt limit)) =
  py_slice_upto (sort_desc (common_periods benefit debt)) limit.
Proof.
  unfold get_financial_metrics.
  destruct benefit as [| b bs];
    [rewrite common_periods_nil_l; simpl; now rewrite py_slice_upto_nil |].
  destruct debt as [| d ds];
    [rewrite common_periods_nil_r; simpl; now rewrite py_slice_upto_nil |].
  destruct (common_periods (b :: bs) (d :: ds)) as [| c cs] eqn:Ec;
    [simpl; now rewrite py_slice_upto_nil |].
  apply align_periods_all_ok. intros p Hp.
  apply py_slice_upto_In, (proj1 (sort_desc_In _ _)) in Hp.
  rewrite <- Ec in Hp. apply (proj1 (common_periods_In _ _ _)) in Hp as [H1 H2].
  exact (build_metric_ok _ _ _ _ _ H1 H2).
Qed.

Lemma firstn_sorted {A} (R : A -> A -> Prop) k l :
  StronglySorted R l -> StronglySorted R (firstn k l).
Proof.
  revert k. induction l as [| a t IH]; intros k Hs; [rewrite firstn_nil; constructor |].
  destruct k as [| k]; simpl; [constructor |].
  inversion Hs; subst. constructor; [auto |].
  apply Forall_forall. intros x Hx. apply in_firstn in Hx.
  exact (proj1 (Forall_forall _ _) H2 x Hx).
Qed.

(** C4 (counterexample): with [limit = -1] the Python slice [[:-1]] keeps
    all but the last common period, so one record is returned, which is
    not "at most [limit]". *)
Lemma align_negative_limit_cex :
  map report_period
      (fst (get_financial_metrics "000001" "ttm" example_primary example_secondary (-1)))
    = ["P3"] /\
  (Z.of_nat (length (fst (get_financial_metrics "000001" "ttm"
                            example_primary example_secondary (-1)))) <=? -1)%Z = false.
Proof. split; vm_compute; reflexivity. Qed.

Lemma insert_desc_length x l : length (insert_desc x l) = S (length l).
Proof.
  induction l as [| z t IH]; simpl; [reflexivity |].
  destruct (String.ltb z x); simpl; [reflexivity | rewrite IH; reflexivity].
Qed.

Lemma sort_desc_length l : length (sort_desc l) = length l.
Proof.
  induction l as [| x t IH]; simpl; [reflexivity |].
  unfold sort_desc in *. simpl. rewrite insert_desc_length, IH. reflexivity.
Qed.

(** C4 (amended): the records returned are for periods present in both
    tables, in strictly descending period order.  For a non-negative
    [limit] there are at most [limit] of them, and any common period left
    out is below every period kept while [limit] records are returned; the
    primary periods P1, P2, P3 and secondary periods P2, P3, P4 give P3
    then P2.  A negative [limit] -k follows Python slicing: the k oldest
    common periods are dropped and all the others kept. *)
Theorem align_common_periods_desc : forall ticker tag benefit debt limit,
  let out := map report_period (fst (get_financial_metrics ticker tag benefit debt limit)) in
  (forall p, In p out -> In p (map period benefit) /\ In p (map period debt)) /\
  StronglySorted desc out /\
  ((0 <= limit)%Z ->
   (length out <= Z.to_nat limit)%nat /\
   (forall p, In p (map period benefit) -> In p (map period debt) ->
              In p out \/ (length out = Z.to_nat limit /\ forall q, In q out -> desc q p)) /\
   map report_period
       (fst (get_financial_metrics ticker tag example_primary example_secondary limit))
     = firstn (Z.to_nat limit) ["P3"; "P2"]) /\
  ((limit < 0)%Z ->
   length out = (length (common_periods benefit debt) - Z.to_nat (- limit))%nat /\
   (forall p, In p (map period benefit) -> In p (map period debt) ->
              In p out \/ forall q, In q out -> desc q p)).
Proof.
  intros ticker tag benefit debt limit out. unfold out.
  rewrite !get_financial_metrics_periods.
  pose proof (sort_desc_sorted _ (NoDup_nodup _ _ : NoDup (common_periods benefit debt)))
    as Hs.
  set (sorted := sort_desc (common_periods benefit debt)) in *.
  assert (Hin : forall p, In p (map period benefit) -> In p (map period debt) -> In p sorted)
    by (intros p H1 H2; apply (proj2 (sort_desc_In _ _)), (proj2 (common_periods_In _ _ _));
        auto).
  split; [| split; [| split]].
  - intros p Hp. apply py_slice_upto_In, (proj1 (sort_desc_In _ _)) in Hp.
    exact (proj1 (common_periods_In _ _ _) Hp).
  - unfold py_slice_upto. destruct (0 <=? limit)%Z; apply firstn_sorted; exact Hs.
  - intro Hl. unfold py_slice_upto. rewrite (proj2 (Z.leb_le 0 limit) Hl).
    split; [| split].
    + apply firstn_le_length.
    + intros p H1 H2.
      destruct (In_dec string_dec p (firstn (Z.to_nat limit) sorted)) as [H | Hout];
        [left; exact H | right].
      exact (firstn_sorted_cut _ _ _ Hs (Hin p H1 H2) Hout).
    + reflexivity.
  - intro Hl. unfold py_slice_upto.
    replace (0 <=? limit)%Z with false by (symmetry; apply Z.leb_gt; lia).
    split.
    + rewrite length_firstn. unfold sorted. rewrite sort_desc_length. lia.
    + intros p H1 H2.
      destruct (In_dec string_dec p (firstn (length sorted - Z.to_nat (- limit)) sorted))
        as [H | Hout]; [left; exact H | right].
      exact (proj2 (firstn_sorted_cut _ _ _ Hs (Hin p H1 H2) Hout)).
Qed.

Lemma align_common_periods_desc_witness :
  (0 <= 10)%Z /\ (-1 < 0)%Z /\
  map report_period
      (fst (get_financial_metrics "000001" "ttm" example_primary example_secondary 10))
    = ["P3"; "P2"] /\
  length (fst (get_financial_metrics "000001" "ttm" example_primary example_secondary (-1)))
    = (length (common_periods example_primary example_secondary) - 1)%nat.
Proof.
  destruct (align_common_periods_desc "000001" "ttm" example_primary example_secondary 10)
    as [_ [_ [H10 _]]].
  destruct (align_common_periods_desc "000001" "ttm" example_primary example_secondary (-1))
    as [_ [_ [_ Hm1]]].
  split; [lia | split; [lia | split]].
  - exact (proj2 (proj2 (H10 ltac:(lia)))).
  - rewrite <- (length_map report_period). exact (proj1 (Hm1 ltac:(lia))).
Defined.

(** C9: an empty primary or secondary table, or two tables sharing no
    period, give an empty list (not an exception); a period whose record
    construction raises is skipped with a warning, and the records of the
    other periods are built as if it were absent. *)
Theorem align_failure_policy :
  (forall ticker tag debt limit,
     fst (get_financial_metrics ticker tag [] debt limit) = []) /\
  (forall ticker tag benefit limit,
     fst (get_financial_metrics ticker tag benefit [] limit) = []) /\
  (forall ticker tag benefit debt limit,
     (forall p, In p (map period benefit) -> ~ In p (map period debt)) ->
     fst (get_financial_metrics ticker tag benefit debt limit) = []) /\
  (forall build ps1 p ps2 e,
     build p = Raise e ->
     fst (align_periods build (ps1 ++ p :: ps2)) = fst (align_periods build (ps1 ++ ps2)) /\
     In (WPeriodFailed p e) (snd (align_periods build (ps1 ++ p :: ps2)))).
Proof.
  split; [| split; [| split]].
  - reflexivity.
  - intros ticker tag benefit limit. destruct benefit; reflexivity.
  - intros ticker tag benefit debt limit Hd.
    assert (Hc : common_periods benefit debt = []).
    { destruct (common_periods benefit debt) as [| c cs] eqn:Ec; [reflexivity |].
      exfalso. assert (Hin : In c (common_periods benefit debt)) by (rewrite Ec; left; reflexivity).
      apply (proj1 (common_periods_In _ _ _)) in Hin as [H1 H2]. exact (Hd c H1 H2). }
    unfold get_financial_metrics.
    destruct benefit as [| b bs]; [reflexivity |]. destruct debt as [| d ds]; [reflexivity |].
    rewrite Hc. reflexivity.
  - intros build ps1 p ps2 e He. split.
    + rewrite !align_periods_fst, !flat_map_app. simpl. unfold built at 2. rewrite He.
      reflexivity.
    + apply align_periods_warns; [apply in_or_app; right; left; reflexivity | exact He].
Qed.

Lemma align_failure_policy_witness :
  fst (get_financial_metrics "000001" "ttm" [mk_stmt_row "P1" []] [mk_stmt_row "P2" []] 10)
    = [] /\
  map report_period (fst (align_periods failing_on_P2 ["P3"; "P2"; "P1"])) = ["P3"; "P1"] /\
  In (WPeriodFailed "P2" TypeError) (snd (align_periods failing_on_P2 ["P3"; "P2"; "P1"])).
Proof.
  destruct align_failure_policy as [_ [_ [H3 H4]]].
  split; [| destruct (H4 failing_on_P2 ["P3"] "P2" ["P1"] TypeError eq_refl) as [Hf Hw];
            split].
  - apply H3. intros p [<- | []] [H | []]. discriminate H.
  - cbn [app] in Hf. rewrite Hf. reflexivity.
  - cbn [app] in Hw. exact Hw.
Defined.

(** ** Valuation Scorer *)

(** C6: for a missing ratio the scorer gives (unknown, 50); for a
    non-positive one (negative-earnings, 0) for PE and
    (negative-book-value, 0) for PB; otherwise the five bands with scores
    95, 85, 70, 40, 10 at PE thresholds 10, 15, 20, 30 and PB thresholds 1,
    1.5, 2.5, 4; e.g. 8.0 as PE, -3.0 as PE and a missing PB. *)
Theorem valuation_scorer_bands : forall r,
  assess r "pe" = claimed_assess r "pe" /\
  assess r "pb" = claimed_assess r "pb" /\
  assess (Some 8) "pe" = (VeryAttractive, 95%Z) /\
  assess (Some (-3)) "pe" = (NegativeEarnings, 0%Z) /\
  assess None "pb" = (Unknown, 50%Z).
Proof.
  intros [v |]; repeat split; try reflexivity;
    unfold assess, claimed_assess, claimed_band; simpl;
    destruct (py_le v 0); [reflexivity | | reflexivity |];
    repeat match goal with |- context [if py_lt v ?t then _ else _] =>
             destruct (py_lt v t) end; reflexivity.
Qed.

(** ** Composite Scoring Engine *)

Lemma py_lt_of_zero v c : Qeq_bool v 0 = true -> 0 <= c -> py_lt c v = false.
Proof.
  intros Hv Hc. apply Qeq_bool_iff in Hv. unfold py_lt.
  assert (Hle : Qle_bool v c = true) by (apply Qle_bool_iff; rewrite Hv; exact Hc).
  rewrite Hle. reflexivity.
Qed.

Lemma roe_points_claimed m :
  roe_points m = claimed_roe_points (return_on_equity m).
Proof.
  unfold roe_points, claimed_roe_points, truthy, py_ne.
  destruct (return_on_equity m) as [v |]; [| reflexivity].
  destruct (Qeq_bool v 0) eqn:E; simpl; [| reflexivity].
  rewrite !(py_lt_of_zero v) by (auto; discriminate). reflexivity.
Qed.

Lemma margin_points_claimed m :
  margin_points m = claimed_margin_points (net_margin m).
Proof.
  unfold margin_points, claimed_margin_points, truthy, py_ne.
  destruct (net_margin m) as [v |]; [| reflexivity].
  destruct (Qeq_bool v 0) eqn:E; simpl; [| reflexivity].
  rewrite !(py_lt_of_zero v) by (auto; discriminate). reflexivity.
Qed.

(** C5 (counterexample): a record with return on equity 18, net margin 25
    and debt-to-equity 0 gets financial strength 17, not the 10 + 8 + 7 the
    buckets give, because [if latest_metrics.debt_to_equity:] skips a zero
    ratio; [get_financial_metrics] builds such a record from statements
    whose total liabilities are the string ['0']. *)
Lemma debt_free_strength_cex :
  financial_strength (components (get_warren_buffett_score (Some debt_free_record) "")) = 17%Z /\
  claimed_financial_strength debt_free_record = 25%Z /\
  match fst (get_financial_metrics "000001" "ttm" debt_free_benefit debt_free_debt 1) with
  | [m] => opt_qeqb (debt_to_equity m) (Some 0) = true /\
           financial_strength (components (get_warren_buffett_score (Some m) "")) = 17%Z /\
           claimed_financial_strength m = 25%Z
  | _ => False
  end.
Proof. split; [| split]; vm_compute; [reflexivity | reflexivity |]. auto. Qed.

(** C5 (code bug): the base financial-strength sub-score does not depend
    on the industry tag, and it is the sum of the three buckets the spec
    states (return on equity, debt-to-equity, net margin) on every record,
    except that a debt-to-equity of exactly 0, the debt-free case of the
    [< 0.3] bucket, adds 0 instead of 8: [if latest_metrics.debt_to_equity:]
    is meant as a [None] test but also skips 0.0.  Return on equity 18,
    debt-to-equity 0.2 and net margin 25 give 25. *)
Theorem financial_strength_zero_debt_slip : forall m industry industry',
  financial_strength (components (get_warren_buffett_score (Some m) industry)) =
    financial_strength (components (get_warren_buffett_score (Some m) industry')) /\
  (financial_strength (components (get_warren_buffett_score (Some m) industry))
   + (match debt_to_equity m with Some v => if Qeq_bool v 0 then 8 else 0 | None => 0 end))%Z
    = claimed_financial_strength m /\
  financial_strength (components (get_warren_buffett_score (Some strong_record) industry))
    = 25%Z.
Proof.
  intros m industry industry'.
  assert (Hfs : forall m ind,
            financial_strength (components (get_warren_buffett_score (Some m) ind)) =
            (0 + roe_points m + debt_points m + margin_points m)%Z).
  { intros m0 ind. unfold get_warren_buffett_score, base_components. simpl.
    destruct (str_contains "银行" ind); [reflexivity |].
    destruct (str_contains "酿酒" ind); reflexivity. }
  split; [| split].
  - rewrite !Hfs. reflexivity.
  - rewrite Hfs, roe_points_claimed, margin_points_claimed.
    unfold claimed_financial_strength, debt_points, claimed_debt_points, truthy, py_ne.
    destruct (debt_to_equity m) as [v |]; [| lia].
    destruct (Qeq_bool v 0) eqn:E; simpl; [| lia].
    assert (Hlt : py_lt v (3 # 10) = true).
    { apply Qeq_bool_iff in E. unfold py_lt.
      destruct (Qle_bool (3 # 10) v) eqn:L; [| reflexivity].
      apply Qle_bool_iff in L. rewrite E in L. unfold Qle in L. simpl in L. lia. }
    rewrite Hlt. lia.
  - rewrite Hfs. vm_compute. reflexivity.
Qed.

Lemma grade_of_steps t :
  ((80 <= t)%Z -> grade_of t = GradeA) /\
  ((60 <= t < 80)%Z -> grade_of t = GradeB) /\
  ((40 <= t < 60)%Z -> grade_of t = GradeC) /\
  ((t < 40)%Z -> grade_of t = GradeD).
Proof.
  unfold grade_of.
  destruct (Z.leb_spec 80 t), (Z.leb_spec 60 t), (Z.leb_spec 40 t);
    repeat split; intros; try reflexivity; lia.
Qed.

(** C7: in the base and in the peer-adjusted (enhanced) scoring run, the
    total is the plain sum of the five sub-scores (no normalisation, no
    clamping), and the grade is A from 80, B from 60, C from 40 and D
    below. *)
Theorem total_is_sum_and_grade : forall latest industry ticker peers,
  let base := get_warren_buffett_score latest industry in
  let run := composite_score latest industry ticker peers in
  total_score base = sum_components (components base) /\
  grade base = grade_of (total_score base) /\
  total_score run = sum_components (components run) /\
  grade run = grade_of (total_score run) /\
  ((80 <= total_score run)%Z -> grade run = GradeA) /\
  ((60 <= total_score run < 80)%Z -> grade run = GradeB) /\
  ((40 <= total_score run < 60)%Z -> grade run = GradeC) /\
  ((total_score run < 40)%Z -> grade run = GradeD).
Proof.
  intros latest industry ticker peers base run.
  assert (Hrun : total_score run = sum_components (components run) /\
                 grade run = grade_of (total_score run)).
  { unfold run, composite_score, enhanced_score.
    destruct peers; split; reflexivity. }
  destruct Hrun as [Ht Hg].
  destruct (grade_of_steps (total_score run)) as [HA [HB [HC HD]]].
  rewrite <- Hg in HA, HB, HC, HD.
  repeat split; try reflexivity; auto.
Qed.

Lemma total_is_sum_and_grade_witness :
  let run := composite_score (Some strong_record) "银行" "600036" bank_peers in
  total_score run = 53%Z /\ grade run = GradeC /\
  ((40 <= total_score run < 60)%Z -> grade run = GradeC).
Proof.
  intro run.
  destruct (total_is_sum_and_grade (Some strong_record) "银行" "600036" bank_peers)
    as [_ [_ [_ [_ [_ [_ [HC _]]]]]]].
  split; [vm_compute; reflexivity | split; [vm_compute; reflexivity | exact HC]].
Defined.

(** ** Overall valuation *)

Lemma half_sum_ge (c s : Z) :
  py_le (inject_Z c) (inject_Z s / 2) = (2 * c <=? s)%Z.
Proof.
  unfold py_le. apply eq_true_iff_eq. rewrite Qle_bool_iff, Z.leb_le.
  cbv [Qle Qdiv Qmult Qinv inject_Z Qnum Qden]. lia.
Qed.

(** C8 (counterexample): with a PE ratio of 0 (assessed as
    negative-earnings) and a PB ratio of 1 (assessed as attractive) the
    verdict stays undetermined, while the mean (0 + 85) / 2 = 42.5 gives
    expensive. *)
Lemma zero_pe_verdict_cex :
  analyze_pe_ratio (Some 0) = NegativeEarnings /\
  analyze_pb_ratio (Some 1) = Attractive /\
  overall_valuation (Some 0) (Some 1) = Undetermined /\
  claimed_overall (Some 0) (Some 1) = OExpensive.
Proof. repeat split; vm_compute; reflexivity. Qed.

(** C8 (amended): when both the PE and the PB ratio are present and
    non-zero, the verdict is fixed by the mean of their two scores
    (mean >= 80, i.e. sum >= 160: attractive; >= 60: fair; >= 40:
    expensive; otherwise overvalued); when either is missing or zero it
    stays undetermined. *)
Theorem overall_from_mean : forall pe pb,
  let sum := (get_valuation_score pe "pe" + get_valuation_score pb "pb")%Z in
  overall_valuation pe pb =
    if truthy pe && truthy pb then
      if (160 <=? sum)%Z then OAttractive
      else if (120 <=? sum)%Z then OFair
      else if (80 <=? sum)%Z then OExpensive
      else OOvervalued
    else Undetermined.
Proof.
  intros pe pb sum. unfold overall_valuation.
  destruct (truthy pe && truthy pb); [| reflexivity].
  change 80 with (inject_Z 80). change 60 with (inject_Z 60). change 40 with (inject_Z 40).
  rewrite !half_sum_ge. reflexivity.
Qed.

Lemma assoc_app_none {A} k (l1 l2 : list (string * A)) :
  assoc k l1 = None -> assoc k (app l1 l2) = assoc k l2.
Proof.
  induction l1 as [| [k' v] l1 IH]; simpl; [reflexivity |].
  destruct (String.eqb k k'); [discriminate | exact IH].
Qed.

Lemma assoc_dict_set_same {A} k (v : A) d : assoc k (dict_set k v d) = Some v.
Proof.
  induction d as [| [k' v'] d IH]; simpl.
  - rewrite String.eqb_refl. reflexivity.
  - destruct (String.eqb_spec k k') as [-> | Hne]; simpl.
    + rewrite String.eqb_refl. reflexivity.
    + apply String.eqb_neq in Hne. rewrite Hne. exact IH.
Qed.

Lemma assoc_dict_set_other {A} k k' (v : A) d :
  k <> k' -> assoc k (dict_set k' v d) = assoc k d.
Proof.
  intro Hne. induction d as [| [k'' v'] d IH]; simpl.
  - apply String.eqb_neq in Hne. rewrite Hne. reflexivity.
  - destruct (String.eqb_spec k' k'') as [-> | Hne']; simpl.
    + apply String.eqb_neq in Hne. rewrite Hne. reflexivity.
    + destruct (String.eqb k k''); [reflexivity | exact IH].
Qed.

Lemma avoids_not_contains h s :
  avoids h s = true -> str_contains (String h EmptyString) s = false.
Proof.
  unfold avoids. induction s as [| c s IH]; simpl; intro H; [reflexivity |].
  apply andb_prop in H as [Hc Hs].
  destruct (ascii_dec h c) as [-> | _].
  - rewrite Ascii.eqb_refl in Hc. discriminate Hc.
  - simpl. exact (IH Hs).
Qed.

(** A string holding a comma is no [float] literal. *)
Lemma comma_not_float s :
  str_contains "," s = true -> py_float_str s = Raise ValueError.
Proof.
  intro Hc. destruct (py_float_str s) as [q |] eqn:E.
  - apply py_float_str_chars in E.
    rewrite (avoids_not_contains _ _ (float_chars_avoid "," s eq_refl E)) in Hc.
    discriminate Hc.
  - rewrite (py_float_str_raise _ _ E). reflexivity.
Qed.

Lemma keep_ok_all {A B} (f : A -> result B) l :
  (forall x, In x l -> exists y, f x = Ok y) -> length (keep_ok f l) = length l.
Proof.
  induction l as [| x l IH]; intro H; simpl; [reflexivity |].
  destruct (H x (or_introl eq_refl)) as [y Hy]. rewrite Hy. simpl.
  f_equal. apply IH. intros z Hz. exact (H z (or_intror Hz)).
Qed.

Lemma keep_ok_In {A B} (f : A -> result B) l y :
  In y (keep_ok f l) -> exists x, In x l /\ f x = Ok y.
Proof.
  induction l as [| x l IH]; simpl; [contradiction |].
  destruct (f x) as [y' |] eqn:E; simpl.
  - intros [<- | Hy]; [exists x; auto |].
    destruct (IH Hy) as [z [Hz Hf]]. exists z; auto.
  - intro Hy. destruct (IH Hy) as [z [Hz Hf]]. exists z; auto.
Qed.

Lemma py_slice_upto_neg_length {A} (xs : list A) (k : Z) :
  (0 < k)%Z -> length (py_slice_upto xs (- k)) = (length xs - Z.to_nat k)%nat.
Proof.
  intro Hk. unfold py_slice_upto.
  destruct (Z.leb_spec 0 (- k)) as [H | _]; [lia |].
  rewrite Z.opp_involutive, length_firstn. lia.
Qed.

Lemma py_slice_upto_incl {A} (xs : list A) (n : Z) x :
  In x (py_slice_upto xs n) -> In x xs.
Proof. unfold py_slice_upto. destruct (0 <=? n)%Z; apply in_firstn. Qed.

(* ------------------------------------------------------------------ *)
(** ** [StockService] *)

(** [StockService.get_stock_info] on the dicts of [get_company_info] and
    [get_valuation_metrics]: the company dict has none of the keys
    [name], [industry], [market_cap] and [description], and the valuation
    dict has no [dividend_yield]; so the name is always the ticker, those
    four fields are always [None], and only the two ratios come through. *)
Theorem service_stock_info_fields : forall ticker ci v,
  let r := service_stock_info ticker (company_info_dict ticker ci)
                              (valuation_metrics_dict ticker v) in
  sir_name r = VStr ticker /\ sir_industry r = VNone /\ sir_market_cap r = VNone /\
  sir_description r = VNone /\ sir_dividend_yield r = VNone /\
  sir_pe_ratio r = vopt (vs_pe_ratio (vm_state v)) /\
  sir_pb_ratio r = vopt (vs_pb_ratio (vm_state v)).
Proof. intros ticker ci v r. repeat split; reflexivity. Qed.

(** [StockService.get_industry_analysis] reads keys that the dicts of
    [get_industry_analysis] and [get_industry_peers] do not have
    ([industry_name], [industry_avg_pe], [industry_avg_pb], [peers]): the
    name is always ['未知行业'], the company count 0, the top companies
    empty and the averages [None], whatever the two calls found. *)
Theorem service_industry_analysis_constant : forall ia ip,
  service_industry_analysis (industry_analysis_dict ia) (industry_peers_dict ip) =
  Ok (mk_industry_analysis_response (VStr "未知行业") 0 VNone VNone (VList [])
        match ia with IAOk _ _ _ _ => VDict [] | IAError _ _ => VNone end).
Proof. intros [t m | t i p c] ip; reflexivity. Qed.

(** [StockService.get_stock_analysis] for ["warren_buffett"] reads
    [total_score], [investment_recommendation], [key_metrics] and
    [detailed_analysis] from the top level of the enhanced analysis dict,
    which has none of them: all four response fields are [None]. *)
Theorem service_stock_analysis_empty : forall ticker base peer_analysis hot_concepts,
  let r := service_stock_analysis_wb ticker
             (get_enhanced_warren_buffett_analysis ticker base peer_analysis hot_concepts) in
  sar_score r = VNone /\ sar_recommendation r = VNone /\
  sar_key_metrics r = VNone /\ sar_analysis_details r = VNone.
Proof.
  intros ticker base pa hc r. unfold r, service_stock_analysis_wb,
    get_enhanced_warren_buffett_analysis.
  destruct (0 <? length (ip_peer_stocks pa))%nat; repeat split; reflexivity.
Qed.

(* ------------------------------------------------------------------ *)
(** ** [search_line_items] *)

Section LineItemFields.
Variable r : row.

Lemma field_fold_raise l e : fold_left (field_step r) l (Raise e) = Raise e.
Proof. induction l as [| f l IH]; [reflexivity | exact IH]. Qed.

Lemma field_fold_stored l : forall a d,
  fold_left (field_step r) l (Ok a) = Ok d ->
  (forall f, In f l -> field_stored r d f) /\ (forall f, field_stored r a f -> field_stored r d f).
Proof.
  induction l as [| f l IH]; intros a d H; cbn [fold_left] in H.
  - inversion H; subst. split; [contradiction | auto].
  - assert (E : field_step r (Ok a) f =
                 match get_field_value r f with
                 | Ok v => Ok (dict_set f (LFloat v) a)
                 | Raise e => Raise e
                 end) by (unfold field_step; simpl; destruct (get_field_value r f); reflexivity).
    rewrite E in H.
    destruct (get_field_value r f) as [v |] eqn:Ev.
    + simpl in H. destruct (IH _ _ H) as [Hl Hkeep].
      assert (Hf : field_stored r (dict_set f (LFloat v) a) f)
        by (exists v; split; [exact Ev | apply assoc_dict_set_same]).
      split.
      * intros g [<- | Hg]; [exact (Hkeep _ Hf) | exact (Hl _ Hg)].
      * intros g [q [Hq Ha]]. apply Hkeep.
        destruct (String.eqb_spec g f) as [-> | Hne]; [exact Hf |].
        exists q. split; [exact Hq |]. rewrite assoc_dict_set_other by exact Hne. exact Ha.
    + simpl in H. rewrite field_fold_raise in H. discriminate H.
Qed.

End LineItemFields.

(** In the dict [search_line_items] builds for a row, every requested field
    holds the value the ratio engine computed for it, even when the field
    is one of the base keys ([ticker], [period], ...), which it then
    overwrites. *)
Theorem line_item_requested_fields : forall float_repr ticker line_items end_date period r d f,
  line_item_data float_repr ticker line_items end_date period r = Ok d ->
  In f line_items ->
  exists q, get_field_value r f = Ok q /\ assoc f d = Some (LFloat q).
Proof.
  intros fr t items ed p r d f H Hf. unfold line_item_data in H.
  destruct (get_field_value r _) as [v |] in H; [| discriminate H]. simpl in H.
  exact (proj1 (field_fold_stored r items _ _ H) f Hf).
Qed.

(** A negative [limit] [-k] cuts twice: the rows are cut to all but the
    last [k], and the converted items are cut again by [k]; when every row
    converts, [n] rows give [n - 2k] items. *)
Theorem line_items_negative_limit : forall float_repr line_item_ok ticker line_items
    end_date period k rows,
  (0 < k)%Z -> rows <> [] ->
  (forall r, In r rows -> exists d,
     line_item_data float_repr ticker line_items end_date period r = Ok d /\
     line_item_ok d = true) ->
  length (search_line_items float_repr line_item_ok ticker line_items end_date period
            (- k) (Ok rows)) = (length rows - Z.to_nat k - Z.to_nat k)%nat.
Proof.
  intros fr ok t items ed p k rows Hk Hne Hall.
  unfold search_line_items. destruct rows as [| r0 rows']; [congruence |].
  rewrite (py_slice_upto_neg_length _ _ Hk), keep_ok_all.
  - rewrite (py_slice_upto_neg_length _ _ Hk). reflexivity.
  - intros r Hr. apply py_slice_upto_incl in Hr.
    destruct (Hall r Hr) as [d [Hd Hok]].
    exists d. rewrite Hd. simpl. rewrite Hok. reflexivity.
Qed.

(* ------------------------------------------------------------------ *)
(** ** [get_financial_metrics_fallback] *)

Lemma prefix_app_drop pat s :
  String.prefix pat s = true -> s = pat ++ str_drop (String.length pat) s.
Proof.
  revert s. induction pat as [| c p IH]; intros s H; [reflexivity |].
  destruct s as [| c' s']; simpl in H; [discriminate H |].
  destruct (ascii_dec c c') as [<- |]; [| discriminate H].
  simpl. f_equal. exact (IH s' H).
Qed.

Lemma contains_comma_cons c s :
  str_contains "," s = true -> str_contains "," (String c s) = true.
Proof. intro H. cbn [str_contains]. rewrite H. apply orb_true_r. Qed.

(** Removing a pattern without a comma keeps a comma of the string. *)
Lemma replace_keeps_comma fuel pat : forall s,
  avoids ","%char pat = true -> str_contains "," s = true ->
  str_contains "," (replace_fuel fuel pat "" s) = true.
Proof.
  induction fuel as [| f IH]; intros s Hp Hc; [exact Hc |].
  destruct s as [| c s']; [discriminate Hc |].
  cbn [replace_fuel]. destruct (String.prefix pat (String c s')) eqn:Ep.
  - simpl. apply IH; [exact Hp |].
    pose proof (prefix_app_drop _ _ Ep) as E.
    set (t := str_drop (String.length pat) (String c s')) in *.
    rewrite E in Hc. rewrite (contains_app_avoid ","%char "" pat t Hp) in Hc. exact Hc.
  - cbn [str_contains] in Hc |- *.
    destruct (String.prefix "," (String c s')) eqn:Ec.
    + cbn [String.prefix] in Ec |- *.
      destruct (ascii_dec "," c); [destruct (replace_fuel f pat "" s'); reflexivity |
                                   discriminate Ec].
    + simpl in Hc. rewrite (IH s' Hp Hc). apply orb_true_r.
Qed.

(** The [safe_float] of the fallback removes 亿, 万 or % but never the
    thousands separators: a value with a comma yields the default. *)
Theorem fallback_comma_default : forall s d,
  str_contains "," s = true ->
  safe_float_fb (CStr s) d = Ok d.
Proof.
  intros s d Hc. unfold safe_float_fb. simpl in_sentinels4.
  destruct (String.eqb_spec s "False") as [-> | _]; [discriminate Hc |].
  destruct (String.eqb_spec s "") as [-> | _]; [discriminate Hc |]. simpl.
  assert (Hr : forall pat, avoids ","%char pat = true ->
                 py_float_str (str_replace pat "" s) = Raise ValueError)
    by (intros pat Hp; apply comma_not_float; apply replace_keeps_comma; assumption).
  destruct (str_contains YI s); [rewrite Hr by reflexivity; reflexivity |].
  destruct (str_contains WAN s); [rewrite Hr by reflexivity; reflexivity |].
  destruct (str_contains PCT s); [rewrite Hr by reflexivity; reflexivity |].
  simpl. rewrite (comma_not_float _ Hc). reflexivity.
Qed.

Lemma roe_points_le m : (roe_points m <= 10)%Z.
Proof.
  unfold roe_points. destruct (return_on_equity m); [| lia].
  repeat match goal with |- context [if ?b then _ else _] => destruct b end; lia.
Qed.

Lemma debt_points_le m : (debt_points m <= 8)%Z.
Proof.
  unfold debt_points. destruct (debt_to_equity m); [| lia].
  repeat match goal with |- context [if ?b then _ else _] => destruct b end; lia.
Qed.

Lemma fallback_metric_net_margin fr to_date t ed p r m :
  fallback_metric fr to_date t ed p r = Ok m -> net_margin m = None.
Proof.
  unfold fallback_metric, bind_result. intro H.
  repeat match type of H with
         | context [match ?x with Ok _ => _ | Raise _ => _ end] =>
             destruct x; [| discriminate H]
         end.
  inversion H. reflexivity.
Qed.

(** Records of the fallback path carry no net margin, so the financial
    strength score of the Warren Buffett analysis on such a record is at
    most 18 of its 25 points. *)
Theorem fallback_strength_cap : forall float_repr to_date ticker end_date period r m industry,
  fallback_metric float_repr to_date ticker end_date period r = Ok m ->
  net_margin m = None /\
  (financial_strength (base_components (Some m) industry) <= 18)%Z.
Proof.
  intros fr td t ed p r m ind H.
  pose proof (fallback_metric_net_margin _ _ _ _ _ _ _ H) as Hn.
  split; [exact Hn |].
  assert (Hm : margin_points m = 0%Z) by (unfold margin_points; rewrite Hn; reflexivity).
  unfold base_components.
  destruct (str_contains "银行" ind); [| destruct (str_contains "酿酒" ind)]; simpl;
    pose proof (roe_points_le m); pose proof (debt_points_le m); lia.
Qed.


(* ------------------------------------------------------------------ *)
(** ** [get_market_cap] *)

(** A first snapshot that has the [代码] column but not the ticker ends
    the retry loop ([break]): [get_market_cap] gives [None] at once,
    without the later attempts or the backup method. *)
Theorem market_cap_absent_no_retry : forall ticker spot backup data,
  spot 0%nat = Ok data -> has_column "代码" data = true -> spot_row ticker data = None ->
  get_market_cap ticker spot backup = None.
Proof.
  intros t spot b data Hs Hc Hr. unfold get_market_cap. simpl.
  unfold market_cap_attempt. rewrite Hs. simpl.
  destruct data as [| r0 data']; [reflexivity |]. rewrite Hc, Hr. reflexivity.
Qed.

(** The backup method ([stock_individual_info_em]) decides the answer
    exactly when all three attempts raise: then the answer is the backup's,
    and otherwise it does not depend on it. *)
Theorem market_cap_backup_iff_all_raise : forall ticker spot backup1 backup2,
  ((forall k, (k < 3)%nat -> exists e, market_cap_attempt ticker (spot k) = Raise e) ->
   get_market_cap ticker spot backup1 = market_cap_backup backup1) /\
  (get_market_cap ticker spot backup1 <> get_market_cap ticker spot backup2 ->
   forall k, (k < 3)%nat -> exists e, market_cap_attempt ticker (spot k) = Raise e).
Proof.
  intros t spot b1 b2. split.
  - intro H. unfold get_market_cap. simpl.
    destruct (H 0%nat ltac:(lia)) as [e0 ->]. destruct (H 1%nat ltac:(lia)) as [e1 ->].
    destruct (H 2%nat ltac:(lia)) as [e2 ->]. reflexivity.
  - unfold get_market_cap. simpl.
    destruct (market_cap_attempt t (spot 0%nat)) as [[x |] | e0] eqn:E0;
      [intro Hne; congruence | intro Hne; congruence |].
    destruct (market_cap_attempt t (spot 1%nat)) as [[x |] | e1] eqn:E1;
      [intro Hne; congruence | intro Hne; congruence |].
    destruct (market_cap_attempt t (spot 2%nat)) as [[x |] | e2] eqn:E2;
      [intro Hne; congruence | intro Hne; congruence |].
    intros _ k Hk. destruct k as [| [| [| k]]]; [eauto | eauto | eauto | lia].
Qed.

Lemma str_yi_suffix s q :
  py_float_str s = Ok q ->
  str_contains YI (s ++ YI) = true /\ str_replace YI "" (s ++ YI) = s.
Proof.
  intro H. destruct (parsed_avoids _ _ H) as [Ha _]. split.
  - rewrite YI_eq, (contains_app_avoid _ _ _ _ Ha). reflexivity.
  - rewrite YI_eq, (replace_app_avoid _ _ _ _ _ Ha). apply append_empty_r.
Qed.

(** The scan of the backup method, on a row whose [item] is 总市值: a
    number with 亿 is scaled by 1e8; a suffixed value that does not parse
    ends the scan with [None]; a plain value that does not parse is passed
    over for the later rows. *)
Theorem market_cap_backup_scan : forall r rows,
  cell_eqs (row_get r "item") "总市值" = true ->
  (forall s q, row_get_default r "value" (CStr "") = CStr (s ++ YI) ->
     py_float_str s = Ok q -> market_cap_backup (Ok (r :: rows)) = Some (q * q1e8)) /\
  (forall s, row_get_default r "value" (CStr "") = CStr s ->
     str_contains YI s = true -> py_float_str (str_replace YI "" s) = Raise ValueError ->
     market_cap_backup (Ok (r :: rows)) = None) /\
  (forall s, row_get_default r "value" (CStr "") = CStr s ->
     str_contains YI s = false -> str_contains WAN s = false ->
     py_float_str s = Raise ValueError ->
     market_cap_backup (Ok (r :: rows)) = market_cap_backup (Ok rows)).
Proof.
  intros r rows Hi. unfold market_cap_backup. cbn [market_cap_scan]. rewrite Hi.
  split; [| split].
  - intros s q Hv Hq. destruct (str_yi_suffix _ _ Hq) as [Hc Hr].
    rewrite Hv, Hc, Hr, Hq. reflexivity.
  - intros s Hv Hc Hf. rewrite Hv, Hc, Hf. reflexivity.
  - intros s Hv Hy Hw Hf. rewrite Hv, Hy, Hw, Hf.
    destruct rows; reflexivity.
Qed.

(* ------------------------------------------------------------------ *)
(** ** [get_real_time_quotes] *)

Lemma quote_of_spot_ticker fr t r q : quote_of_spot fr t r = Ok q -> q_ticker q = t.
Proof.
  unfold quote_of_spot, bind_result. intro H.
  repeat match type of H with
         | context [match ?x with Ok _ => _ | Raise _ => _ end] =>
             destruct x; [| discriminate H]
         end.
  inversion H. reflexivity.
Qed.

Lemma quote_of_hist_fields t d q :
  quote_of_hist t d = Ok q -> q_ticker q = t /\ q_name q = "股票" ++ t /\ q_change_pct q = 0.
Proof.
  unfold quote_of_hist, bind_result. intro H.
  destruct d as [rows |]; [| discriminate H].
  destruct (rev rows) as [| latest _]; [discriminate H |].
  repeat match type of H with
         | context [match ?x with Ok _ => _ | Raise _ => _ end] =>
             destruct x; [| discriminate H]
         end.
  inversion H. auto.
Qed.


Lemma quotes_fold_raise fr (data : list row) ts e :
  fold_left (quotes_step fr data) ts (Raise e) = Raise e.
Proof. induction ts; [reflexivity | exact IHts]. Qed.

Lemma quotes_fold_tickers fr (data : list row) ts : forall acc res,
  fold_left (quotes_step fr data) ts (Ok acc) = Ok res ->
  map q_ticker res = app (map q_ticker acc) (filter (found_in data) ts).
Proof.
  induction ts as [| t ts IH]; intros acc res H; cbn [fold_left] in H.
  - inversion H. rewrite app_nil_r. reflexivity.
  - unfold quotes_step at 2 in H. simpl in H.
    destruct (has_column "代码" data); simpl in H;
      [| rewrite quotes_fold_raise in H; discriminate H].
    unfold found_in at 1. simpl.
    destruct (spot_row t data) as [r |] eqn:Er.
    + destruct (quote_of_spot fr t r) as [q |] eqn:Eq; simpl in H.
      * rewrite (IH _ _ H), map_app, <- app_assoc. simpl.
        rewrite (quote_of_spot_ticker _ _ _ _ Eq). reflexivity.
      * rewrite quotes_fold_raise in H. discriminate H.
    + exact (IH _ _ H).
Qed.

(** When a snapshot attempt (the first, or one after attempts that raised)
    converts, the quotes are those of the requested tickers present in it,
    in the order requested (absent tickers are left out silently). *)
Theorem quotes_follow_request_order : forall float_repr tickers spot hist k data res,
  (k < 3)%nat ->
  (forall j, (j < k)%nat -> exists e, quotes_attempt float_repr tickers (spot j) = Raise e) ->
  spot k = Ok data ->
  quotes_attempt float_repr tickers (Ok data) = Ok (Return res) ->
  get_real_time_quotes float_repr tickers spot hist = res /\
  map q_ticker res = filter (found_in data) tickers.
Proof.
  intros fr ts spot hist k data res Hk Hj Hs Ha. split.
  - unfold get_real_time_quotes. simpl.
    destruct k as [| [| [| k]]]; [| | | lia].
    + rewrite Hs, Ha. reflexivity.
    + destruct (Hj 0%nat ltac:(lia)) as [e0 ->]. simpl. rewrite Hs, Ha. reflexivity.
    + destruct (Hj 0%nat ltac:(lia)) as [e0 ->]. destruct (Hj 1%nat ltac:(lia)) as [e1 ->].
      simpl. rewrite Hs, Ha. reflexivity.
  - unfold quotes_attempt in Ha. simpl in Ha. destruct data as [| r0 data']; [discriminate Ha |].
    destruct (fold_left _ ts (Ok [])) as [l |] eqn:E; [| discriminate Ha].
    inversion Ha; subst. exact (quotes_fold_tickers _ _ _ _ _ E).
Qed.

(** When all three snapshot attempts raise (for instance because one
    requested ticker has a cell [float] rejects), every quote comes from the
    daily history: a requested ticker, the placeholder name 股票 + ticker,
    and a change of 0. *)
Theorem quotes_backup_shape : forall float_repr tickers spot hist,
  (forall k, (k < 3)%nat -> exists e, quotes_attempt float_repr tickers (spot k) = Raise e) ->
  forall q, In q (get_real_time_quotes float_repr tickers spot hist) ->
  In (q_ticker q) tickers /\ q_name q = "股票" ++ q_ticker q /\ q_change_pct q = 0.
Proof.
  intros fr ts spot hist H q Hq. unfold get_real_time_quotes in Hq. simpl in Hq.
  destruct (H 0%nat ltac:(lia)) as [e0 E0]. destruct (H 1%nat ltac:(lia)) as [e1 E1].
  destruct (H 2%nat ltac:(lia)) as [e2 E2]. rewrite E0, E1, E2 in Hq.
  destruct (keep_ok_In _ _ _ Hq) as [t [Ht Hf]].
  destruct (quote_of_hist_fields _ _ _ Hf) as [Ht' [Hn Hc]].
  rewrite Ht'. auto.
Qed.

(* ------------------------------------------------------------------ *)
(** ** [get_company_info] and [get_industry_analysis] *)

Lemma assoc_not_key {A} k (l : list (string * A)) :
  ~ In k (map fst l) -> assoc k l = None.
Proof.
  induction l as [| [k' v] l IH]; simpl; intro H; [reflexivity |].
  destruct (String.eqb_spec k k') as [-> | _]; [tauto | apply IH; tauto].
Qed.

Lemma assoc_filter_nodup {A} (p : string * A -> bool) k l :
  NoDup (map fst l) ->
  assoc k (filter p l) =
    match assoc k l with Some v => if p (k, v) then Some v else None | None => None end.
Proof.
  induction l as [| [k' v] l IH]; simpl; intro Hnd; [reflexivity |].
  inversion Hnd as [| ? ? Hnin Hnd']; subst.
  destruct (String.eqb_spec k k') as [-> | Hne].
  - destruct (p (k', v)) eqn:Ep; simpl.
    + rewrite String.eqb_refl. reflexivity.
    + rewrite (IH Hnd'), (assoc_not_key _ _ Hnin). reflexivity.
  - destruct (p (k', v)); simpl;
      [apply String.eqb_neq in Hne; rewrite Hne |]; exact (IH Hnd').
Qed.

Lemma key_metrics_nodup latest : NoDup (map fst (key_metrics latest)).
Proof.
  simpl. repeat constructor; simpl;
    intro H; repeat (destruct H as [H | H]; [discriminate H |]); exact H.
Qed.

(** The three moat indicators of [get_company_info] show the metric of the
    latest report only when it is no sentinel: a metric of [0] (or
    [None], ['False'], ['']) is dropped from the summary and shows as
    ['N/A']. *)
Theorem moat_indicator_sentinel : forall float_repr info latest rest k col,
  In (k, col) [("ROE", "净资产收益率"); ("net_margin", "销售净利率"); ("debt_ratio", "产权比率")] ->
  summary_get (get_company_info float_repr info (Ok (latest :: rest))) k =
    if in_sentinels4 (row_get latest col) then VStr "N/A" else VCell (row_get latest col).
Proof.
  intros fr info latest rest k col Hk. unfold summary_get, get_company_info.
  cbn [financial_summary]. rewrite assoc_filter_nodup by apply key_metrics_nodup.
  destruct Hk as [Hk | [Hk | [Hk | []]]]; inversion Hk; subst; simpl;
    destruct (in_sentinels4 _); reflexivity.
Qed.



Lemma classify_industry ci item value :
  dict_get (industry_info (classify_info ci item value)) "行业" "" =
    if item =? "行业" then value else dict_get (industry_info ci) "行业" "".
Proof.
  unfold dict_get, classify_info.
  destruct (String.eqb_spec item "行业") as [-> | Hne].
  - simpl industry_info at 1. rewrite assoc_dict_set_same. reflexivity.
  - destruct (any_in basic_keys item); [reflexivity |].
    destruct (str_contains "行业" item).
    + cbn [industry_info]. rewrite assoc_dict_set_other by congruence. reflexivity.
    + destruct (any_in business_keys item); reflexivity.
Qed.

Lemma classify_fold_industry fr rows : forall ci,
  dict_get (industry_info (fold_left (fun ci r => classify_info ci (py_str fr (fst r))
                                                              (py_str fr (snd r))) rows ci))
           "行业" "" =
  fold_left (fun acc r => if py_str fr (fst r) =? "行业" then py_str fr (snd r) else acc)
            rows (dict_get (industry_info ci) "行业" "").
Proof.
  induction rows as [| r rows IH]; intro ci; [reflexivity |].
  simpl. rewrite IH, classify_industry. reflexivity.
Qed.

Lemma analysis_industry_of t ci : analysis_industry (get_industry_analysis t ci) = industry_of ci.
Proof.
  unfold get_industry_analysis.
  destruct (String.eqb_spec (industry_of ci) "") as [E | _]; [rewrite E; reflexivity |].
  destruct (str_contains "银行" (industry_of ci)); [reflexivity |].
  destruct (str_contains "酿酒" (industry_of ci)); reflexivity.
Qed.

(** The industry the Warren Buffett score is computed for is the value of
    the last [行业] row of [stock_individual_info_em], passed through
    [get_company_info] and [get_industry_analysis] (and [""] for a company
    without one); the financial fetch plays no part in it. *)
Theorem score_industry_is_last_row : forall float_repr ticker rows financial_data,
  analysis_industry
    (get_industry_analysis ticker (get_company_info float_repr (Ok rows) financial_data)) =
  last_industry_row float_repr rows.
Proof.
  intros fr t rows fd. rewrite analysis_industry_of. unfold industry_of, get_company_info.
  assert (H := classify_fold_industry fr rows empty_company_info).
  unfold dict_get in *. destruct fd as [[| latest rest] |]; simpl industry_info; exact H.
Qed.

(** [get_industry_analysis] answers an error exactly when the company has
    no [行业] entry (or an empty one); a banking industry gets the six
    listed bank stocks as peers. *)
Theorem industry_analysis_cases : forall ticker ci,
  (industry_of ci = "" <-> exists msg, get_industry_analysis ticker ci = IAError ticker msg) /\
  (str_contains "银行" (industry_of ci) = true ->
   get_industry_analysis ticker ci =
     IAOk ticker (industry_of ci) bank_stocks
       [("capital_intensive", VBool true); ("regulated", VBool true);
        ("cyclical", VBool true); ("moat_type", VStr "监管护城河");
        ("key_metrics", VList [VStr "ROE"; VStr "NIM"; VStr "NPL_ratio";
                               VStr "capital_adequacy"])]).
Proof.
  intros t ci. unfold get_industry_analysis. split.
  - destruct (String.eqb_spec (industry_of ci) "") as [E | Hne].
    + split; [eauto | intros _; exact E].
    + split; [congruence |]. intros [msg Hm].
      destruct (str_contains "银行" (industry_of ci)); [discriminate Hm |].
      destruct (str_contains "酿酒" (industry_of ci)); discriminate Hm.
  - intro Hb. destruct (String.eqb_spec (industry_of ci) "") as [E | _].
    + rewrite E in Hb. discriminate Hb.
    + rewrite Hb. reflexivity.
Qed.

(* ------------------------------------------------------------------ *)
(** ** [get_industry_peers] *)

Lemma map_result_length {A B} (f : A -> result B) l l' :
  map_result f l = Ok l' -> length l' = length l.
Proof.
  revert l'. induction l as [| x l IH]; intros l' H; simpl in H.
  - inversion H. reflexivity.
  - destruct (f x); [| discriminate H]. simpl in H.
    destruct (map_result f l) as [ys |]; [| discriminate H].
    inversion H. simpl. f_equal. apply IH. reflexivity.
Qed.

Lemma peers_loop_found fr board kws ps kw :
  peers_loop fr board kws = Some (ps, kw) ->
  In kw kws /\ (length ps <= 20)%nat /\ ps <> [].
Proof.
  induction kws as [| k kws IH]; simpl; intro H; [discriminate H |].
  destruct (board k) as [[| r0 rows] |]; try (destruct (IH H) as [? [? ?]]; auto; fail).
  destruct (map_result _ _) as [peers |] eqn:E.
  - inversion H; subst. apply map_result_length in E.
    split; [auto |]. split.
    + rewrite E. unfold py_slice_upto. change (0 <=? 20)%Z with true. cbv iota.
      rewrite length_firstn. lia.
    + intro Hn. subst. simpl in E. discriminate E.
  - destruct (IH H) as [? [? ?]]; auto.
Qed.

(** [get_industry_peers] lists at most 20 peers; a summary is present
    exactly when some peers were found, it counts them, and its keyword is
    one of the keywords of the company's industry. *)
Theorem industry_peers_shape : forall float_repr fl ticker ci board,
  let ip := get_industry_peers float_repr fl ticker ci board in
  (length (ip_peer_stocks ip) <= 20)%nat /\
  match ip_summary ip with
  | Some (n, _, kw) => n = length (ip_peer_stocks ip) /\ ip_peer_stocks ip <> [] /\
                       In kw (industry_keywords (industry_of ci))
  | None => ip_peer_stocks ip = []
  end.
Proof.
  intros fr fl t ci board ip. unfold ip, get_industry_peers.
  destruct (industry_of ci =? ""); [simpl; split; [lia | reflexivity] |].
  destruct (peers_loop fr board (industry_keywords (industry_of ci))) as [[ps kw] |] eqn:E;
    simpl; [| split; [lia | reflexivity]].
  destruct (peers_loop_found _ _ _ _ _ E) as [Hk [Hl Hn]]. auto.
Qed.

(* ------------------------------------------------------------------ *)
(** ** [get_concept_info] and [get_all_industries] *)

Lemma append_until_raise_app {A B} (f : A -> result B) pre l bs :
  map_result f pre = Ok bs -> append_until_raise f (app pre l) = app bs (append_until_raise f l).
Proof.
  revert bs. induction pre as [| x pre IH]; intros bs H; simpl in H.
  - inversion H. reflexivity.
  - destruct (f x) as [y |] eqn:Ef; [| discriminate H]. simpl in H.
    destruct (map_result f pre) as [ys |] eqn:Em; [| discriminate H].
    inversion H; subst. simpl. rewrite Ef, (IH ys eq_refl). reflexivity.
Qed.

Lemma map_result_raise_mid {A B} (f : A -> result B) pre x post e :
  f x = Raise e -> exists e', map_result f (app pre (x :: post)) = Raise e'.
Proof.
  intro Hx. induction pre as [| y pre IH]; simpl.
  - rewrite Hx. simpl. eauto.
  - destruct (f y); simpl; [| eauto].
    destruct IH as [e' ->]. simpl. eauto.
Qed.

(** A row that fails to convert truncates the hot-concept list of
    [get_concept_info] to the concepts converted before it (among the first
    20), while it empties the whole list of [get_all_industries]. *)
Theorem board_row_failure : forall float_repr pre bad post bs,
  (length pre < 20)%nat ->
  map_result (concept_info_of float_repr) pre = Ok bs ->
  ((exists e, concept_info_of float_repr bad = Raise e) ->
   get_concept_info float_repr (Ok (app pre (bad :: post))) = bs) /\
  ((exists e, industry_info_of float_repr bad = Raise e) ->
   get_all_industries float_repr (Ok (app pre (bad :: post))) = []).
Proof.
  intros fr pre bad post bs Hlen Hpre. split.
  - intros [e He]. unfold get_concept_info, py_slice_upto.
    change (0 <=? 20)%Z with true. cbv iota.
    rewrite firstn_app, firstn_all2 by (simpl; lia).
    change (Z.to_nat 20) with 20%nat.
    replace (20 - length pre)%nat with (S (19 - length pre)) by lia.
    simpl firstn. rewrite (append_until_raise_app _ _ _ _ Hpre). simpl. rewrite He.
    apply app_nil_r.
  - intros [e He]. unfold get_all_industries.
    destruct (map_result_raise_mid (industry_info_of fr) pre bad post e He) as [e' ->].
    reflexivity.
Qed.

(* ------------------------------------------------------------------ *)
(** ** The peer bonus of [get_enhanced_warren_buffett_analysis] *)

(** The peer comparison only ever adds 0, 1, 3 or 5 points, all to the
    competitive-advantage sub-score: the other four sub-scores are kept and
    the total never falls. *)
Theorem peer_bonus_values : forall latest industry ticker peers,
  let base := get_warren_buffett_score latest industry in
  let run := composite_score latest industry ticker peers in
  exists bonus, In bonus [0; 1; 3; 5]%Z /\
    competitive_advantage (components run) = (competitive_advantage (components base) + bonus)%Z /\
    business_understandability (components run) = business_understandability (components base) /\
    financial_strength (components run) = financial_strength (components base) /\
    management_quality (components run) = management_quality (components base) /\
    valuation_attractiveness (components run) = valuation_attractiveness (components base) /\
    total_score run = (total_score base + bonus)%Z.
Proof.
  intros latest ind t peers base run. unfold run, composite_score, enhanced_score.
  fold base. destruct peers as [| p0 peers'].
  - exists 0%Z. repeat split; simpl; auto; lia.
  - cbv zeta. unfold peer_adjust.
    destruct (List.find _ _) as [target |];
      [| exists 0%Z; unfold base, get_warren_buffett_score; simpl;
         repeat split; auto; unfold sum_components; lia].
    destruct (filter _ _) as [| x l];
      [exists 0%Z; unfold base, get_warren_buffett_score; simpl;
       repeat split; auto; unfold sum_components; lia |].
    match goal with
    | |- context [(competitive_advantage (components base) + ?b)%Z] =>
        exists b; split; [| unfold base, get_warren_buffett_score, sum_components; simpl;
                            repeat split; lia]
    end.
    repeat match goal with |- context [if ?c then _ else _] => destruct c end;
      simpl; auto 6.
Qed.

Lemma count_lt_self x l : In x l -> (count_lt x l < length l)%nat.
Proof.
  unfold count_lt. induction l as [| y l IH]; simpl; [contradiction |].
  intros [-> | Hx].
  - assert (Hx : py_lt x x = false)
      by (unfold py_lt; rewrite negb_false_iff; apply Qle_bool_iff, Qle_refl).
    rewrite Hx. pose proof (filter_length_le (fun pct => py_lt pct x) l). simpl. lia.
  - specialize (IH Hx). destruct (py_lt y x); simpl; lia.
Qed.

(** The target itself is among the non-zero changes it is ranked
    against and never beats itself: with a non-zero change of its own and
    at most five non-zero changes in all, its relative performance is at
    most 4/5, so the bonus is at most 3 of the 5 points. *)
Theorem peer_bonus_small_group : forall ticker c peers target,
  List.find (fun p => String.eqb (peer_ticker p) ticker) peers = Some target ->
  py_ne (change_pct target) 0 = true ->
  (length (filter (fun x => py_ne x 0) (map change_pct peers)) <= 5)%nat ->
  (competitive_advantage c <= competitive_advantage (peer_adjust ticker c peers)
     <= competitive_advantage c + 3)%Z.
Proof.
  intros t c peers target Hf Hnz Hlen. unfold peer_adjust. rewrite Hf.
  assert (Hin : In (change_pct target) (filter (fun x => py_ne x 0) (map change_pct peers))).
  { apply filter_In. split; [| exact Hnz]. apply in_map. exact (proj1 (find_some _ _ Hf)). }
  destruct (filter _ _) as [| x l] eqn:E; [simpl; lia |].
  try rewrite E in Hlen.
  pose proof (count_lt_self _ _ Hin) as Hc.
  set (n := length (x :: l)) in *. set (k := count_lt (change_pct target) (x :: l)) in *.
  clearbody n k.
  assert (Hgt : py_lt (4 # 5) (inject_Z (Z.of_nat k) / inject_Z (Z.of_nat n)) = false).
  { unfold py_lt. rewrite negb_false_iff. apply Qle_bool_iff.
    apply Qle_shift_div_r; [unfold Qlt; simpl; lia |].
    cbv [Qle Qmult Qnum Qden inject_Z]. rewrite ?Pos2Z.inj_mul. lia. }
  rewrite Hgt. simpl.
  repeat match goal with |- context [if ?b then _ else _] => destruct b end; simpl; lia.
Qed.

(* ------------------------------------------------------------------ *)
(** ** [get_valuation_metrics] *)

Lemma refill_cases cur set s v s' :
  refill cur set s v = Ok s' -> s' = s \/ exists x, s' = set x.
Proof.
  unfold refill. destruct (truthy cur); [intro H; inversion H; auto |].
  destruct v; [intro H; inversion H; auto | ..];
    repeat match goal with
           | |- context [if ?b then _ else _] => destruct b
           | |- context [match py_float ?c with _ => _ end] =>
               destruct (py_float c) as [x | [ | | | | ]]
           end; intro H; inversion H; eauto.
Qed.

Lemma derive_cases per cur set key s :
  derive per cur set key s = s \/
  (truthy cur = false /\ exists x, derive per cur set key s = set_ratio key (Some x) (set x s)).
Proof.
  unfold derive. destruct (vs_current_price s) as [p |]; [| auto].
  destruct per as [x |]; [| auto].
  destruct (truthy (Some p) && truthy (Some x) && py_lt 0 x); [| auto].
  destruct (truthy cur) eqn:Ec; [auto | right; eauto].
Qed.

Lemma derive_preserves per cur set key s k :
  (forall x t, vs_pe_ratio (set x t) = vs_pe_ratio t /\
               vs_valuation_ratios (set x t) = vs_valuation_ratios t) ->
  k <> key ->
  vs_pe_ratio (derive per cur set key s) = vs_pe_ratio s /\
  assoc k (vs_valuation_ratios (derive per cur set key s)) = assoc k (vs_valuation_ratios s).
Proof.
  intros Hset Hk. destruct (derive_cases per cur set key s) as [-> | [_ [x ->]]]; [auto |].
  simpl. destruct (Hset x s) as [H1 H2]. rewrite H1, assoc_dict_set_other, H2 by exact Hk.
  auto.
Qed.

Lemma spot_step_pe_keep s r :
  truthy (vs_pe_ratio s) = true -> vs_pe_ratio (spot_step s r) = vs_pe_ratio s.
Proof.
  intro Ht. unfold spot_step.
  destruct (if truthy (vs_current_price s) then Ok s else _) as [s1 |] eqn:E1; [| reflexivity].
  assert (H1 : vs_pe_ratio s1 = vs_pe_ratio s).
  { destruct (truthy (vs_current_price s)); [inversion E1; reflexivity |].
    unfold fmap_result in E1. destruct (py_float _); inversion E1; reflexivity. }
  unfold refill at 1. rewrite H1, Ht.
  destruct (refill (vs_pb_ratio s1) _ s1 (row_get r "市净率")) as [s3 |] eqn:E3;
    [| exact H1].
  assert (H3 : vs_pe_ratio s3 = vs_pe_ratio s).
  { destruct (refill_cases _ _ _ _ _ E3) as [-> | [x ->]]; [exact H1 | exact H1]. }
  destruct (refill (vs_market_cap s3) _ s3 (row_get r "总市值")) as [s4 |] eqn:E4;
    [| exact H3].
  destruct (refill_cases _ _ _ _ _ E4) as [-> | [x ->]]; exact H3.
Qed.

Lemma derive_step_pe_keep s :
  truthy (vs_pe_ratio s) = true -> vs_pe_ratio (derive_step s) = vs_pe_ratio s.
Proof.
  intro Ht. unfold derive_step.
  destruct (derive_cases (per_share s "eps") (vs_pe_ratio s) (fun x => set_pe (Some x))
              "pe_ratio_calculated" s) as [E1 | [Hf _]]; [| congruence].
  rewrite E1.
  match goal with |- context [derive ?a ?b ?c ?d s] =>
    destruct (derive_cases a b c d s) as [E2 | [_ [x E2]]]; rewrite E2 end;
  match goal with |- context [derive ?a ?b ?c ?d ?s2] =>
    destruct (derive_cases a b c d s2) as [E3 | [_ [y E3]]]; rewrite E3 end;
  reflexivity.
Qed.

(** A non-zero PE ratio found among the [stock_individual_info_em] rows
    (step 3) is the PE ratio [get_valuation_metrics] returns: neither the
    spot snapshot (step 4) nor the derived price / EPS (step 5) replaces
    it. *)
Theorem valuation_info_pe_kept : forall float_repr ticker quotes market_cap rows spot_data,
  let s3 := info_loop float_repr (set_market_cap market_cap (price_step quotes vstate0)) rows in
  truthy (vs_pe_ratio s3) = true ->
  vs_pe_ratio (vm_state (get_valuation_metrics float_repr ticker quotes market_cap
                           (Ok rows) spot_data)) = vs_pe_ratio s3.
Proof.
  intros fr t quotes mc rows spot s3 Ht. unfold get_valuation_metrics. cbv zeta.
  fold s3. simpl vm_state.
  set (s4 := match spot with
             | Ok data => match spot_row t data with Some r => spot_step s3 r | None => s3 end
             | Raise _ => s3
             end).
  assert (H4 : vs_pe_ratio s4 = vs_pe_ratio s3).
  { unfold s4. destruct spot as [data |]; [| reflexivity].
    destruct (spot_row t data); [apply spot_step_pe_keep; exact Ht | reflexivity]. }
  rewrite derive_step_pe_keep; [exact H4 | rewrite H4; exact Ht].
Qed.

Lemma py_lt_0_ne e : py_lt 0 e = true -> py_ne e 0 = true.
Proof.
  unfold py_lt, py_ne. intro H. apply negb_true_iff in H. apply negb_true_iff.
  destruct (Qeq_bool e 0) eqn:E; [| reflexivity].
  apply Qeq_bool_iff in E. rewrite E in H. discriminate H.
Qed.

(** When no non-zero PE ratio was found, a known non-zero price and a
    positive EPS give the PE ratio price / EPS, which is also recorded
    as [pe_ratio_calculated]. *)
Theorem valuation_derived_pe : forall s p e,
  vs_current_price s = Some p -> py_ne p 0 = true ->
  per_share s "eps" = Some e -> py_lt 0 e = true ->
  truthy (vs_pe_ratio s) = false ->
  vs_pe_ratio (derive_step s) = Some (p / e) /\
  assoc "pe_ratio_calculated" (vs_valuation_ratios (derive_step s)) = Some (Some (p / e)).
Proof.
  intros s p e Hp Hp0 He He0 Hpe. unfold derive_step.
  assert (E1 : derive (per_share s "eps") (vs_pe_ratio s) (fun x => set_pe (Some x))
                 "pe_ratio_calculated" s =
               set_ratio "pe_ratio_calculated" (Some (p / e)) (set_pe (Some (p / e)) s)).
  { unfold derive. rewrite Hp, He. simpl truthy. rewrite Hp0, (py_lt_0_ne _ He0), He0.
    simpl. rewrite Hpe. reflexivity. }
  rewrite E1.
  set (s1 := set_ratio "pe_ratio_calculated" (Some (p / e)) (set_pe (Some (p / e)) s)).
  assert (H1 : vs_pe_ratio s1 = Some (p / e) /\
               assoc "pe_ratio_calculated" (vs_valuation_ratios s1) = Some (Some (p / e)))
    by (split; [reflexivity | apply assoc_dict_set_same]).
  clearbody s1.
  match goal with |- context [derive ?a ?b ?c "pb_ratio_calculated" ?t] =>
    destruct (derive_preserves a b c "pb_ratio_calculated" t "pe_ratio_calculated")
      as [A1 B1]; [intros; split; reflexivity | discriminate |]
  end.
  match goal with |- context [derive ?a ?b ?c "ps_ratio_calculated" ?t] =>
    destruct (derive_preserves a b c "ps_ratio_calculated" t "pe_ratio_calculated")
      as [A2 B2]; [intros; split; reflexivity | discriminate |]
  end.
  rewrite A2, A1, B2, B1. exact H1.
Qed.

(** When the price is still missing at the spot snapshot (step 4) and its
    最新价 cell does not convert, the whole step is abandoned: the PE, PB
    and market-cap refills of that row are skipped. *)
Theorem valuation_spot_price_abort : forall s r e,
  truthy (vs_current_price s) = false ->
  py_float (row_get_default r "最新价" cell0) = Raise e ->
  spot_step s r = s.
Proof.
  intros s r e Hp Hf. unfold spot_step. rewrite Hp. unfold fmap_result. rewrite Hf.
  reflexivity.
Qed.

Lemma parse_info_value_cases v :
  (exists x, parse_info_value v = Ok x) \/ parse_info_value v = Raise ValueError.
Proof.
  unfold parse_info_value.
  destruct ((v =? "False") || (v =? "") || (v =? "-")); [left; eauto |].
  unfold fmap_result. destruct (py_float_str v) as [q |] eqn:E; [left; eauto |].
  right. rewrite (py_float_str_raise _ _ E). reflexivity.
Qed.

(** No row of [stock_individual_info_em] ends the loop of step 3 early
    ([float] on a [str] raises nothing but [ValueError], which is caught);
    and a row on 市盈率 valued ['False'], [''] or ['-'] resets the PE ratio
    to [None], whatever an earlier row set. *)
Theorem valuation_info_rows : forall s item value,
  (exists s', info_step s item value = Ok s') /\
  (str_contains "市盈率" item = true -> In value ["False"; ""; "-"] ->
   exists s', info_step s item value = Ok s' /\ vs_pe_ratio s' = None /\
              assoc "pe_ratio" (vs_valuation_ratios s') = Some None).
Proof.
  intros s item value. split.
  - unfold info_step. cbv zeta.
    destruct (parse_info_value_cases value) as [[x Hx] | Hx]; rewrite Hx;
      repeat match goal with |- context [if ?b then _ else _] => destruct b end; eauto.
  - intros Hc Hv. unfold info_step. rewrite Hc. cbv zeta.
    assert (Hn : parse_info_value value = Ok None)
      by (destruct Hv as [<- | [<- | [<- | []]]]; reflexivity).
    rewrite Hn. eexists. split; [reflexivity |].
    split; [reflexivity | apply assoc_dict_set_same].
Qed.

(* ------------------------------------------------------------------ *)
(** ** Instances of the properties above *)

Lemma line_item_requested_fields_witness :
  let d := match line_item_data sample_float_repr "600519" ["revenue"; "ticker"] "2024-12-31"
                   "ttm" sample_report_row with Ok d => d | Raise _ => [] end in
  line_item_data sample_float_repr "600519" ["revenue"; "ticker"] "2024-12-31" "ttm"
    sample_report_row = Ok d /\
  In "ticker" ["revenue"; "ticker"] /\
  exists q, get_field_value sample_report_row "ticker" = Ok q /\ assoc "ticker" d = Some (LFloat q).
Proof.
  intro d.
  assert (H : line_item_data sample_float_repr "600519" ["revenue"; "ticker"] "2024-12-31" "ttm"
                sample_report_row = Ok d) by (vm_compute; reflexivity).
  assert (Hin : In "ticker" ["revenue"; "ticker"]) by (simpl; auto).
  split; [exact H | split; [exact Hin |]].
  exact (line_item_requested_fields sample_float_repr "600519" ["revenue"; "ticker"] "2024-12-31"
           "ttm" sample_report_row d "ticker" H Hin).
Defined.

Lemma line_items_negative_limit_witness :
  (0 < 1)%Z /\ [sample_report_row; sample_report_row; sample_report_row] <> [] /\
  length (search_line_items sample_float_repr (fun _ => true) "600519" ["revenue"] "2024-12-31"
            "ttm" (- 1) (Ok [sample_report_row; sample_report_row; sample_report_row])) = 1%nat.
Proof.
  assert (Hk : (0 < 1)%Z) by lia.
  assert (Hne : [sample_report_row; sample_report_row; sample_report_row] <> [])
    by discriminate.
  split; [exact Hk | split; [exact Hne |]].
  refine (line_items_negative_limit sample_float_repr (fun _ => true) "600519" ["revenue"]
            "2024-12-31" "ttm" 1 _ Hk Hne _).
  intros r Hr. simpl in Hr.
  destruct Hr as [<- | [<- | [<- | []]]];
    (eexists; split; [vm_compute; reflexivity | reflexivity]).
Defined.

Lemma fallback_comma_default_witness :
  str_contains "," "1,234.5亿" = true /\ safe_float_fb (CStr "1,234.5亿") None = Ok None.
Proof.
  assert (Hc : str_contains "," "1,234.5亿" = true) by (vm_compute; reflexivity).
  split; [exact Hc |].
  exact (fallback_comma_default "1,234.5亿" None Hc).
Defined.

Lemma fallback_strength_cap_witness :
  let m := match fallback_metric sample_float_repr (fun s => Ok s) "600519" "2024-12-31" "ttm"
                   sample_report_row with Ok m => m | Raise _ => strong_record end in
  fallback_metric sample_float_repr (fun s => Ok s) "600519" "2024-12-31" "ttm"
    sample_report_row = Ok m /\
  net_margin m = None /\ (financial_strength (base_components (Some m) "酿酒") <= 18)%Z.
Proof.
  intro m.
  assert (H : fallback_metric sample_float_repr (fun s => Ok s) "600519" "2024-12-31" "ttm"
                sample_report_row = Ok m) by (vm_compute; reflexivity).
  split; [exact H |].
  exact (fallback_strength_cap sample_float_repr (fun s => Ok s) "600519" "2024-12-31" "ttm"
           sample_report_row m "酿酒" H).
Defined.

Lemma market_cap_absent_no_retry_witness :
  (fun _ : nat => Ok [sample_spot_row "000858" (CFloat 150)]) 0%nat =
    Ok [sample_spot_row "000858" (CFloat 150)] /\
  has_column "代码" [sample_spot_row "000858" (CFloat 150)] = true /\
  spot_row "600519" [sample_spot_row "000858" (CFloat 150)] = None /\
  get_market_cap "600519" (fun _ => Ok [sample_spot_row "000858" (CFloat 150)])
    (Ok [[("item", CStr "总市值"); ("value", CFloat 5)]]) = None.
Proof.
  assert (Hs : (fun _ : nat => Ok [sample_spot_row "000858" (CFloat 150)]) 0%nat =
                 Ok [sample_spot_row "000858" (CFloat 150)]) by reflexivity.
  assert (Hc : has_column "代码" [sample_spot_row "000858" (CFloat 150)] = true)
    by (vm_compute; reflexivity).
  assert (Hr : spot_row "600519" [sample_spot_row "000858" (CFloat 150)] = None)
    by (vm_compute; reflexivity).
  split; [exact Hs | split; [exact Hc | split; [exact Hr |]]].
  exact (market_cap_absent_no_retry "600519" _ _ _ Hs Hc Hr).
Defined.

Lemma market_cap_backup_iff_all_raise_witness :
  (forall k, (k < 3)%nat -> exists e,
     market_cap_attempt "600519" ((fun _ : nat => Raise ValueError) k) = Raise e) /\
  get_market_cap "600519" (fun _ => Raise ValueError)
    (Ok [[("item", CStr "总市值"); ("value", CFloat 5)]]) =
    market_cap_backup (Ok [[("item", CStr "总市值"); ("value", CFloat 5)]]) /\
  get_market_cap "600519" (fun _ => Raise ValueError)
    (Ok [[("item", CStr "总市值"); ("value", CFloat 5)]]) <>
  get_market_cap "600519" (fun _ => Raise ValueError) (Ok []).
Proof.
  assert (H : forall k, (k < 3)%nat -> exists e,
             market_cap_attempt "600519" ((fun _ : nat => Raise ValueError) k) = Raise e)
    by (intros k _; exists ValueError; reflexivity).
  split; [exact H | split].
  - exact (proj1 (market_cap_backup_iff_all_raise "600519" (fun _ => Raise ValueError)
                    (Ok [[("item", CStr "总市值"); ("value", CFloat 5)]]) (Ok [])) H).
  - vm_compute. discriminate.
Defined.

Lemma market_cap_backup_scan_witness :
  cell_eqs (row_get [("item", CStr "总市值"); ("value", CStr ("2" ++ YI))] "item") "总市值" = true /\
  market_cap_backup (Ok [[("item", CStr "总市值"); ("value", CStr ("2" ++ YI))]]) =
    Some (2 * q1e8).
Proof.
  assert (Hi : cell_eqs (row_get [("item", CStr "总市值"); ("value", CStr ("2" ++ YI))] "item")
                        "总市值" = true) by reflexivity.
  split; [exact Hi |].
  apply (proj1 (market_cap_backup_scan _ [] Hi) "2" 2); reflexivity.
Defined.

Lemma quotes_follow_request_order_witness :
  let data := [sample_spot_row "600519" (CFloat 1510)] in
  let spot := fun k : nat => if Nat.eqb k 0 then Ok [[("名称", CStr "x")]] else Ok data in
  let res := match quotes_attempt sample_float_repr ["000001"; "600519"] (Ok data) with
             | Ok (Return r) => r | _ => [] end in
  quotes_attempt sample_float_repr ["000001"; "600519"] (spot 0%nat) = Raise KeyError /\
  quotes_attempt sample_float_repr ["000001"; "600519"] (Ok data) = Ok (Return res) /\
  get_real_time_quotes sample_float_repr ["000001"; "600519"] spot
    (fun _ => Ok sample_hist) = res /\
  map q_ticker res = filter (found_in data) ["000001"; "600519"] /\
  map q_ticker res = ["600519"].
Proof.
  intros data spot res.
  assert (H0 : quotes_attempt sample_float_repr ["000001"; "600519"] (spot 0%nat) = Raise KeyError)
    by (vm_compute; reflexivity).
  assert (Ha : quotes_attempt sample_float_repr ["000001"; "600519"] (Ok data) = Ok (Return res))
    by (vm_compute; reflexivity).
  assert (Hj : forall j, (j < 1)%nat -> exists e,
             quotes_attempt sample_float_repr ["000001"; "600519"] (spot j) = Raise e)
    by (intros j Hj; assert (j = 0%nat) as -> by lia; exists KeyError; exact H0).
  destruct (quotes_follow_request_order sample_float_repr ["000001"; "600519"] spot
              (fun _ => Ok sample_hist) 1 data res ltac:(lia) Hj eq_refl Ha) as [H1 H2].
  split; [exact H0 | split; [exact Ha | split; [exact H1 | split; [exact H2 |]]]].
  vm_compute. reflexivity.
Defined.

Lemma quotes_backup_shape_witness :
  (forall k, (k < 3)%nat -> exists e,
     quotes_attempt sample_float_repr ["600519"]
       ((fun _ : nat => Ok [sample_spot_row "600519" (CStr "-")]) k) = Raise e) /\
  forall q, In q (get_real_time_quotes sample_float_repr ["600519"]
                    (fun _ => Ok [sample_spot_row "600519" (CStr "-")])
                    (fun _ => Ok sample_hist)) ->
  In (q_ticker q) ["600519"] /\ q_name q = "股票" ++ q_ticker q /\ q_change_pct q = 0.
Proof.
  assert (H : forall k, (k < 3)%nat -> exists e,
             quotes_attempt sample_float_repr ["600519"]
               ((fun _ : nat => Ok [sample_spot_row "600519" (CStr "-")]) k) = Raise e)
    by (intros k _; exists ValueError; vm_compute; reflexivity).
  split; [exact H |].
  exact (quotes_backup_shape sample_float_repr ["600519"]
           (fun _ => Ok [sample_spot_row "600519" (CStr "-")]) (fun _ => Ok sample_hist) H).
Defined.

Lemma moat_indicator_sentinel_witness :
  In ("net_margin", "销售净利率")
     [("ROE", "净资产收益率"); ("net_margin", "销售净利率"); ("debt_ratio", "产权比率")] /\
  summary_get (get_company_info sample_float_repr (Ok []) (Ok [sample_report_row])) "net_margin" =
    VStr "N/A".
Proof.
  assert (Hk : In ("net_margin", "销售净利率")
                  [("ROE", "净资产收益率"); ("net_margin", "销售净利率");
                   ("debt_ratio", "产权比率")]) by (simpl; auto).
  split; [exact Hk |].
  rewrite (moat_indicator_sentinel sample_float_repr (Ok []) sample_report_row [] _ _ Hk).
  reflexivity.
Defined.

Lemma industry_analysis_cases_witness :
  let ci := mk_company_info [] [] [("行业", "银行")] [] in
  str_contains "银行" (industry_of ci) = true /\
  analysis_industry (get_industry_analysis "600036" ci) = "银行" /\
  get_industry_analysis "600036" ci =
    IAOk "600036" "银行" bank_stocks
      [("capital_intensive", VBool true); ("regulated", VBool true);
       ("cyclical", VBool true); ("moat_type", VStr "监管护城河");
       ("key_metrics", VList [VStr "ROE"; VStr "NIM"; VStr "NPL_ratio";
                              VStr "capital_adequacy"])].
Proof.
  intro ci.
  assert (Hb : str_contains "银行" (industry_of ci) = true) by reflexivity.
  split; [exact Hb | split; [reflexivity |]].
  exact (proj2 (industry_analysis_cases "600036" ci) Hb).
Defined.

Lemma board_row_failure_witness :
  let good := sample_board_row (CInt i64_zero) in
  let bad := sample_board_row (CStr "x") in
  let bs := match map_result (concept_info_of sample_float_repr) [good] with
            | Ok bs => bs | Raise _ => [] end in
  (length [good] < 20)%nat /\
  map_result (concept_info_of sample_float_repr) [good] = Ok bs /\
  get_concept_info sample_float_repr (Ok (app [good] (bad :: [good]))) = bs /\
  get_all_industries sample_float_repr (Ok (app [good] (bad :: [good]))) = [] /\
  length bs = 1%nat.
Proof.
  intros good bad bs.
  assert (Hl : (length [good] < 20)%nat) by (simpl; lia).
  assert (Hm : map_result (concept_info_of sample_float_repr) [good] = Ok bs)
    by (vm_compute; reflexivity).
  destruct (board_row_failure sample_float_repr [good] bad [good] bs Hl Hm) as [H1 H2].
  split; [exact Hl | split; [exact Hm | split; [| split]]].
  - apply H1. exists ValueError. vm_compute. reflexivity.
  - apply H2. exists ValueError. vm_compute. reflexivity.
  - vm_compute. reflexivity.
Defined.

Lemma peer_bonus_small_group_witness :
  List.find (fun p => String.eqb (peer_ticker p) "600519") sample_peers =
    Some (mk_peer "600519" 3) /\
  py_ne (change_pct (mk_peer "600519" 3)) 0 = true /\
  (length (filter (fun x => py_ne x 0) (map change_pct sample_peers)) <= 5)%nat /\
  (competitive_advantage (mk_components 18 20 0 0 0) <=
     competitive_advantage (peer_adjust "600519" (mk_components 18 20 0 0 0) sample_peers)
     <= competitive_advantage (mk_components 18 20 0 0 0) + 3)%Z /\
  competitive_advantage (peer_adjust "600519" (mk_components 18 20 0 0 0) sample_peers) = 23%Z.
Proof.
  assert (Hf : List.find (fun p => String.eqb (peer_ticker p) "600519") sample_peers =
                 Some (mk_peer "600519" 3)) by reflexivity.
  assert (Hn : py_ne (change_pct (mk_peer "600519" 3)) 0 = true) by reflexivity.
  assert (Hl : (length (filter (fun x => py_ne x 0) (map change_pct sample_peers)) <= 5)%nat)
    by (vm_compute; lia).
  split; [exact Hf | split; [exact Hn | split; [exact Hl | split]]].
  - exact (peer_bonus_small_group "600519" (mk_components 18 20 0 0 0) sample_peers
             (mk_peer "600519" 3) Hf Hn Hl).
  - vm_compute. reflexivity.
Defined.

Lemma valuation_info_pe_kept_witness :
  let rows := [(CStr "市盈率(动态)", CStr "12.5")] in
  let s3 := info_loop sample_float_repr (set_market_cap None (price_step [] vstate0)) rows in
  truthy (vs_pe_ratio s3) = true /\
  vs_pe_ratio (vm_state (get_valuation_metrics sample_float_repr "600519" [] None (Ok rows)
                           (Ok [sample_spot_row "600519" (CFloat 1510)]))) = Some (125 # 10).
Proof.
  intros rows s3.
  assert (Ht : truthy (vs_pe_ratio s3) = true) by (vm_compute; reflexivity).
  split; [exact Ht |].
  rewrite (valuation_info_pe_kept sample_float_repr "600519" [] None rows
             (Ok [sample_spot_row "600519" (CFloat 1510)]) Ht).
  vm_compute. reflexivity.
Defined.

Lemma valuation_derived_pe_witness :
  let s := mk_vstate (Some 20) None None None None [] [] [("eps", Some 2)] in
  vs_current_price s = Some 20 /\ py_ne 20 0 = true /\ per_share s "eps" = Some 2 /\
  py_lt 0 2 = true /\ truthy (vs_pe_ratio s) = false /\
  vs_pe_ratio (derive_step s) = Some (20 / 2) /\
  assoc "pe_ratio_calculated" (vs_valuation_ratios (derive_step s)) = Some (Some (20 / 2)).
Proof.
  intro s.
  assert (H1 : vs_current_price s = Some 20) by reflexivity.
  assert (H2 : py_ne 20 0 = true) by reflexivity.
  assert (H3 : per_share s "eps" = Some 2) by reflexivity.
  assert (H4 : py_lt 0 2 = true) by reflexivity.
  assert (H5 : truthy (vs_pe_ratio s) = false) by reflexivity.
  do 5 (split; [assumption |]).
  exact (valuation_derived_pe s 20 2 H1 H2 H3 H4 H5).
Defined.

Lemma valuation_spot_price_abort_witness :
  truthy (vs_current_price vstate0) = false /\
  py_float (row_get_default (sample_spot_row "600519" (CStr "-")) "最新价" cell0) =
    Raise ValueError /\
  spot_step vstate0 (sample_spot_row "600519" (CStr "-")) = vstate0.
Proof.
  assert (H1 : truthy (vs_current_price vstate0) = false) by reflexivity.
  assert (H2 : py_float (row_get_default (sample_spot_row "600519" (CStr "-")) "最新价" cell0) =
                 Raise ValueError) by (vm_compute; reflexivity).
  split; [exact H1 | split; [exact H2 |]].
  exact (valuation_spot_price_abort vstate0 _ ValueError H1 H2).
Defined.

Lemma valuation_info_rows_witness :
  let s := set_pe (Some 12) vstate0 in
  str_contains "市盈率" "市盈率(动态)" = true /\ In "-" ["False"; ""; "-"] /\
  exists s', info_step s "市盈率(动态)" "-" = Ok s' /\ vs_pe_ratio s' = None /\
             assoc "pe_ratio" (vs_valuation_ratios s') = Some None.
Proof.
  intro s.
  assert (Hc : str_contains "市盈率" "市盈率(动态)" = true) by reflexivity.
  assert (Hv : In "-" ["False"; ""; "-"]) by (simpl; auto).
  split; [exact Hc | split; [exact Hv |]].
  exact (proj2 (valuation_info_rows s "市盈率(动态)" "-") Hc Hv).
Defined.
